(** * The user-service request pipeline, embedded in Rocq

    The three layers of [internal/app/user-service] are embedded shallowly:

    - [model]       : the [User] entity and its [BeforeCreate] hook;
    - [gorm]        : the ORM statements the repository issues, run against
                      an explicit table of rows with soft deletion;
    - [repository]  : the Persistence Gateway ([userRepository]);
    - [service]     : the Domain Service ([userService]);
    - [handler]     : the gRPC Protocol Handler ([UserHandler]).

    Go interfaces ([UserRepository], [UserService]) are records of
    closures, built by the [New...] constructors exactly as [main.go] wires
    them.  Every operation is a state transformer over the storage
    [Store].  The structured logger is an external collaborator that only
    receives messages; it is left out of the state. *)

From Stdlib Require Import ZArith String Ascii List Bool Lia.
From stdpp Require Import base strings gmap list.

Local Open Scope string_scope.
Local Open Scope Z_scope.

(** ** Go base types *)

(** Go's [int] is 64 bits wide on the deployment target, [int32] and
    [int64] are explicit; conversions and arithmetic wrap around. *)
Definition wrap (bits : Z) (z : Z) : Z :=
  (z + 2 ^ (bits - 1)) mod 2 ^ bits - 2 ^ (bits - 1).

Definition int (z : Z) : Z := wrap 64 z.
Definition int32 (z : Z) : Z := wrap 32 z.
Definition int64 (z : Z) : Z := wrap 64 z.

(** [len(s)] of a Go string: its number of bytes. *)
Definition len (s : string) : Z := Z.of_nat (String.length s).

(** [time.Time]; the zero time is [0]. *)
Definition Time := Z.
Definition IsZero (t : Time) : bool := t =? 0.

(** ** Error values

    The sentinel variables of the packages [repository], [service] and
    [gorm] are constructors; [Foreign] stands for an error value created
    by an external package (storage driver, bcrypt), which is never one of
    the sentinels; [Errorf] is [fmt.Errorf("<prefix>: %w", err)]. *)
Inductive error : Type :=
| ErrUserNotFound
| ErrUserAlreadyExists
| ErrInvalidUserData
| ErrInvalidPassword
| ErrInvalidEmail
| ErrRecordNotFound
| ErrMissingWhereClause
| Foreign (msg : string)
| Errorf (prefix : string) (wrapped : error).

#[global] Instance error_eq_dec : EqDecision error.
Proof. solve_decision. Defined.

(** [errors.Is(err, target)]: [target] occurs on the [%w] chain of [err]. *)
Fixpoint errors_Is (err target : error) : bool :=
  if decide (err = target) then true
  else match err with
       | Errorf _ wrapped => errors_Is wrapped target
       | _ => false
       end.

(** A Go result pair [(T, error)] with exactly one side meaningful. *)
Definition Result (A : Type) : Type := A + error.

(** ** package model *)
Module model.

Definition UserStatus := string.

Definition UserStatusActive : UserStatus := "active".
Definition UserStatusInactive : UserStatus := "inactive".
Definition UserStatusSuspended : UserStatus := "suspended".

(** [DeletedAt] is [gorm.DeletedAt], a nullable time: [None] is NULL. *)
Record User : Type := mkUser {
  ID : string;
  Email : string;
  Password : string;
  FirstName : string;
  LastName : string;
  Phone : string;
  Status : UserStatus;
  CreatedAt : Time;
  UpdatedAt : Time;
  DeletedAt : option Time
}.

#[global] Instance User_eq_dec : EqDecision User.
Proof. solve_decision. Defined.

Definition with_ID (v : string) (u : User) : User :=
  mkUser v (Email u) (Password u) (FirstName u) (LastName u) (Phone u)
         (Status u) (CreatedAt u) (UpdatedAt u) (DeletedAt u).
Definition with_Email (v : string) (u : User) : User :=
  mkUser (ID u) v (Password u) (FirstName u) (LastName u) (Phone u)
         (Status u) (CreatedAt u) (UpdatedAt u) (DeletedAt u).
Definition with_Password (v : string) (u : User) : User :=
  mkUser (ID u) (Email u) v (FirstName u) (LastName u) (Phone u)
         (Status u) (CreatedAt u) (UpdatedAt u) (DeletedAt u).
Definition with_FirstName (v : string) (u : User) : User :=
  mkUser (ID u) (Email u) (Password u) v (LastName u) (Phone u)
         (Status u) (CreatedAt u) (UpdatedAt u) (DeletedAt u).
Definition with_LastName (v : string) (u : User) : User :=
  mkUser (ID u) (Email u) (Password u) (FirstName u) v (Phone u)
         (Status u) (CreatedAt u) (UpdatedAt u) (DeletedAt u).
Definition with_Phone (v : string) (u : User) : User :=
  mkUser (ID u) (Email u) (Password u) (FirstName u) (LastName u) v
         (Status u) (CreatedAt u) (UpdatedAt u) (DeletedAt u).
Definition with_Status (v : UserStatus) (u : User) : User :=
  mkUser (ID u) (Email u) (Password u) (FirstName u) (LastName u) (Phone u)
         v (CreatedAt u) (UpdatedAt u) (DeletedAt u).
Definition with_CreatedAt (v : Time) (u : User) : User :=
  mkUser (ID u) (Email u) (Password u) (FirstName u) (LastName u) (Phone u)
         (Status u) v (UpdatedAt u) (DeletedAt u).
Definition with_UpdatedAt (v : Time) (u : User) : User :=
  mkUser (ID u) (Email u) (Password u) (FirstName u) (LastName u) (Phone u)
         (Status u) (CreatedAt u) v (DeletedAt u).
Definition with_DeletedAt (v : option Time) (u : User) : User :=
  mkUser (ID u) (Email u) (Password u) (FirstName u) (LastName u) (Phone u)
         (Status u) (CreatedAt u) (UpdatedAt u) v.

(** [func (u *User) BeforeCreate(tx *gorm.DB) error]; it never fails. *)
Definition BeforeCreate (u : User) : User :=
  if decide (Status u = "") then with_Status UserStatusActive u else u.

End model.

(** ** package gorm (the statements the repository issues)

    GORM is an external library; each definition below gives the
    documented behaviour of one call that occurs in [user_repository.go].
    The table [users] is a list of rows in the engine's natural
    (insertion) order.  [User] embeds [gorm.DeletedAt], so every query,
    update and delete statement is scoped to [deleted_at IS NULL] and
    [Delete] is a soft delete.  Each statement is recorded in [executed].

    What the storage engine itself decides is carried by the handle [DB]:
    its clock, the identifier its column default generates, its [LIKE]
    operator and whether it fails a statement (schema constraints, lost
    connection); the sources of these are not part of the repository. *)
Module gorm.
Import model.

(** The [Where] conditions that occur in [user_repository.go]:
    ["id = ?"], ["email = ?"] and
    ["first_name LIKE ? OR last_name LIKE ? OR email LIKE ?"]. *)
Inductive Cond : Type :=
| IdEq (id : string)
| EmailEq (email : string)
| NamesLike (p1 p2 p3 : string).

Inductive Stmt : Type :=
| SelectFirst (conds : list Cond)
| SelectCount (conds : list Cond)
| SelectFind (conds : list Cond) (offset limit : Z)
| InsertRow (u : User)
| UpdateRow (u : User)
| SoftDelete (conds : list Cond).

Record DB : Type := mkDB {
  NowFunc : nat -> Time;
  gen_random_uuid : nat -> string;
  LIKE : string -> string -> bool;
  fails : Stmt -> list User -> option string
}.

Record Store : Type := mkStore {
  users : list User;
  executed : list Stmt
}.

(** [gorm.DB] after a finisher: the fields the repository reads. *)
Record Outcome : Type := mkOutcome {
  Error : option error;
  RowsAffected : Z
}.

Definition M (A : Type) : Type := Store -> A * Store.

Definition active (u : User) : bool :=
  match DeletedAt u with None => true | Some _ => false end.

Definition holds (db : DB) (c : Cond) (u : User) : bool :=
  match c with
  | IdEq id => bool_decide (ID u = id)
  | EmailEq email => bool_decide (Email u = email)
  | NamesLike p1 p2 p3 =>
      LIKE db p1 (FirstName u) || LIKE db p2 (LastName u) || LIKE db p3 (Email u)
  end.

(** The rows a statement ranges over: not soft-deleted and satisfying
    every [Where]. *)
Definition scoped (db : DB) (conds : list Cond) (u : User) : bool :=
  active u && forallb (fun c => holds db c u) conds.

Definition record (q : Stmt) (s : Store) : Store :=
  mkStore (users s) (executed s ++ [q]).

Definition tick (s : Store) : nat := length (executed s).

(** [ORDER BY id LIMIT 1]: the row with the least primary key. *)
Fixpoint least_pk (l : list User) : option User :=
  match l with
  | [] => None
  | u :: l' =>
      match least_pk l' with
      | Some v => if String.ltb (ID v) (ID u) then Some v else Some u
      | None => Some u
      end
  end.

(** [db.Where(conds...).First(&user)] *)
Definition First (db : DB) (conds : list Cond) : M (Result User) := fun s =>
  let q := SelectFirst conds in
  match fails db q (users s) with
  | Some msg => (inr (Foreign msg), record q s)
  | None =>
      match least_pk (List.filter (scoped db conds) (users s)) with
      | Some u => (inl u, record q s)
      | None => (inr ErrRecordNotFound, record q s)
      end
  end.

(** [db.Create(user)]: runs the [BeforeCreate] hook, fills the
    [autoCreateTime]/[autoUpdateTime] fields that are zero, inserts, and
    reads back the identifier the column default generated when the
    struct carried none.  The struct behind the pointer is returned. *)
Definition Create (db : DB) (u : User) : M (User * option error) := fun s =>
  let now := NowFunc db (tick s) in
  let u1 := BeforeCreate u in
  let u2 := if IsZero (CreatedAt u1) then with_CreatedAt now u1 else u1 in
  let u3 := if IsZero (UpdatedAt u2) then with_UpdatedAt now u2 else u2 in
  let q := InsertRow u3 in
  match fails db q (users s) with
  | Some msg => ((u3, Some (Foreign msg)), record q s)
  | None =>
      let u4 := if decide (ID u3 = "")
                then with_ID (gen_random_uuid db (tick s)) u3 else u3 in
      ((u4, None), mkStore (users s ++ [u4]) (executed s ++ [q]))
  end.

Definition pick (new old : string) : string :=
  if decide (new = "") then old else new.

(** The [SET] clause of [Updates] with a struct argument.  When updating
    with a struct GORM writes only its non-zero fields: an empty string,
    a zero time or a null [DeletedAt] leaves the column as it is.  The
    primary key is the condition, not an assignment, and [updated_at]
    ([autoUpdateTime]) is set to the current time. *)
Definition assign (now : Time) (src row : User) : User :=
  mkUser (ID row)
         (pick (Email src) (Email row))
         (pick (Password src) (Password row))
         (pick (FirstName src) (FirstName row))
         (pick (LastName src) (LastName row))
         (pick (Phone src) (Phone row))
         (pick (Status src) (Status row))
         (if IsZero (CreatedAt src) then CreatedAt row else CreatedAt src)
         now
         (match DeletedAt src with Some t => Some t | None => DeletedAt row end).

Definition count (f : User -> bool) (l : list User) : Z :=
  Z.of_nat (length (List.filter f l)).

(** [db.Model(user).Updates(user)]: the primary key of [user] selects
    the row; without one the statement has no condition and is refused
    before it reaches the engine.  The [UpdatedAt] of the struct behind
    the pointer is set as well. *)
Definition Updates (db : DB) (u : User) : M (User * Outcome) := fun s =>
  let now := NowFunc db (tick s) in
  let u' := with_UpdatedAt now u in
  if decide (ID u = "") then ((u', mkOutcome (Some ErrMissingWhereClause) 0), s)
  else
    let q := UpdateRow u' in
    let hit := scoped db [IdEq (ID u)] in
    match fails db q (users s) with
    | Some msg => ((u', mkOutcome (Some (Foreign msg)) 0), record q s)
    | None =>
        ((u', mkOutcome None (count hit (users s))),
         mkStore (List.map (fun r => if hit r then assign now u r else r) (users s))
                 (executed s ++ [q]))
    end.

(** [db.Where(conds...).Delete(&model.User{})]: sets [deleted_at] on the
    rows in scope. *)
Definition Delete (db : DB) (conds : list Cond) : M Outcome := fun s =>
  let now := NowFunc db (tick s) in
  let q := SoftDelete conds in
  let hit := scoped db conds in
  match fails db q (users s) with
  | Some msg => (mkOutcome (Some (Foreign msg)) 0, record q s)
  | None =>
      (mkOutcome None (count hit (users s)),
       mkStore (List.map (fun r => if hit r then with_DeletedAt (Some now) r else r)
                         (users s))
               (executed s ++ [q]))
  end.

(** [query.Count(&total)] *)
Definition Count (db : DB) (conds : list Cond) : M (Z * option error) := fun s =>
  let q := SelectCount conds in
  match fails db q (users s) with
  | Some msg => ((0, Some (Foreign msg)), record q s)
  | None => ((int64 (count (scoped db conds) (users s)), None), record q s)
  end.

(** [LIMIT]/[OFFSET] as the statement builder emits them: the offset
    only when positive, the limit only when not negative. *)
Definition window (offset limit : Z) (l : list User) : list User :=
  let l1 := if 0 <? offset then skipn (Z.to_nat offset) l else l in
  if 0 <=? limit then firstn (Z.to_nat limit) l1 else l1.

(** [query.Offset(offset).Limit(limit).Find(&users)] *)
Definition Find (db : DB) (conds : list Cond) (offset limit : Z)
  : M (list User * option error) := fun s =>
  let q := SelectFind conds offset limit in
  match fails db q (users s) with
  | Some msg => (([], Some (Foreign msg)), record q s)
  | None =>
      ((window offset limit (List.filter (scoped db conds) (users s)), None),
       record q s)
  end.

End gorm.

(** ** Sequencing of storage effects *)
Definition ret {A : Type} (a : A) : gorm.M A := fun s => (a, s).
Definition bind {A B : Type} (m : gorm.M A) (k : A -> gorm.M B) : gorm.M B :=
  fun s => let (a, s') := m s in k a s'.

Declare Scope go_scope.
Delimit Scope go_scope with go.
Notation "x <- m ;; k" := (bind m (fun x => k))
  (at level 100, m at next level, right associativity) : go_scope.

Local Open Scope go_scope.

(** A pointer argument [*model.User]: [None] is [nil].  After a call the
    struct behind a non-nil pointer is read back with [deref]. *)
Definition deref (p : option model.User) (before : model.User) : model.User :=
  match p with Some u => u | None => before end.

(** ** package repository (Persistence Gateway) *)
Module repository.
Import model.

(** [type UserRepository interface].  [Create] and [Update] receive a
    pointer and may write through it: they return the struct behind it
    together with the error. *)
Record UserRepository : Type := mkUserRepository {
  Create : option User -> gorm.M (option User * option error);
  GetByID : string -> gorm.M (Result User);
  GetByEmail : string -> gorm.M (Result User);
  Update : option User -> gorm.M (option User * option error);
  Delete : string -> gorm.M (option error);
  List : Z -> Z -> string -> gorm.M (Result (list User * Z))
}.

Record userRepository : Type := mkuserRepository { db : gorm.DB }.

(** [func (r *userRepository) Create(ctx, user) error] *)
Definition userRepository_Create (r : userRepository) (user : option User)
  : gorm.M (option User * option error) :=
  match user with
  | None => ret (None, Some ErrInvalidUserData)
  | Some u =>
      existing <- gorm.First (db r) [gorm.EmailEq (Email u)] ;;
      match existing with
      | inl _ => ret (Some u, Some ErrUserAlreadyExists)
      | inr _ =>
          created <- gorm.Create (db r) u ;;
          match snd created with
          | Some err => ret (Some (fst created),
                             Some (Errorf "failed to create user" err))
          | None => ret (Some (fst created), None)
          end
      end
  end.

(** [func (r *userRepository) GetByID(ctx, id)] *)
Definition userRepository_GetByID (r : userRepository) (id : string)
  : gorm.M (Result User) :=
  found <- gorm.First (db r) [gorm.IdEq id] ;;
  match found with
  | inr err =>
      if errors_Is err ErrRecordNotFound then ret (inr ErrUserNotFound)
      else ret (inr (Errorf "failed to get user" err))
  | inl user => ret (inl user)
  end.

(** [func (r *userRepository) GetByEmail(ctx, email)] *)
Definition userRepository_GetByEmail (r : userRepository) (email : string)
  : gorm.M (Result User) :=
  found <- gorm.First (db r) [gorm.EmailEq email] ;;
  match found with
  | inr err =>
      if errors_Is err ErrRecordNotFound then ret (inr ErrUserNotFound)
      else ret (inr (Errorf "failed to get user by email" err))
  | inl user => ret (inl user)
  end.

(** [func (r *userRepository) Update(ctx, user) error] *)
Definition userRepository_Update (r : userRepository) (user : option User)
  : gorm.M (option User * option error) :=
  match user with
  | None => ret (None, Some ErrInvalidUserData)
  | Some u =>
      if decide (ID u = "") then ret (Some u, Some ErrInvalidUserData)
      else
        result <- gorm.Updates (db r) u ;;
        match gorm.Error (snd result) with
        | Some err => ret (Some (fst result),
                           Some (Errorf "failed to update user" err))
        | None =>
            if gorm.RowsAffected (snd result) =? 0
            then ret (Some (fst result), Some ErrUserNotFound)
            else ret (Some (fst result), None)
        end
  end.

(** [func (r *userRepository) Delete(ctx, id) error] *)
Definition userRepository_Delete (r : userRepository) (id : string)
  : gorm.M (option error) :=
  result <- gorm.Delete (db r) [gorm.IdEq id] ;;
  match gorm.Error result with
  | Some err => ret (Some (Errorf "failed to delete user" err))
  | None =>
      if gorm.RowsAffected result =? 0 then ret (Some ErrUserNotFound)
      else ret None
  end.

(** [func (r *userRepository) List(ctx, page, pageSize, filter)] *)
Definition userRepository_List (r : userRepository) (page pageSize : Z)
  (filter : string) : gorm.M (Result (list User * Z)) :=
  let query :=
    if decide (filter = "") then []
    else [gorm.NamesLike ("%" ++ filter ++ "%") ("%" ++ filter ++ "%")
                         ("%" ++ filter ++ "%")] in
  counted <- gorm.Count (db r) query ;;
  match snd counted with
  | Some err => ret (inr (Errorf "failed to count users" err))
  | None =>
      let total := fst counted in
      let offset := int (int (page - 1) * pageSize) in
      found <- gorm.Find (db r) query offset pageSize ;;
      match snd found with
      | Some err => ret (inr (Errorf "failed to list users" err))
      | None => ret (inl (fst found, total))
      end
  end.

(** [func NewUserRepository(db *gorm.DB) UserRepository] *)
Definition NewUserRepository (db : gorm.DB) : UserRepository :=
  let r := mkuserRepository db in
  mkUserRepository (userRepository_Create r) (userRepository_GetByID r)
                   (userRepository_GetByEmail r) (userRepository_Update r)
                   (userRepository_Delete r) (userRepository_List r).

End repository.

(** ** package bcrypt (golang.org/x/crypto/bcrypt)

    An external package: the service only relies on the two entry points
    below, whose behaviour is a parameter of the development. *)
Module bcrypt.

Definition DefaultCost : Z := 10.

Record Package : Type := mkPackage {
  GenerateFromPassword : string -> Z -> string + string;
  CompareHashAndPassword : string -> string -> option string
}.

End bcrypt.

(** ** Dynamically typed values

    The values a [map[string]interface{}] can hold; a type assertion
    [v.(T)] succeeds only on a value whose dynamic type is [T], and fails
    on a missing key (the nil interface). *)
Inductive any : Type :=
| AnyString (s : string)
| AnyUserStatus (s : model.UserStatus)
| AnyInt (z : Z)
| AnyBool (b : bool)
| AnyNil.

Definition assert_string (v : option any) : option string :=
  match v with Some (AnyString s) => Some s | _ => None end.

Definition assert_UserStatus (v : option any) : option model.UserStatus :=
  match v with Some (AnyUserStatus s) => Some s | _ => None end.

(** ** package service (Domain Service) *)
Module service.
Import model.

(** [type UserService interface] *)
Record UserService : Type := mkUserService {
  CreateUser : string -> string -> string -> string -> string
               -> gorm.M (Result User);
  GetUser : string -> gorm.M (Result User);
  GetUserByEmail : string -> gorm.M (Result User);
  UpdateUser : string -> gmap string any -> gorm.M (Result User);
  DeleteUser : string -> gorm.M (option error);
  ListUsers : Z -> Z -> string -> gorm.M (Result (list User * Z));
  ValidatePassword : string -> string -> gorm.M (Result User)
}.

Record userService : Type := mkuserService { repo : repository.UserRepository }.

Section Methods.
Variable crypto : bcrypt.Package.

(** [func (s *userService) CreateUser(ctx, email, password, firstName,
    lastName, phone)] *)
Definition userService_CreateUser (s : userService)
  (email password firstName lastName phone : string) : gorm.M (Result User) :=
  if decide (email = "") then ret (inr ErrInvalidEmail)
  else if bool_decide (password = "") || (len password <? 8)
  then ret (inr ErrInvalidPassword)
  else
    match bcrypt.GenerateFromPassword crypto password bcrypt.DefaultCost with
    | inr msg => ret (inr (Errorf "failed to hash password" (Foreign msg)))
    | inl hashedPassword =>
        let user := mkUser "" email hashedPassword firstName lastName phone
                           UserStatusActive 0 0 None in
        created <- repository.Create (repo s) (Some user) ;;
        match snd created with
        | Some err => ret (inr err)
        | None => ret (inl (deref (fst created) user))
        end
    end.

(** [func (s *userService) GetUser(ctx, id)] *)
Definition userService_GetUser (s : userService) (id : string)
  : gorm.M (Result User) :=
  found <- repository.GetByID (repo s) id ;;
  match found with
  | inr err => ret (inr err)
  | inl user => ret (inl user)
  end.

(** [func (s *userService) GetUserByEmail(ctx, email)] *)
Definition userService_GetUserByEmail (s : userService) (email : string)
  : gorm.M (Result User) :=
  found <- repository.GetByEmail (repo s) email ;;
  match found with
  | inr err => ret (inr err)
  | inl user => ret (inl user)
  end.

(** The "Apply updates" block of [UpdateUser]: five guarded assignments. *)
Definition apply_updates (updates : gmap string any) (user : User) : User :=
  let user := match assert_string (updates !! "email") with
              | Some email => with_Email email user | None => user end in
  let user := match assert_string (updates !! "first_name") with
              | Some firstName => with_FirstName firstName user | None => user end in
  let user := match assert_string (updates !! "last_name") with
              | Some lastName => with_LastName lastName user | None => user end in
  let user := match assert_string (updates !! "phone") with
              | Some phone => with_Phone phone user | None => user end in
  let user := match assert_UserStatus (updates !! "status") with
              | Some status => with_Status status user | None => user end in
  user.

(** [func (s *userService) UpdateUser(ctx, id, updates)] *)
Definition userService_UpdateUser (s : userService) (id : string)
  (updates : gmap string any) : gorm.M (Result User) :=
  found <- repository.GetByID (repo s) id ;;
  match found with
  | inr err => ret (inr err)
  | inl existing =>
      let user := apply_updates updates existing in
      updated <- repository.Update (repo s) (Some user) ;;
      match snd updated with
      | Some err => ret (inr err)
      | None => ret (inl (deref (fst updated) user))
      end
  end.

(** [func (s *userService) DeleteUser(ctx, id) error] *)
Definition userService_DeleteUser (s : userService) (id : string)
  : gorm.M (option error) :=
  failed <- repository.Delete (repo s) id ;;
  match failed with
  | Some err => ret (Some err)
  | None => ret None
  end.

(** [func (s *userService) ListUsers(ctx, page, pageSize, filter)] *)
Definition userService_ListUsers (s : userService) (page pageSize : Z)
  (filter : string) : gorm.M (Result (list User * Z)) :=
  let page := if page <? 1 then 1 else page in
  let pageSize := if (pageSize <? 1) || (100 <? pageSize) then 10 else pageSize in
  listed <- repository.List (repo s) page pageSize filter ;;
  match listed with
  | inr err => ret (inr err)
  | inl (users, total) => ret (inl (users, total))
  end.

(** [func (s *userService) ValidatePassword(ctx, email, password)] *)
Definition userService_ValidatePassword (s : userService)
  (email password : string) : gorm.M (Result User) :=
  found <- repository.GetByEmail (repo s) email ;;
  match found with
  | inr err => ret (inr err)
  | inl user =>
      match bcrypt.CompareHashAndPassword crypto (Password user) password with
      | Some _ => ret (inr ErrInvalidPassword)
      | None => ret (inl user)
      end
  end.

(** [func NewUserService(repo, logger) UserService] *)
Definition NewUserService (repo : repository.UserRepository) : UserService :=
  let s := mkuserService repo in
  mkUserService (userService_CreateUser s) (userService_GetUser s)
                (userService_GetUserByEmail s) (userService_UpdateUser s)
                (userService_DeleteUser s) (userService_ListUsers s)
                (userService_ValidatePassword s).

End Methods.
End service.

(** ** package codes and status (google.golang.org/grpc) *)
Module codes.

Inductive Code : Type := OK | NotFound | AlreadyExists | Internal.

End codes.

Module status.

(** The error built by [status.Error(code, msg)]. *)
Record Status : Type := Error { Code : codes.Code; Message : string }.

End status.

(** ** package pb (pkg/api/user/v1) *)
Module pb.

(** Modelled from the spec: the generated protobuf package
    [pkg/api/user/v1] is not among the sources.  The enum has the values
    unspecified, active, inactive and suspended; a wire value outside the
    table is kept as [UserStatus_unrecognized]. *)
Inductive UserStatus : Type :=
| UserStatus_USER_STATUS_UNSPECIFIED
| UserStatus_USER_STATUS_ACTIVE
| UserStatus_USER_STATUS_INACTIVE
| UserStatus_USER_STATUS_SUSPENDED
| UserStatus_unrecognized (n : Z).

(** Modelled from the spec: the wire [user] representation of
    [pkg/api/user/v1] has the fields id, email, firstName, lastName,
    phone, status, createdAt and updatedAt, the ones [modelToProto]
    fills. *)
Record User : Type := mkUser {
  Id : string;
  Email : string;
  FirstName : string;
  LastName : string;
  Phone : string;
  Status : UserStatus;
  CreatedAt : Time;
  UpdatedAt : Time
}.

(** Modelled from the spec: [CreateUserRequest] of [pkg/api/user/v1],
    with the fields the handler reads. *)
Record CreateUserRequest : Type := mkCreateUserRequest {
  CreateUserRequest_Email : string;
  CreateUserRequest_Password : string;
  CreateUserRequest_FirstName : string;
  CreateUserRequest_LastName : string;
  CreateUserRequest_Phone : string
}.

(** Modelled from the spec: [UpdateUserRequest] of [pkg/api/user/v1];
    every field but the id is optional. *)
Record UpdateUserRequest : Type := mkUpdateUserRequest {
  UpdateUserRequest_Id : string;
  UpdateUserRequest_Email : option string;
  UpdateUserRequest_FirstName : option string;
  UpdateUserRequest_LastName : option string;
  UpdateUserRequest_Phone : option string;
  UpdateUserRequest_Status : option UserStatus
}.

(** Modelled from the spec: [ListUsersRequest] of [pkg/api/user/v1];
    [page] and [page_size] are [int32]. *)
Record ListUsersRequest : Type := mkListUsersRequest {
  ListUsersRequest_Page : Z;
  ListUsersRequest_PageSize : Z;
  ListUsersRequest_Filter : string
}.

(** Modelled from the spec: [GetUserRequest], [GetUserByEmailRequest] and
    [DeleteUserRequest] of [pkg/api/user/v1], one field each. *)
Record GetUserRequest : Type := mkGetUserRequest { GetUserRequest_Id : string }.

Record GetUserByEmailRequest : Type :=
  mkGetUserByEmailRequest { GetUserByEmailRequest_Email : string }.

Record DeleteUserRequest : Type :=
  mkDeleteUserRequest { DeleteUserRequest_Id : string }.

(** Modelled from the spec: the responses of [pkg/api/user/v1] that carry
    one user. *)
Record CreateUserResponse : Type := mkCreateUserResponse { CreateUserResponse_User : User }.

Record GetUserResponse : Type := mkGetUserResponse { GetUserResponse_User : User }.

Record UpdateUserResponse : Type := mkUpdateUserResponse { UpdateUserResponse_User : User }.

(** Modelled from the spec: [ListUsersResponse] of [pkg/api/user/v1]:
    users, total, page and pageSize, the last three [int32]. *)
Record ListUsersResponse : Type := mkListUsersResponse {
  Users : list User;
  Total : Z;
  Page : Z;
  PageSize : Z
}.

(** [emptypb.Empty] *)
Record Empty : Type := mkEmpty { }.

End pb.

(** ** package handler (Protocol Handler) *)
Module handler.

(** What a gRPC method returns: the response message or a status error. *)
Definition Reply (A : Type) : Type := A + status.Status.

Record UserHandler : Type := mkUserHandler { service : service.UserService }.

(** [func NewUserHandler(service, logger) *UserHandler] *)
Definition NewUserHandler (service : service.UserService) : UserHandler :=
  mkUserHandler service.

(** [func (h *UserHandler) modelStatusToProto(status)] *)
Definition modelStatusToProto (h : UserHandler) (status : model.UserStatus)
  : pb.UserStatus :=
  if decide (status = model.UserStatusActive) then pb.UserStatus_USER_STATUS_ACTIVE
  else if decide (status = model.UserStatusInactive) then pb.UserStatus_USER_STATUS_INACTIVE
  else if decide (status = model.UserStatusSuspended) then pb.UserStatus_USER_STATUS_SUSPENDED
  else pb.UserStatus_USER_STATUS_UNSPECIFIED.

(** [func (h *UserHandler) protoStatusToModel(status)] *)
Definition protoStatusToModel (h : UserHandler) (status : pb.UserStatus)
  : model.UserStatus :=
  match status with
  | pb.UserStatus_USER_STATUS_ACTIVE => model.UserStatusActive
  | pb.UserStatus_USER_STATUS_INACTIVE => model.UserStatusInactive
  | pb.UserStatus_USER_STATUS_SUSPENDED => model.UserStatusSuspended
  | _ => model.UserStatusActive
  end.

(** [func (h *UserHandler) modelToProto(user) *pb.User] *)
Definition modelToProto (h : UserHandler) (user : model.User) : pb.User :=
  pb.mkUser (model.ID user) (model.Email user) (model.FirstName user)
            (model.LastName user) (model.Phone user)
            (modelStatusToProto h (model.Status user))
            (model.CreatedAt user) (model.UpdatedAt user).

(** [func (h *UserHandler) CreateUser(ctx, req)] *)
Definition CreateUser (h : UserHandler) (req : pb.CreateUserRequest)
  : gorm.M (Reply pb.CreateUserResponse) :=
  created <- service.CreateUser (service h)
               (pb.CreateUserRequest_Email req) (pb.CreateUserRequest_Password req)
               (pb.CreateUserRequest_FirstName req) (pb.CreateUserRequest_LastName req)
               (pb.CreateUserRequest_Phone req) ;;
  match created with
  | inr err =>
      if errors_Is err ErrUserAlreadyExists
      then ret (inr (status.Error codes.AlreadyExists "user already exists"))
      else ret (inr (status.Error codes.Internal "failed to create user"))
  | inl user => ret (inl (pb.mkCreateUserResponse (modelToProto h user)))
  end.

(** [func (h *UserHandler) GetUser(ctx, req)] *)
Definition GetUser (h : UserHandler) (req : pb.GetUserRequest)
  : gorm.M (Reply pb.GetUserResponse) :=
  found <- service.GetUser (service h) (pb.GetUserRequest_Id req) ;;
  match found with
  | inr err =>
      if errors_Is err ErrUserNotFound
      then ret (inr (status.Error codes.NotFound "user not found"))
      else ret (inr (status.Error codes.Internal "failed to get user"))
  | inl user => ret (inl (pb.mkGetUserResponse (modelToProto h user)))
  end.

(** [func (h *UserHandler) GetUserByEmail(ctx, req)] *)
Definition GetUserByEmail (h : UserHandler) (req : pb.GetUserByEmailRequest)
  : gorm.M (Reply pb.GetUserResponse) :=
  found <- service.GetUserByEmail (service h) (pb.GetUserByEmailRequest_Email req) ;;
  match found with
  | inr err =>
      if errors_Is err ErrUserNotFound
      then ret (inr (status.Error codes.NotFound "user not found"))
      else ret (inr (status.Error codes.Internal "failed to get user"))
  | inl user => ret (inl (pb.mkGetUserResponse (modelToProto h user)))
  end.

(** The map [UpdateUser] builds from the optional request fields. *)
Definition updates_of (h : UserHandler) (req : pb.UpdateUserRequest)
  : gmap string any :=
  let updates : gmap string any := ∅ in
  let updates := match pb.UpdateUserRequest_Email req with
                 | Some v => <["email" := AnyString v]> updates | None => updates end in
  let updates := match pb.UpdateUserRequest_FirstName req with
                 | Some v => <["first_name" := AnyString v]> updates | None => updates end in
  let updates := match pb.UpdateUserRequest_LastName req with
                 | Some v => <["last_name" := AnyString v]> updates | None => updates end in
  let updates := match pb.UpdateUserRequest_Phone req with
                 | Some v => <["phone" := AnyString v]> updates | None => updates end in
  let updates := match pb.UpdateUserRequest_Status req with
                 | Some v => <["status" := AnyUserStatus (protoStatusToModel h v)]> updates
                 | None => updates end in
  updates.

(** [func (h *UserHandler) UpdateUser(ctx, req)] *)
Definition UpdateUser (h : UserHandler) (req : pb.UpdateUserRequest)
  : gorm.M (Reply pb.UpdateUserResponse) :=
  let updates := updates_of h req in
  updated <- service.UpdateUser (service h) (pb.UpdateUserRequest_Id req) updates ;;
  match updated with
  | inr err =>
      if errors_Is err ErrUserNotFound
      then ret (inr (status.Error codes.NotFound "user not found"))
      else ret (inr (status.Error codes.Internal "failed to update user"))
  | inl user => ret (inl (pb.mkUpdateUserResponse (modelToProto h user)))
  end.

(** [func (h *UserHandler) DeleteUser(ctx, req)] *)
Definition DeleteUser (h : UserHandler) (req : pb.DeleteUserRequest)
  : gorm.M (Reply pb.Empty) :=
  failed <- service.DeleteUser (service h) (pb.DeleteUserRequest_Id req) ;;
  match failed with
  | Some err =>
      if errors_Is err ErrUserNotFound
      then ret (inr (status.Error codes.NotFound "user not found"))
      else ret (inr (status.Error codes.Internal "failed to delete user"))
  | None => ret (inl pb.mkEmpty)
  end.

(** [func (h *UserHandler) ListUsers(ctx, req)] *)
Definition ListUsers (h : UserHandler) (req : pb.ListUsersRequest)
  : gorm.M (Reply pb.ListUsersResponse) :=
  let page := int (pb.ListUsersRequest_Page req) in
  let pageSize := int (pb.ListUsersRequest_PageSize req) in
  let page := if page <? 1 then 1 else page in
  let pageSize := if pageSize <? 1 then 10 else pageSize in
  listed <- service.ListUsers (service h) page pageSize (pb.ListUsersRequest_Filter req) ;;
  match listed with
  | inr err => ret (inr (status.Error codes.Internal "failed to list users"))
  | inl (users, total) =>
      let pbUsers := List.map (modelToProto h) users in
      ret (inl (pb.mkListUsersResponse pbUsers (int32 total) (int32 page)
                                       (int32 pageSize)))
  end.

End handler.

(** ** The pipeline as [main.go] assembles it *)
Definition userRepo (db : gorm.DB) : repository.UserRepository :=
  repository.NewUserRepository db.

Definition userService (crypto : bcrypt.Package) (db : gorm.DB)
  : service.UserService :=
  service.NewUserService crypto (userRepo db).

Definition userHandler (crypto : bcrypt.Package) (db : gorm.DB)
  : handler.UserHandler :=
  handler.NewUserHandler (userService crypto db).

(** ** A concrete engine and table, used to run the pipeline *)
Module sample.

(** A [LIKE] operator: [%] matches any run of bytes, [_] any one byte. *)
Fixpoint like (pattern subject : string) : bool :=
  match pattern with
  | EmptyString => match subject with EmptyString => true | _ => false end
  | String c pattern' =>
      if Ascii.eqb c "%" then
        (fix skip (subject : string) : bool :=
           like pattern' subject ||
           match subject with
           | EmptyString => false
           | String _ subject' => skip subject'
           end) subject
      else
        match subject with
        | EmptyString => false
        | String d subject' =>
            (Ascii.eqb c "_" || Ascii.eqb c d) && like pattern' subject'
        end
  end.

Fixpoint uuid (n : nat) : string :=
  match n with
  | O => "0"
  | S n' => String "1" (uuid n')
  end.

(** An engine that never fails a statement. *)
Definition db : gorm.DB :=
  gorm.mkDB (fun n => 1000 + Z.of_nat n) uuid like (fun _ _ => None).

(** An engine whose table has a unique index on [email]. *)
Definition unique_email (q : gorm.Stmt) (rows : list model.User) : option string :=
  match q with
  | gorm.InsertRow u =>
      if existsb (fun r => bool_decide (model.Email r = model.Email u)) rows
      then Some "duplicate key value violates unique constraint"
      else None
  | _ => None
  end.

Definition strict_db : gorm.DB :=
  gorm.mkDB (fun n => 1000 + Z.of_nat n) uuid like unique_email.

(** An engine whose [id] column has the type uuid, as the model declares
    it: a statement that compares the column with the empty string, which
    is no uuid, is refused. *)
Definition empty_id (c : gorm.Cond) : bool :=
  match c with
  | gorm.IdEq id => bool_decide (id = "")
  | _ => false
  end.

Definition uuid_column (q : gorm.Stmt) (rows : list model.User) : option string :=
  match q with
  | gorm.SelectFirst conds | gorm.SelectCount conds | gorm.SelectFind conds _ _
  | gorm.SoftDelete conds =>
      if existsb empty_id conds
      then Some "invalid input syntax for type uuid" else None
  | _ => None
  end.

Definition uuid_db : gorm.DB :=
  gorm.mkDB (fun n => 1000 + Z.of_nat n) uuid like uuid_column.

Definition crypto : bcrypt.Package :=
  bcrypt.mkPackage
    (fun password _ =>
       if 72 <? len password then inr "password length exceeds 72 bytes"
       else inl ("$2a$10$" ++ password))
    (fun hashed password =>
       if decide (hashed = "$2a$10$" ++ password) then None
       else Some "hashedPassword is not the hash of the given password").

Definition ann : model.User :=
  model.mkUser "u1" "ann@x.com" "$2a$10$password1" "Ann" "Lee" "555"
               "active" 10 10 None.

Definition bob : model.User :=
  model.mkUser "u2" "bob@x.com" "$2a$10$password2" "Bob" "Ray" ""
               "inactive" 20 25 None.

(** A soft-deleted row. *)
Definition cat : model.User :=
  model.mkUser "u3" "cat@x.com" "$2a$10$password3" "Cat" "Fox" ""
               "active" 30 35 (Some 40).

Definition store : gorm.Store := gorm.mkStore [ann; bob; cat] [].

End sample.

(** * Specification vocabulary

    The definitions below follow the wording of the specification; the
    theorems compare them with the embedded code. *)

(** "clamps page to at least 1" *)
Definition effective_page (page : Z) : Z := Z.max 1 page.

(** "pageSize to the inclusive range [1,100], defaulting to 10 if out of
    range" *)
Definition effective_pageSize (pageSize : Z) : Z :=
  if decide (1 <= pageSize <= 100) then pageSize else 10.

(** "AlreadyExists -> conflict, NotFound -> not-found, all other errors ->
    generic internal failure" *)
Definition status_code_for (err : error) : codes.Code :=
  if errors_Is err ErrUserAlreadyExists then codes.AlreadyExists
  else if errors_Is err ErrUserNotFound then codes.NotFound
  else codes.Internal.

Inductive Operation : Type :=
| OpCreateUser | OpGetUser | OpGetUserByEmail
| OpUpdateUser | OpDeleteUser | OpListUsers.

(** The generic message that goes with a status code: a constant of the
    operation, never text of the error that caused it. *)
Definition generic_message (op : Operation) (code : codes.Code) : string :=
  match code with
  | codes.AlreadyExists => "user already exists"
  | codes.NotFound => "user not found"
  | _ =>
      match op with
      | OpCreateUser => "failed to create user"
      | OpGetUser | OpGetUserByEmail => "failed to get user"
      | OpUpdateUser => "failed to update user"
      | OpDeleteUser => "failed to delete user"
      | OpListUsers => "failed to list users"
      end
  end.

Definition failure_status (op : Operation) (err : error) : status.Status :=
  status.Error (status_code_for err) (generic_message op (status_code_for err)).

(** A handler reply [reply] answers the service outcome [outcome]: a
    success with a response, a failure with the status of its error. *)
Definition answers {A B : Type} (op : Operation)
  (outcome : (A + error) * gorm.Store)
  (reply : handler.Reply B * gorm.Store) : Prop :=
  match fst outcome with
  | inr err => reply = (inr (failure_status op err), snd outcome)
  | inl _ => exists resp, reply = (inl resp, snd outcome)
  end.

(** A result [error] of a call that returns nothing else. *)
Definition as_result (outcome : option error * gorm.Store)
  : (unit + error) * gorm.Store :=
  (match fst outcome with Some err => inr err | None => inl tt end, snd outcome).

(** "the credential hash never appears in any external representation":
    an entity with the credential (and the deletion mark) blanked, and a
    service all of whose returned entities are blanked that way. *)
Definition redact (u : model.User) : model.User :=
  model.with_DeletedAt None (model.with_Password "" u).

Definition redact_result (r : Result model.User) : Result model.User :=
  match r with
  | inl u => inl (redact u)
  | inr err => inr err
  end.

Definition redact_page (r : Result (list model.User * Z))
  : Result (list model.User * Z) :=
  match r with
  | inl (users, total) => inl (List.map redact users, total)
  | inr err => inr err
  end.

Definition redacted (svc : service.UserService) : service.UserService :=
  service.mkUserService
    (fun email password firstName lastName phone =>
       r <- service.CreateUser svc email password firstName lastName phone ;;
       ret (redact_result r))
    (fun id => r <- service.GetUser svc id ;; ret (redact_result r))
    (fun email => r <- service.GetUserByEmail svc email ;; ret (redact_result r))
    (fun id updates => r <- service.UpdateUser svc id updates ;; ret (redact_result r))
    (service.DeleteUser svc)
    (fun page pageSize filter =>
       r <- service.ListUsers svc page pageSize filter ;; ret (redact_page r))
    (fun email password =>
       r <- service.ValidatePassword svc email password ;; ret (redact_result r)).

(** "filter, if non-empty, is matched against first name, last name, or
    email (logical OR)" with the engine's [LIKE] on [%filter%]. *)
Definition matches (db : gorm.DB) (filter : string) (r : model.User) : bool :=
  if decide (filter = "") then true
  else gorm.LIKE db ("%" ++ filter ++ "%") (model.FirstName r)
       || gorm.LIKE db ("%" ++ filter ++ "%") (model.LastName r)
       || gorm.LIKE db ("%" ++ filter ++ "%") (model.Email r).

(** The rows that are not soft-deleted. *)
Definition active_rows (s : gorm.Store) : list model.User :=
  List.filter gorm.active (gorm.users s).

(** "a record with non-null deletedAt is not affected": from store [s] to
    store [s'] the table keeps its length and every soft-deleted row stays
    where it is, as it is. *)
Definition deleted_rows_untouched (s s' : gorm.Store) : Prop :=
  length (gorm.users s') = length (gorm.users s) /\
  forall (i : nat) (r : model.User),
    gorm.users s !! i = Some r -> model.DeletedAt r <> None ->
    gorm.users s' !! i = Some r.

(** "inserts, assigning id, createdAt, updatedAt, and defaulting status
    to active if empty": the record as [create] prepares it at time [now],
    and as it is stored once the engine has generated [id] for a record
    that carries none. *)
Definition prepared (now : Time) (u : model.User) : model.User :=
  model.mkUser (model.ID u) (model.Email u) (model.Password u)
    (model.FirstName u) (model.LastName u) (model.Phone u)
    (if decide (model.Status u = "") then model.UserStatusActive
     else model.Status u)
    (if decide (model.CreatedAt u = 0) then now else model.CreatedAt u)
    (if decide (model.UpdatedAt u = 0) then now else model.UpdatedAt u)
    (model.DeletedAt u).

Definition stored (id : string) (now : Time) (u : model.User) : model.User :=
  model.with_ID (if decide (model.ID u = "") then id else model.ID u)
                (prepared now u).

(** "applies only the keys present in updates, ignoring unknown keys, not
    clearing absent fields": the value of a string field, and of the
    status, after a sparse update.  A key counts when its value has the
    type of the field. *)
Definition field_after (key : string) (updates : gmap string any)
  (old : string) : string :=
  match updates !! key with
  | Some (AnyString v) => v
  | _ => old
  end.

Definition status_after (updates : gmap string any) (old : model.UserStatus)
  : model.UserStatus :=
  match updates !! "status" with
  | Some (AnyUserStatus v) => v
  | _ => old
  end.

Definition sparse_merge (updates : gmap string any) (u : model.User)
  : model.User :=
  model.mkUser (model.ID u)
    (field_after "email" updates (model.Email u))
    (model.Password u)
    (field_after "first_name" updates (model.FirstName u))
    (field_after "last_name" updates (model.LastName u))
    (field_after "phone" updates (model.Phone u))
    (status_after updates (model.Status u))
    (model.CreatedAt u) (model.UpdatedAt u) (model.DeletedAt u).

(** No value of the map is an empty string or an empty status. *)
Definition nonblank (updates : gmap string any) : Prop :=
  forall key, updates !! key <> Some (AnyString "") /\
              updates !! key <> Some (AnyUserStatus "").

(** "shorter than 8 characters": the characters of a string, as its UTF-8
    encoding spells them: one for every byte that does not continue a
    character (the continuation bytes are 128..191). *)
Definition continuation (c : ascii) : bool :=
  (128 <=? nat_of_ascii c)%nat && (nat_of_ascii c <=? 191)%nat.

Fixpoint characters (s : string) : nat :=
  match s with
  | EmptyString => 0
  | String c s' => if continuation c then characters s' else S (characters s')
  end.

(** The letter e with an acute accent, U+00E9: the two bytes 195 169. *)
Definition e_acute : string := String "195" (String "169" "").


(** ** package config (internal/pkg/config) *)
Module config.

Record DatabaseConfig : Type := mkDatabaseConfig {
  Host : string;
  Port : string;
  User : string;
  Password : string;
  Database : string;
  SSLMode : string
}.

(** [func (d *DatabaseConfig) GetDSN() string]: [fmt.Sprintf] with six
    [%s] verbs writes the six strings as they are. *)
Definition GetDSN (d : DatabaseConfig) : string :=
  "host=" ++ Host d ++ " port=" ++ Port d ++ " user=" ++ User d
  ++ " password=" ++ Password d ++ " dbname=" ++ Database d
  ++ " sslmode=" ++ SSLMode d.

End config.

(** ** Further vocabulary *)

(** The three statuses of the domain and their three wire values. *)
Definition known_status (s : model.UserStatus) : Prop :=
  s = model.UserStatusActive \/ s = model.UserStatusInactive \/
  s = model.UserStatusSuspended.

Definition known_wire_status (p : pb.UserStatus) : Prop :=
  p = pb.UserStatus_USER_STATUS_ACTIVE \/ p = pb.UserStatus_USER_STATUS_INACTIVE \/
  p = pb.UserStatus_USER_STATUS_SUSPENDED.

(** A string without a space. *)
Fixpoint spaceless (s : string) : Prop :=
  match s with
  | EmptyString => True
  | String c s' => c <> " "%char /\ spaceless s'
  end.

(** The emails of the rows that are not soft-deleted. *)
Definition active_emails (s : gorm.Store) : list string :=
  List.map model.Email (active_rows s).

(** A statement that only reads. *)
Definition is_select (q : gorm.Stmt) : Prop :=
  match q with
  | gorm.SelectFirst _ | gorm.SelectCount _ | gorm.SelectFind _ _ _ => True
  | _ => False
  end.

(** From store [s] to store [s'] nothing was written: the table is the
    same and only reading statements were executed. *)
Definition only_read (s s' : gorm.Store) : Prop :=
  gorm.users s' = gorm.users s /\
  exists qs, gorm.executed s' = (gorm.executed s ++ qs)%list /\ Forall is_select qs.

(** An engine that fails every lookup of one row (a lost connection at
    that moment) and executes every other statement. *)
Definition flaky_lookup (q : gorm.Stmt) (rows : list model.User) : option string :=
  match q with
  | gorm.SelectFirst _ => Some "connection reset by peer"
  | _ => None
  end.

Definition flaky_db : gorm.DB :=
  gorm.mkDB (gorm.NowFunc sample.db) (gorm.gen_random_uuid sample.db)
            (gorm.LIKE sample.db) flaky_lookup.

(** The active rows a list request with [filter] ranges over, in the
    engine's order. *)
Definition matching (db : gorm.DB) (filter : string) (s : gorm.Store)
  : list model.User :=
  List.filter (matches db filter) (active_rows s).

(** An engine that is down: it fails every statement. *)
Definition down_db : gorm.DB :=
  gorm.mkDB (gorm.NowFunc sample.db) (gorm.gen_random_uuid sample.db)
            (gorm.LIKE sample.db) (fun _ _ => Some "connection refused").

(** A database configuration whose values before the last one contain no
    space. *)
Definition spaceless_values (d : config.DatabaseConfig) : Prop :=
  spaceless (config.Host d) /\ spaceless (config.Port d) /\
  spaceless (config.User d) /\ spaceless (config.Password d) /\
  spaceless (config.Database d).
(** * Theorems *)

Ltac run := unfold bind, ret; cbn [fst snd].

(** ** Rows in and out of scope *)

Lemma count_zero (f : model.User -> bool) (l : list model.User) :
  gorm.count f l = 0 <-> (forall r, In r l -> f r = false).
Proof.
  unfold gorm.count. induction l as [|a l IH]; cbn.
  - split; [intros _ r []|reflexivity].
  - destruct (f a) eqn:Ha; cbn.
    + split; [lia|]. intros H. specialize (H a (or_introl eq_refl)). congruence.
    + rewrite IH. split.
      * intros H r [<-|Hr]; auto.
      * intros H r Hr. apply H. by right.
Qed.

Lemma filter_none (f : model.User -> bool) (l : list model.User) :
  (forall r, In r l -> f r = false) -> List.filter f l = [].
Proof.
  induction l as [|a l IH]; cbn; intros H; [reflexivity|].
  rewrite (H a (or_introl eq_refl)). apply IH. intros r Hr. apply H. by right.
Qed.

Lemma map_out_of_scope (f : model.User -> bool) (g : model.User -> model.User)
  (l : list model.User) :
  (forall r, In r l -> f r = false) ->
  List.map (fun r => if f r then g r else r) l = l.
Proof.
  induction l as [|a l IH]; cbn; intros H; [reflexivity|].
  rewrite (H a (or_introl eq_refl)), IH; [reflexivity|].
  intros r Hr. apply H. by right.
Qed.

Lemma lookup_map (f : model.User -> model.User) (l : list model.User) (i : nat) :
  List.map f l !! i = f <$> (l !! i).
Proof.
  revert i. induction l as [|a l IH]; intros [|i]; cbn; auto.
Qed.

Lemma scoped_active (db : gorm.DB) (conds : list gorm.Cond) (r : model.User) :
  gorm.scoped db conds r = true -> model.DeletedAt r = None.
Proof.
  unfold gorm.scoped, gorm.active. destruct (model.DeletedAt r); cbn; congruence.
Qed.

Lemma scoped_IdEq (db : gorm.DB) (id : string) (r : model.User) :
  gorm.scoped db [gorm.IdEq id] r = true <->
  model.DeletedAt r = None /\ model.ID r = id.
Proof.
  unfold gorm.scoped, gorm.active. cbn. rewrite andb_true_r.
  destruct (model.DeletedAt r); cbn.
  - split; [congruence|]. intros [? _]. congruence.
  - rewrite bool_decide_eq_true. tauto.
Qed.

Lemma scoped_EmailEq (db : gorm.DB) (email : string) (r : model.User) :
  gorm.scoped db [gorm.EmailEq email] r = true <->
  model.DeletedAt r = None /\ model.Email r = email.
Proof.
  unfold gorm.scoped, gorm.active. cbn. rewrite andb_true_r.
  destruct (model.DeletedAt r); cbn.
  - split; [congruence|]. intros [? _]. congruence.
  - rewrite bool_decide_eq_true. tauto.
Qed.

Lemma least_pk_In (l : list model.User) (u : model.User) :
  gorm.least_pk l = Some u -> In u l.
Proof.
  revert u. induction l as [|a l IH]; cbn; intros u; [intros [=]|].
  destruct (gorm.least_pk l) as [v|].
  - destruct (String.ltb _ _); intros [= <-]; auto.
  - intros [= <-]. auto.
Qed.

Lemma least_pk_None (l : list model.User) :
  gorm.least_pk l = None <-> l = [].
Proof.
  destruct l as [|a l]; cbn; [tauto|].
  split; [|intros [=]].
  destruct (gorm.least_pk l); [destruct (String.ltb _ _)|]; intros [=].
Qed.

(** ** The gateway, statement by statement *)
Section Gateway.
Variable db : gorm.DB.

(** What [First] returns, by cases. *)
Lemma First_found (conds : list gorm.Cond) (s s' : gorm.Store) (u : model.User) :
  gorm.First db conds s = (inl u, s') ->
  In u (gorm.users s) /\ gorm.scoped db conds u = true /\
  gorm.users s' = gorm.users s.
Proof.
  unfold gorm.First. intros H. repeat (case_match; simplify_eq/=).
  match goal with H : gorm.least_pk _ = Some _ |- _ =>
    apply least_pk_In, List.filter_In in H as [? ?] end.
  auto.
Qed.

Lemma First_none (conds : list gorm.Cond) (s : gorm.Store) :
  gorm.fails db (gorm.SelectFirst conds) (gorm.users s) = None ->
  (forall r, In r (gorm.users s) -> gorm.scoped db conds r = false) ->
  gorm.First db conds s
  = (inr ErrRecordNotFound, gorm.record (gorm.SelectFirst conds) s).
Proof.
  intros Hok Hnone. unfold gorm.First. rewrite Hok.
  by rewrite (filter_none _ _ Hnone).
Qed.

Lemma First_some (conds : list gorm.Cond) (s : gorm.Store) (r : model.User) :
  gorm.fails db (gorm.SelectFirst conds) (gorm.users s) = None ->
  In r (gorm.users s) -> gorm.scoped db conds r = true ->
  exists u, gorm.First db conds s = (inl u, gorm.record (gorm.SelectFirst conds) s).
Proof.
  intros Hok Hin Hr. unfold gorm.First. rewrite Hok.
  destruct (gorm.least_pk _) as [u|] eqn:Hl; [eauto|].
  apply least_pk_None in Hl.
  assert (In r (List.filter (gorm.scoped db conds) (gorm.users s)))
    by (apply List.filter_In; auto).
  rewrite Hl in *. contradiction.
Qed.

(** [Delete] of the gateway, statement by statement. *)
Lemma Delete_unfold (id : string) (s : gorm.Store) :
  repository.Delete (userRepo db) id s
  = let q := gorm.SoftDelete [gorm.IdEq id] in
    let hit := gorm.scoped db [gorm.IdEq id] in
    match gorm.fails db q (gorm.users s) with
    | Some msg =>
        (Some (Errorf "failed to delete user" (Foreign msg)), gorm.record q s)
    | None =>
        (if gorm.count hit (gorm.users s) =? 0 then Some ErrUserNotFound else None,
         gorm.mkStore
           (List.map (fun r => if hit r
                               then model.with_DeletedAt
                                      (Some (gorm.NowFunc db (gorm.tick s))) r
                               else r) (gorm.users s))
           (gorm.executed s ++ [q]))
    end.
Proof.
  cbn. unfold repository.userRepository_Delete, gorm.Delete. run.
  cbn [repository.db]. repeat (case_match; simplify_eq/=); reflexivity.
Qed.

(** [Update] of the gateway on a record with an identifier. *)
Lemma Update_unfold (u : model.User) (s : gorm.Store) :
  model.ID u <> "" ->
  repository.Update (userRepo db) (Some u) s
  = let now := gorm.NowFunc db (gorm.tick s) in
    let u' := model.with_UpdatedAt now u in
    let q := gorm.UpdateRow u' in
    let hit := gorm.scoped db [gorm.IdEq (model.ID u)] in
    match gorm.fails db q (gorm.users s) with
    | Some msg =>
        ((Some u', Some (Errorf "failed to update user" (Foreign msg))),
         gorm.record q s)
    | None =>
        ((Some u',
          if gorm.count hit (gorm.users s) =? 0 then Some ErrUserNotFound else None),
         gorm.mkStore
           (List.map (fun r => if hit r then gorm.assign now u r else r)
                     (gorm.users s))
           (gorm.executed s ++ [q]))
    end.
Proof.
  intros Hid. cbn. unfold repository.userRepository_Update, gorm.Updates. run.
  cbn [repository.db]. repeat (case_match; simplify_eq/=); reflexivity.
Qed.

(** The errors each operation of the gateway can return. *)
Lemma First_errors (conds : list gorm.Cond) (s s' : gorm.Store) (err : error) :
  gorm.First db conds s = (inr err, s') ->
  err = ErrRecordNotFound \/ exists msg, err = Foreign msg.
Proof.
  unfold gorm.First. repeat case_match; intros [=]; subst; eauto.
Qed.

Lemma Create_errors (u : model.User) (s s' : gorm.Store)
  (p : option model.User) (err : error) :
  repository.Create (userRepo db) (Some u) s = ((p, Some err), s') ->
  err = ErrUserAlreadyExists \/
  exists msg, err = Errorf "failed to create user" (Foreign msg).
Proof.
  cbn. unfold repository.userRepository_Create, gorm.Create. run.
  intros H. repeat (case_match; simplify_eq/=); eauto.
Qed.

Lemma GetByID_errors (id : string) (s s' : gorm.Store) (err : error) :
  repository.GetByID (userRepo db) id s = (inr err, s') ->
  err = ErrUserNotFound \/
  exists msg, err = Errorf "failed to get user" (Foreign msg).
Proof.
  cbn. unfold repository.userRepository_GetByID. run.
  destruct (gorm.First _ _ s) as [[u|e] s0] eqn:HF; [intros [=]|].
  apply First_errors in HF as [->|[m ->]]; cbn; intros [=]; subst; eauto.
Qed.

Lemma GetByEmail_errors (email : string) (s s' : gorm.Store) (err : error) :
  repository.GetByEmail (userRepo db) email s = (inr err, s') ->
  err = ErrUserNotFound \/
  exists msg, err = Errorf "failed to get user by email" (Foreign msg).
Proof.
  cbn. unfold repository.userRepository_GetByEmail. run.
  destruct (gorm.First _ _ s) as [[u|e] s0] eqn:HF; [intros [=]|].
  apply First_errors in HF as [->|[m ->]]; cbn; intros [=]; subst; eauto.
Qed.

Lemma Update_errors (u : model.User) (s s' : gorm.Store)
  (p : option model.User) (err : error) :
  repository.Update (userRepo db) (Some u) s = ((p, Some err), s') ->
  err = ErrInvalidUserData \/ err = ErrUserNotFound \/
  exists msg, err = Errorf "failed to update user" (Foreign msg).
Proof.
  cbn. unfold repository.userRepository_Update, gorm.Updates. run.
  intros H. repeat (case_match; simplify_eq/=); eauto.
Qed.

Lemma Delete_errors (id : string) (s s' : gorm.Store) (err : error) :
  repository.Delete (userRepo db) id s = (Some err, s') ->
  err = ErrUserNotFound \/
  exists msg, err = Errorf "failed to delete user" (Foreign msg).
Proof.
  cbn. unfold repository.userRepository_Delete, gorm.Delete. run.
  intros H. repeat (case_match; simplify_eq/=); eauto.
Qed.

Lemma List_errors (page pageSize : Z) (filter : string) (s s' : gorm.Store)
  (err : error) :
  repository.List (userRepo db) page pageSize filter s = (inr err, s') ->
  exists prefix msg, err = Errorf prefix (Foreign msg).
Proof.
  cbn. unfold repository.userRepository_List, gorm.Count, gorm.Find. run.
  intros H. repeat (case_match; simplify_eq/=); eauto.
Qed.

(** The statements [List] issues and what it returns when the engine
    executes both. *)
Lemma List_executes (page pageSize : Z) (filter : string) (s : gorm.Store) :
  let query :=
    if decide (filter = "") then []
    else [gorm.NamesLike ("%" ++ filter ++ "%") ("%" ++ filter ++ "%")
                         ("%" ++ filter ++ "%")] in
  let offset := int (int (page - 1) * pageSize) in
  gorm.fails db (gorm.SelectCount query) (gorm.users s) = None ->
  gorm.fails db (gorm.SelectFind query offset pageSize) (gorm.users s) = None ->
  repository.List (userRepo db) page pageSize filter s
  = (inl (gorm.window offset pageSize
            (List.filter (gorm.scoped db query) (gorm.users s)),
          int64 (gorm.count (gorm.scoped db query) (gorm.users s))),
     gorm.mkStore (gorm.users s)
       (gorm.executed s ++ [gorm.SelectCount query;
                            gorm.SelectFind query offset pageSize])).
Proof.
  intros query offset Hcount Hfind. cbn.
  unfold repository.userRepository_List, gorm.Count, gorm.Find. run.
  cbn [repository.db]. fold query. rewrite Hcount.
  cbn [fst snd gorm.record gorm.users]. fold offset. rewrite Hfind.
  unfold gorm.record. cbn [gorm.users gorm.executed].
  by rewrite <- app_assoc.
Qed.

End Gateway.

(** ** Pagination *)

Lemma ListUsers_delegates (crypto : bcrypt.Package)
  (repo : repository.UserRepository)
  (page pageSize : Z) (filter : string) (s : gorm.Store) :
  service.ListUsers (service.NewUserService crypto repo) page pageSize filter s
  = repository.List repo (if page <? 1 then 1 else page)
      (if (pageSize <? 1) || (100 <? pageSize) then 10 else pageSize) filter s.
Proof.
  cbn [service.ListUsers service.NewUserService].
  unfold service.userService_ListUsers, bind. cbn [service.repo].
  destruct (repository.List repo _ _ filter s) as [[[us total]|err] s'];
    reflexivity.
Qed.

(** C5: for every page and pageSize, [ListUsers] of the Domain Service is
    the gateway's [List] called with the page raised to at least 1 and
    with the page size replaced by 10 when it lies outside [1,100], and
    unchanged otherwise; this holds for every gateway implementation. *)
Theorem C5_ListUsers_delegates_clamped (crypto : bcrypt.Package)
  (repo : repository.UserRepository)
  (page pageSize : Z) (filter : string) (s : gorm.Store) :
  service.ListUsers (service.NewUserService crypto repo) page pageSize filter s
  = repository.List repo (effective_page page) (effective_pageSize pageSize)
                    filter s.
Proof.
  rewrite ListUsers_delegates. unfold effective_page, effective_pageSize.
  f_equal.
  - destruct (Z.ltb_spec page 1); lia.
  - destruct (Z.ltb_spec pageSize 1), (Z.ltb_spec 100 pageSize);
      case_decide; simpl; lia.
Qed.

(** C1: at the request page=0, pageSize=500 the handler reports page 1 and
    pageSize 500 in the response, although the page of users was produced
    with the limit 10 that the Domain Service passed to the gateway: the
    reported pageSize is the requested one, not the effective one. *)
Theorem C1_ListUsers_reports_requested_pageSize (crypto : bcrypt.Package)
  (db : gorm.DB) (s : gorm.Store) :
  gorm.fails db (gorm.SelectCount []) (gorm.users s) = None ->
  gorm.fails db (gorm.SelectFind [] 0 10) (gorm.users s) = None ->
  exists resp s',
    handler.ListUsers (userHandler crypto db) (pb.mkListUsersRequest 0 500 "") s
    = (inl resp, s') /\
    pb.Page resp = 1 /\ pb.PageSize resp = 500 /\
    gorm.executed s'
    = (gorm.executed s ++ [gorm.SelectCount []; gorm.SelectFind [] 0 10])%list /\
    pb.Users resp
    = List.map (handler.modelToProto (userHandler crypto db))
               (firstn 10 (List.filter gorm.active (gorm.users s))).
Proof.
  intros Hcount Hfind.
  pose proof (List_executes db 1 10 "" s) as HL. cbn zeta in HL.
  change (int (int (1 - 1) * 10)) with 0 in HL.
  rewrite decide_True in HL by reflexivity.
  specialize (HL Hcount Hfind).
  unfold handler.ListUsers, userHandler, userService. run.
  cbn [handler.service handler.NewUserHandler pb.ListUsersRequest_Page
       pb.ListUsersRequest_PageSize pb.ListUsersRequest_Filter].
  change (int 0) with 0. change (int 500) with 500.
  change (0 <? 1) with true. change (500 <? 1) with false. cbn iota.
  rewrite ListUsers_delegates.
  change (1 <? 1) with false. change ((500 <? 1) || (100 <? 500)) with true.
  cbn iota.
  fold (userRepo db). rewrite HL.
  eexists _, _. split; [reflexivity|]. cbn.
  repeat split.
  f_equal. unfold gorm.window. cbn.
  f_equal. apply List.filter_ext. intros u. unfold gorm.scoped. cbn.
  apply andb_true_r.
Qed.

Lemma C1_ListUsers_reports_requested_pageSize_witness :
  exists resp s',
    handler.ListUsers (userHandler sample.crypto sample.db)
                      (pb.mkListUsersRequest 0 500 "") sample.store
    = (inl resp, s') /\
    pb.Page resp = 1 /\ pb.PageSize resp = 500 /\
    gorm.executed s'
    = (gorm.executed sample.store
       ++ [gorm.SelectCount []; gorm.SelectFind [] 0 10])%list /\
    pb.Users resp
    = List.map (handler.modelToProto (userHandler sample.crypto sample.db))
               (firstn 10 (List.filter gorm.active (gorm.users sample.store))).
Proof.
  apply (C1_ListUsers_reports_requested_pageSize sample.crypto sample.db
           sample.store); reflexivity.
Defined.

(** ** Validation in [CreateUser] *)

(** Validation precedes every use of the gateway: the two rejections are
    the same whatever gateway the service is built on. *)
Lemma CreateUser_rejects_early (crypto : bcrypt.Package)
  (repo : repository.UserRepository)
  (email password firstName lastName phone : string) (s : gorm.Store) :
  let r := service.CreateUser (service.NewUserService crypto repo)
             email password firstName lastName phone s in
  (email = "" -> r = (inr ErrInvalidEmail, s)) /\
  (email <> "" -> password = "" \/ (String.length password < 8)%nat ->
   r = (inr ErrInvalidPassword, s)).
Proof.
  cbn zeta. cbn [service.CreateUser service.NewUserService].
  unfold service.userService_CreateUser. split.
  - intros ->. reflexivity.
  - intros He Hp. rewrite decide_False by exact He.
    replace (bool_decide (password = "") || (len password <? 8)) with true;
      [reflexivity|].
    symmetry. apply orb_true_iff. destruct Hp as [Hp|Hp].
    + left. by apply bool_decide_eq_true.
    + right. apply Z.ltb_lt. unfold len. lia.
Qed.

(** C3 (amended): on the assembled pipeline, [CreateUser] fails with
    [ErrInvalidEmail] exactly when the email is empty and, for a non-empty
    email, with [ErrInvalidPassword] exactly when the password is empty or
    shorter than 8 bytes: the length is the one [len] gives, the number
    of bytes of the string, not of its characters.  In both cases the
    store is left as it was, no row changed and no statement executed,
    and the outcome is the same on every gateway: the gateway is not
    called. *)
Theorem C3_CreateUser_validation (crypto : bcrypt.Package) (db : gorm.DB)
  (email password firstName lastName phone : string) (s : gorm.Store) :
  let r := service.CreateUser (userService crypto db)
             email password firstName lastName phone s in
  (fst r = inr ErrInvalidEmail <-> email = "") /\
  (email <> "" ->
   (fst r = inr ErrInvalidPassword <->
    password = "" \/ (String.length password < 8)%nat)) /\
  (fst r = inr ErrInvalidEmail \/ fst r = inr ErrInvalidPassword -> snd r = s) /\
  (forall repo : repository.UserRepository,
     fst r = inr ErrInvalidEmail \/ fst r = inr ErrInvalidPassword ->
     service.CreateUser (service.NewUserService crypto repo)
       email password firstName lastName phone s = (fst r, s)).
Proof.
  cbn zeta.
  assert (Hthree :
    let r := service.CreateUser (userService crypto db)
               email password firstName lastName phone s in
    (fst r = inr ErrInvalidEmail <-> email = "") /\
    (email <> "" ->
     (fst r = inr ErrInvalidPassword <->
      password = "" \/ (String.length password < 8)%nat)) /\
    (fst r = inr ErrInvalidEmail \/ fst r = inr ErrInvalidPassword -> snd r = s)).
  { cbn zeta. cbn [service.CreateUser userService service.NewUserService].
    unfold service.userService_CreateUser. cbn [service.repo].
    destruct (decide (email = "")) as [He|He].
    { cbn. repeat split; auto; congruence. }
    destruct (bool_decide (password = "") || (len password <? 8)) eqn:Hp.
    { cbn. repeat split; auto; try congruence.
      intros _. apply orb_true_iff in Hp as [Hp|Hp].
      - left. by apply bool_decide_eq_true in Hp.
      - right. apply Z.ltb_lt in Hp. unfold len in Hp. lia. }
    assert (Hlong : ~ (password = "" \/ (String.length password < 8)%nat)).
    { apply orb_false_iff in Hp as [Hp1 Hp2].
      apply bool_decide_eq_false in Hp1. apply Z.ltb_ge in Hp2.
      unfold len in Hp2. intros [?|?]; [done|lia]. }
    destruct (bcrypt.GenerateFromPassword crypto password bcrypt.DefaultCost)
      as [hashed|msg].
    2:{ cbn. repeat split; try congruence; try tauto; intros [?|?]; congruence. }
    run.
    destruct (repository.Create (userRepo db) (Some _) s) as [[p [err|]] s'] eqn:Hc;
      cbn.
    2:{ repeat split; try congruence; try tauto; intros [?|?]; congruence. }
    apply Create_errors in Hc as [->|[m ->]];
      repeat split; try congruence; try tauto; intros [?|?]; congruence. }
  cbn zeta in Hthree. destruct Hthree as (Hemail & Hpassword & Hstore).
  split; [exact Hemail|]. split; [exact Hpassword|]. split; [exact Hstore|].
  intros repo Hfail.
  pose proof (CreateUser_rejects_early crypto repo email password firstName
                lastName phone s) as [Hearly1 Hearly2]. cbn zeta in *.
  destruct Hfail as [Hr|Hr]; rewrite Hr.
  - apply Hearly1, Hemail, Hr.
  - destruct (decide (email = "")) as [He|He].
    + apply Hemail in He. congruence.
    + apply Hearly2; [exact He|]. by apply Hpassword.
Qed.

Lemma C3_CreateUser_validation_witness :
  let r := service.CreateUser (userService sample.crypto sample.db)
             "dan@x.com" "short" "Dan" "" "" sample.store in
  fst r = inr ErrInvalidPassword /\ snd r = sample.store.
Proof.
  pose proof (C3_CreateUser_validation sample.crypto sample.db
                "dan@x.com" "short" "Dan" "" "" sample.store) as [_ [H2 [H3 _]]].
  assert (Hne : "dan@x.com" <> "") by discriminate.
  assert (Hshort : "short" = "" \/ (String.length "short" < 8)%nat)
    by (right; cbn; lia).
  pose proof (proj2 (H2 Hne) Hshort) as Hr.
  split; [exact Hr | exact (H3 (or_intror Hr))].
Defined.

(** A string has no more characters than bytes. *)
Lemma characters_le_length (s : string) :
  (characters s <= String.length s)%nat.
Proof.
  induction s as [|c s IH]; cbn; [lia|]. destruct (continuation c); lia.
Qed.

(** C3 (as stated) fails: a password of five characters, shorter than 8
    characters, that takes ten bytes is not rejected; the user is created
    and stored. *)
Lemma C3_counterexample :
  let password := e_acute ++ e_acute ++ e_acute ++ e_acute ++ e_acute in
  characters password = 5%nat /\ String.length password = 10%nat /\
  exists user s',
    service.CreateUser (userService sample.crypto sample.db)
      "dan@x.com" password "Dan" "" "" sample.store = (inl user, s') /\
    model.Email user = "dan@x.com" /\
    gorm.users s' = (gorm.users sample.store ++ [user])%list.
Proof.
  cbn zeta. split; [reflexivity|]. split; [reflexivity|].
  eexists _, _. split; [vm_compute; reflexivity|]. split; reflexivity.
Qed.

(** ** Creation *)

Lemma Create_prepares (db : gorm.DB) (u : model.User) (s : gorm.Store) :
  gorm.Create db u s
  = let now := gorm.NowFunc db (gorm.tick s) in
    let q := gorm.InsertRow (prepared now u) in
    match gorm.fails db q (gorm.users s) with
    | Some msg => ((prepared now u, Some (Foreign msg)), gorm.record q s)
    | None =>
        let row := stored (gorm.gen_random_uuid db (gorm.tick s)) now u in
        ((row, None), gorm.mkStore (gorm.users s ++ [row]) (gorm.executed s ++ [q]))
    end.
Proof.
  unfold gorm.Create. cbn zeta.
  set (now := gorm.NowFunc db (gorm.tick s)).
  assert (Hp : (let u1 := model.BeforeCreate u in
                let u2 := if IsZero (model.CreatedAt u1)
                          then model.with_CreatedAt now u1 else u1 in
                if IsZero (model.UpdatedAt u2)
                then model.with_UpdatedAt now u2 else u2) = prepared now u).
  { destruct u as [id em pw fn ln ph st ca ua da].
    unfold model.BeforeCreate, prepared, IsZero. cbn.
    destruct (decide (st = "")); cbn;
      destruct (Z.eqb_spec ca 0); cbn;
      destruct (Z.eqb_spec ua 0); cbn;
      repeat case_decide; try lia; try congruence; reflexivity. }
  cbn zeta in Hp. rewrite Hp.
  destruct (gorm.fails db _ _); [reflexivity|].
  unfold stored. cbn.
  destruct (decide (model.ID u = "")); [reflexivity|].
  destruct u; reflexivity.
Qed.

(** The cases of the gateway's [Create] when its lookup is executed: it
    fails with [ErrInvalidUserData] when the user is absent; fails with
    [ErrUserAlreadyExists], inserting nothing, when the lookup finds an
    active row with the same email; and otherwise, the engine executing
    the insert, appends the record to the table with the generated id
    when it carried none, createdAt and updatedAt set to the current time
    when they were zero and status active when it was empty, and returns
    no error. *)
Lemma Create_cases (db : gorm.DB) (s : gorm.Store) :
  repository.Create (userRepo db) None s = ((None, Some ErrInvalidUserData), s) /\
  (forall u,
     gorm.fails db (gorm.SelectFirst [gorm.EmailEq (model.Email u)]) (gorm.users s)
     = None ->
     (exists r, In r (gorm.users s) /\ model.DeletedAt r = None /\
                model.Email r = model.Email u) ->
     exists s',
       repository.Create (userRepo db) (Some u) s
       = ((Some u, Some ErrUserAlreadyExists), s') /\
       gorm.users s' = gorm.users s) /\
  (forall u,
     let lookup := gorm.SelectFirst [gorm.EmailEq (model.Email u)] in
     let now := gorm.NowFunc db (S (gorm.tick s)) in
     let row := stored (gorm.gen_random_uuid db (S (gorm.tick s))) now u in
     (forall r, In r (gorm.users s) -> model.DeletedAt r = None ->
                model.Email r <> model.Email u) ->
     gorm.fails db (gorm.InsertRow (prepared now u)) (gorm.users s) = None ->
     repository.Create (userRepo db) (Some u) s
     = ((Some row, None),
        gorm.mkStore (gorm.users s ++ [row])
          (gorm.executed s ++ [lookup; gorm.InsertRow (prepared now u)]))).
Proof.
  split; [reflexivity|]. split.
  - intros u Hok (r & Hin & Hact & Hemail).
    destruct (First_some db [gorm.EmailEq (model.Email u)] s r Hok Hin) as [u0 HF].
    { apply scoped_EmailEq. auto. }
    eexists. cbn. unfold repository.userRepository_Create. run.
    cbn [repository.db]. rewrite HF. split; reflexivity.
  - intros u lookup now row Hnew Hok.
    cbn. unfold repository.userRepository_Create. run. cbn [repository.db].
    assert (Htick : gorm.tick (gorm.record lookup s) = S (gorm.tick s)).
    { unfold gorm.tick, gorm.record. cbn. rewrite List.length_app. cbn. lia. }
    destruct (gorm.First db _ s) as [[u0|e] s0] eqn:HF.
    { apply First_found in HF as (Hin & Hs & _).
      apply scoped_EmailEq in Hs as [Hact Hemail].
      destruct (Hnew u0 Hin Hact Hemail). }
    assert (Hs0 : s0 = gorm.record lookup s).
    { unfold gorm.First in HF. repeat (case_match; simplify_eq/=); reflexivity. }
    subst s0. rewrite Create_prepares. cbn zeta. rewrite Htick.
    fold now. cbn [gorm.record gorm.users]. rewrite Hok. cbn [fst snd].
    fold row. unfold gorm.record. cbn [gorm.users gorm.executed].
    by rewrite <- app_assoc.
Qed.

Example Create_new_email :
  let u := model.mkUser "" "dan@x.com" "$2a$10$password4" "Dan" "" "" "" 0 0 None in
  repository.Create (userRepo sample.db) (Some u) sample.store
  = ((Some (model.mkUser "10" "dan@x.com" "$2a$10$password4" "Dan" "" ""
                         "active" 1001 1001 None), None),
     gorm.mkStore
       (gorm.users sample.store
        ++ [model.mkUser "10" "dan@x.com" "$2a$10$password4" "Dan" "" ""
                         "active" 1001 1001 None])
       [gorm.SelectFirst [gorm.EmailEq "dan@x.com"];
        gorm.InsertRow (model.mkUser "" "dan@x.com" "$2a$10$password4" "Dan" "" ""
                                     "active" 1001 1001 None)]).
Proof.
  intros u.
  apply (proj2 (proj2 (Create_cases sample.db sample.store)) u).
  - intros r [<-|[<-|[<-|[]]]]; cbn; congruence.
  - reflexivity.
Qed.

(** C6: [Create] does not fail with [ErrUserAlreadyExists] whenever an
    active row has the email, because it takes every failure of its
    lookup for an email that is free.  When the engine fails the lookup,
    which [GetByEmail] reports as a failure, [Create] goes on to the
    insert: it never answers [ErrUserAlreadyExists], and if the engine
    executes the insert it stores the record and returns no error; if an
    active row had the email, the emails of the active rows are no longer
    distinct. *)
Theorem C6_Create_after_failed_lookup (db : gorm.DB) (s : gorm.Store)
  (u : model.User) (msg : string) :
  let lookup := gorm.SelectFirst [gorm.EmailEq (model.Email u)] in
  let now := gorm.NowFunc db (S (gorm.tick s)) in
  let insert := gorm.InsertRow (prepared now u) in
  let row := stored (gorm.gen_random_uuid db (S (gorm.tick s))) now u in
  gorm.fails db lookup (gorm.users s) = Some msg ->
  fst (repository.GetByEmail (userRepo db) (model.Email u) s)
  = inr (Errorf "failed to get user by email" (Foreign msg)) /\
  snd (fst (repository.Create (userRepo db) (Some u) s))
  <> Some ErrUserAlreadyExists /\
  (gorm.fails db insert (gorm.users s) = None ->
   repository.Create (userRepo db) (Some u) s
   = ((Some row, None),
      gorm.mkStore (gorm.users s ++ [row]) (gorm.executed s ++ [lookup; insert])) /\
   ((exists r, In r (gorm.users s) /\ model.DeletedAt r = None /\
               model.Email r = model.Email u) ->
    model.DeletedAt u = None ->
    ~ NoDup (active_emails (snd (repository.Create (userRepo db) (Some u) s))))).
Proof.
  intros lookup now insert row Hfail.
  assert (Htick : gorm.tick (gorm.record lookup s) = S (gorm.tick s)).
  { unfold gorm.tick, gorm.record. cbn. rewrite List.length_app. cbn. lia. }
  assert (HC : repository.Create (userRepo db) (Some u) s
               = match gorm.fails db insert (gorm.users s) with
                 | Some m =>
                     ((Some (prepared now u),
                       Some (Errorf "failed to create user" (Foreign m))),
                      gorm.record insert (gorm.record lookup s))
                 | None =>
                     ((Some row, None),
                      gorm.mkStore (gorm.users s ++ [row])
                        (gorm.executed s ++ [lookup; insert]))
                 end).
  { cbn. unfold repository.userRepository_Create, gorm.First. run.
    cbn [repository.db]. fold lookup. rewrite Hfail.
    rewrite Create_prepares. cbn zeta. rewrite Htick. fold now. fold insert.
    cbn [gorm.record gorm.users].
    destruct (gorm.fails db insert (gorm.users s)); cbn [fst snd]; [reflexivity|].
    fold row. unfold gorm.record. cbn [gorm.users gorm.executed].
    by rewrite <- app_assoc. }
  split; [|split].
  - cbn. unfold repository.userRepository_GetByEmail, gorm.First. run.
    cbn [repository.db]. fold lookup. rewrite Hfail. reflexivity.
  - rewrite HC. destruct (gorm.fails db insert (gorm.users s)); cbn; discriminate.
  - intros Hok. rewrite HC, Hok. split; [reflexivity|].
    intros (r & Hin & Hact & Hemail) Hnew. cbn [snd].
    unfold active_emails, active_rows. cbn [gorm.users].
    rewrite List.filter_app, List.map_app. cbn [List.filter].
    assert (Hrow : gorm.active row = true).
    { unfold gorm.active, row, stored, prepared. cbn. by rewrite Hnew. }
    rewrite Hrow. cbn [List.map]. intros Hnd.
    apply NoDup_app in Hnd as (_ & Hdisjoint & _).
    apply (Hdisjoint (model.Email row)).
    + apply list_elem_of_In, List.in_map_iff. exists r. split.
      * rewrite Hemail. reflexivity.
      * apply List.filter_In. split; [exact Hin|].
        unfold gorm.active. by rewrite Hact.
    + apply list_elem_of_here.
Qed.

Lemma C6_Create_after_failed_lookup_witness :
  let u := model.mkUser "" "ann@x.com" "$2a$10$password4" "Nan" "" "" "" 0 0 None in
  exists row s',
    repository.Create (userRepo flaky_db) (Some u) sample.store
    = ((Some row, None), s') /\
    active_emails sample.store = ["ann@x.com"; "bob@x.com"] /\
    active_emails s' = ["ann@x.com"; "bob@x.com"; "ann@x.com"] /\
    fst (repository.GetByEmail (userRepo flaky_db) "ann@x.com" sample.store)
    = inr (Errorf "failed to get user by email"
                  (Foreign "connection reset by peer")).
Proof.
  intros u.
  destruct (C6_Create_after_failed_lookup flaky_db sample.store u
              "connection reset by peer" eq_refl) as (Hget & _ & Hinsert).
  destruct (Hinsert eq_refl) as [Hcreate _].
  eexists _, _. split; [exact Hcreate|]. split; [reflexivity|].
  split; [reflexivity|exact Hget].
Defined.

(** ** Update *)

Lemma apply_updates_sparse (updates : gmap string any) (u : model.User) :
  service.apply_updates updates u = sparse_merge updates u.
Proof.
  unfold service.apply_updates, sparse_merge, field_after, status_after.
  destruct u as [id em pw fn ln ph st ca ua da].
  destruct (updates !! "email") as [[]|], (updates !! "first_name") as [[]|],
    (updates !! "last_name") as [[]|], (updates !! "phone") as [[]|],
    (updates !! "status") as [[]|]; reflexivity.
Qed.

Lemma pick_field_after (key : string) (updates : gmap string any) (old : string) :
  nonblank updates ->
  gorm.pick (field_after key updates old) old = field_after key updates old.
Proof.
  intros Hnb. unfold gorm.pick, field_after.
  destruct (updates !! key) as [[v| | | |]|] eqn:Hk;
    try (case_decide; congruence).
  case_decide as Hv; [|reflexivity]. subst v. destruct (Hnb key). contradiction.
Qed.

Lemma pick_status_after (updates : gmap string any) (old : string) :
  nonblank updates ->
  gorm.pick (status_after updates old) old = status_after updates old.
Proof.
  intros Hnb. unfold gorm.pick, status_after.
  destruct (updates !! "status") as [[|v| | |]|] eqn:Hk;
    try (case_decide; congruence).
  case_decide as Hv; [|reflexivity]. subst v. destruct (Hnb "status"). contradiction.
Qed.

Lemma pick_same (v : string) : gorm.pick v v = v.
Proof. unfold gorm.pick. by case_decide. Qed.

(** What the engine stores when the merged record of a sparse update is
    written over the row it was read from. *)
Lemma assign_sparse (now : Time) (updates : gmap string any) (r : model.User) :
  nonblank updates -> model.DeletedAt r = None ->
  gorm.assign now (sparse_merge updates r) r
  = model.with_UpdatedAt now (sparse_merge updates r).
Proof.
  intros Hnb Hact. unfold gorm.assign, sparse_merge, model.with_UpdatedAt. cbn.
  rewrite !pick_field_after, pick_status_after, pick_same, Hact by done.
  by destruct (IsZero (model.CreatedAt r)).
Qed.

Lemma unique_by_ID (l : list model.User) (a b : model.User) :
  NoDup (List.map model.ID l) -> In a l -> In b l -> model.ID a = model.ID b ->
  a = b.
Proof.
  induction l as [|x l IH]; cbn; [tauto|].
  rewrite NoDup_cons. intros [Hx Hnd] [->|Ha] [->|Hb] Hid; auto.
  - destruct Hx. rewrite Hid. apply list_elem_of_In, List.in_map, Hb.
  - destruct Hx. rewrite <- Hid. apply list_elem_of_In, List.in_map, Ha.
Qed.

Lemma filter_by_ID (db : gorm.DB) (l : list model.User) (e : model.User) :
  NoDup (List.map model.ID l) -> In e l -> model.DeletedAt e = None ->
  List.filter (gorm.scoped db [gorm.IdEq (model.ID e)]) l = [e].
Proof.
  induction l as [|x l IH]; cbn; [tauto|].
  rewrite NoDup_cons. intros [Hx Hnd] Hin Hact.
  destruct (gorm.scoped db [gorm.IdEq (model.ID e)] x) eqn:Hs.
  - apply scoped_IdEq in Hs as [_ Hid].
    assert (x = e) as ->.
    { destruct Hin as [->|Hin]; [reflexivity|].
      destruct Hx. rewrite Hid. apply list_elem_of_In, List.in_map, Hin. }
    f_equal. apply filter_none. intros r Hr. apply not_true_iff_false.
    rewrite scoped_IdEq. intros [_ Hid'].
    destruct Hx. rewrite <- Hid'. apply list_elem_of_In, List.in_map, Hr.
  - destruct Hin as [->|Hin]; [|by apply IH].
    apply not_true_iff_false in Hs. destruct Hs. apply scoped_IdEq. auto.
Qed.

(** C2 (as amended): for an active user, stored under a unique non-empty
    id, and an updates map without empty values, [UpdateUser] (the engine
    executing its two statements) stores and returns the record in which
    exactly the fields whose key is present with a value of the field's
    type (a string for email, first_name, last_name and phone, a
    UserStatus for status) have that value, updatedAt is the current
    time, and every other field, the credential included, is as it was;
    keys with a value of another type are ignored and every other row
    is left as it is. *)
Theorem C2_UpdateUser_sparse (crypto : bcrypt.Package) (db : gorm.DB)
  (s : gorm.Store) (id : string) (updates : gmap string any)
  (existing : model.User) :
  id <> "" ->
  NoDup (List.map model.ID (gorm.users s)) ->
  In existing (gorm.users s) ->
  model.ID existing = id ->
  model.DeletedAt existing = None ->
  nonblank updates ->
  let now := gorm.NowFunc db (S (gorm.tick s)) in
  let row := model.with_UpdatedAt now (sparse_merge updates existing) in
  gorm.fails db (gorm.SelectFirst [gorm.IdEq id]) (gorm.users s) = None ->
  gorm.fails db (gorm.UpdateRow row) (gorm.users s) = None ->
  exists s',
    service.UpdateUser (userService crypto db) id updates s = (inl row, s') /\
    gorm.users s'
    = List.map (fun r => if decide (model.ID r = id) then row else r)
               (gorm.users s) /\
    model.Password row = model.Password existing.
Proof.
  intros Hid Hnd Hin Heq Hact Hnb now row Hfirst Hupdate. subst id.
  cbn [service.UpdateUser userService service.NewUserService].
  unfold service.userService_UpdateUser. cbn [service.repo]. run.
  (* the lookup returns the row itself *)
  assert (HG : repository.GetByID (userRepo db) (model.ID existing) s
               = (inl existing,
                  gorm.record (gorm.SelectFirst [gorm.IdEq (model.ID existing)]) s)).
  { cbn. unfold repository.userRepository_GetByID, gorm.First. run.
    cbn [repository.db]. rewrite Hfirst, filter_by_ID by done. reflexivity. }
  rewrite HG, apply_updates_sparse.
  set (s1 := gorm.record _ s).
  assert (Htick : gorm.tick s1 = S (gorm.tick s)).
  { unfold s1, gorm.tick, gorm.record. cbn. rewrite List.length_app. cbn. lia. }
  rewrite Update_unfold by (cbn; exact Hid). cbn zeta.
  rewrite Htick. fold now. fold row.
  change (gorm.users s1) with (gorm.users s). rewrite Hupdate.
  assert (Hhit : (gorm.count (gorm.scoped db [gorm.IdEq (model.ID existing)])
                             (gorm.users s) =? 0) = false).
  { apply Z.eqb_neq. rewrite count_zero. intros Hnone.
    specialize (Hnone existing Hin). apply not_true_iff_false in Hnone.
    apply Hnone, scoped_IdEq. auto. }
  change (model.ID (sparse_merge updates existing)) with (model.ID existing).
  rewrite Hhit. cbn [fst snd deref].
  eexists. split; [reflexivity|]. cbn [gorm.users]. split; [|reflexivity].
  apply List.map_ext_in. intros r Hr.
  destruct (gorm.scoped db [gorm.IdEq (model.ID existing)] r) eqn:Hs.
  - apply scoped_IdEq in Hs as [Hra Hri].
    rewrite decide_True by exact Hri.
    assert (r = existing) as -> by (eapply unique_by_ID; eauto).
    by apply assign_sparse.
  - case_decide as Hri; [|reflexivity].
    assert (r = existing) as -> by (eapply unique_by_ID; eauto).
    apply not_true_iff_false in Hs. destruct Hs. apply scoped_IdEq. auto.
Qed.

Lemma C2_UpdateUser_sparse_witness :
  let updates : gmap string any := {[ "first_name" := AnyString "X" ]} in
  let row := model.with_UpdatedAt
               (gorm.NowFunc sample.db (S (gorm.tick sample.store)))
               (sparse_merge updates sample.ann) in
  exists s',
    service.UpdateUser (userService sample.crypto sample.db) "u1" updates
                       sample.store = (inl row, s') /\
    gorm.users s'
    = List.map (fun r => if decide (model.ID r = "u1") then row else r)
               (gorm.users sample.store) /\
    model.Password row = model.Password sample.ann.
Proof.
  apply (C2_UpdateUser_sparse sample.crypto sample.db sample.store "u1"
           {[ "first_name" := AnyString "X" ]} sample.ann).
  - discriminate.
  - cbn. repeat (apply NoDup_cons; split;
                 [rewrite list_elem_of_In; cbn; intuition discriminate|]).
    apply NoDup_nil. done.
  - left. reflexivity.
  - reflexivity.
  - reflexivity.
  - intros key. destruct (decide (key = "first_name")) as [->|Hne].
    + rewrite lookup_singleton_eq. split; discriminate.
    + rewrite lookup_singleton_ne by congruence. split; discriminate.
  - reflexivity.
  - reflexivity.
Defined.

(** The sparse update of the witness, evaluated: only firstName and
    updatedAt differ from the stored row. *)
Example UpdateUser_first_name :
  service.UpdateUser (userService sample.crypto sample.db) "u1"
    {[ "first_name" := AnyString "X" ]} sample.store
  = (inl (model.mkUser "u1" "ann@x.com" "$2a$10$password1" "X" "Lee" "555"
                       "active" 10 1001 None),
     gorm.mkStore
       [model.mkUser "u1" "ann@x.com" "$2a$10$password1" "X" "Lee" "555"
                     "active" 10 1001 None; sample.bob; sample.cat]
       [gorm.SelectFirst [gorm.IdEq "u1"];
        gorm.UpdateRow (model.mkUser "u1" "ann@x.com" "$2a$10$password1" "X"
                                     "Lee" "555" "active" 10 1001 None)]).
Proof. vm_compute. reflexivity. Qed.

(** C2 (as stated) fails: the key status is present in the map, the
    update succeeds, and the status of the stored and of the returned
    record is still the old one, because the value is a plain string and
    not a UserStatus; and updatedAt, which is no key of the map, has
    changed. *)
Lemma C2_counterexample :
  let updates : gmap string any := {[ "status" := AnyString "inactive" ]} in
  updates !! "status" = Some (AnyString "inactive") /\
  updates !! "updated_at" = None /\
  exists u s',
    service.UpdateUser (userService sample.crypto sample.db) "u1" updates
                       sample.store = (inl u, s') /\
    model.Status u = "active" /\
    List.map model.Status (gorm.users s') = ["active"; "inactive"; "active"] /\
    List.map model.Status (gorm.users sample.store)
    = ["active"; "inactive"; "active"] /\
    List.map model.UpdatedAt (gorm.users s') = [1001; 25; 35] /\
    List.map model.UpdatedAt (gorm.users sample.store) = [10; 25; 35].
Proof.
  cbn zeta. split; [reflexivity|]. split; [reflexivity|].
  eexists _, _. split; [vm_compute; reflexivity|]. repeat split.
Qed.

(** The failures of the gateway's [Update]: invalid input exactly for an
    absent record or an empty id, not-found exactly when the statement
    executes and no active row carries the id, and no row changed by a
    call that returns an error. *)
Lemma Update_failures (db : gorm.DB) (p : option model.User) (s : gorm.Store) :
  let r := repository.Update (userRepo db) p s in
  (snd (fst r) = Some ErrInvalidUserData <->
   p = None \/ exists u, p = Some u /\ model.ID u = "") /\
  (forall u, p = Some u -> model.ID u <> "" ->
     (snd (fst r) = Some ErrUserNotFound <->
      gorm.fails db (gorm.UpdateRow
                       (model.with_UpdatedAt (gorm.NowFunc db (gorm.tick s)) u))
                 (gorm.users s) = None /\
      forall x, In x (gorm.users s) -> model.DeletedAt x = None ->
                model.ID x <> model.ID u)) /\
  (snd (fst r) <> None -> gorm.users (snd r) = gorm.users s).
Proof.
  cbn zeta. destruct p as [u|].
  2:{ cbn. repeat split; auto; try congruence; try (intros u [=]). }
  destruct (decide (model.ID u = "")) as [Hid|Hid].
  { cbn. unfold repository.userRepository_Update. rewrite decide_True by done.
    cbn. repeat split; eauto; try congruence;
      try (intros u0 [= <-]; contradiction). }
  rewrite Update_unfold by done. cbn zeta.
  assert (Hzero :
    gorm.count (gorm.scoped db [gorm.IdEq (model.ID u)]) (gorm.users s) = 0 <->
    forall x, In x (gorm.users s) -> model.DeletedAt x = None ->
              model.ID x <> model.ID u).
  { rewrite count_zero. split; intros H x Hx.
    - intros Hd Hi. specialize (H x Hx). apply not_true_iff_false in H.
      apply H, scoped_IdEq. auto.
    - apply not_true_iff_false. rewrite scoped_IdEq. intros [Hd Hi].
      exact (H x Hx Hd Hi). }
  assert (Hinvalid : Some u = None \/
                     (exists u0 : model.User, Some u = Some u0 /\ model.ID u0 = "")
                     -> False).
  { intros [[=]|(u0 & [= <-] & Hu0)]. contradiction. }
  destruct (gorm.fails db _ _) as [msg|] eqn:Hf; cbn [fst snd gorm.record gorm.users].
  - split; [|split].
    + split; [intros [=]|]. intros H. destruct (Hinvalid H).
    + intros u0 [= <-] _. split; [intros [=]|]. intros [Hc _]. congruence.
    + reflexivity.
  - destruct (Z.eqb_spec (gorm.count (gorm.scoped db [gorm.IdEq (model.ID u)])
                                     (gorm.users s)) 0) as [Hc|Hc].
    + split; [|split].
      * split; [intros [=]|]. intros H. destruct (Hinvalid H).
      * intros u0 [= <-] _. split; [|reflexivity].
        intros _. split; [exact Hf|]. by apply Hzero.
      * intros _. apply map_out_of_scope. by apply count_zero.
    + split; [|split].
      * split; [intros [=]|]. intros H. destruct (Hinvalid H).
      * intros u0 [= <-] _. split; [intros [=]|].
        intros [_ Hnone]. destruct Hc. by apply Hzero.
      * congruence.
Qed.

(** C7: the gateway's [Update] does not write the whole record.  For a
    record with an id that an active row carries (the engine executing
    the statement), the call succeeds and that row takes the non-empty
    fields of the record only: where email, password, first name, last
    name, phone or status of the record is empty the stored value stays,
    so an empty first name never replaces a stored one; updatedAt becomes
    the current time. *)
Theorem C7_Update_skips_empty_fields (db : gorm.DB) (u : model.User)
  (s : gorm.Store) (i : nat) (r : model.User) :
  gorm.users s !! i = Some r ->
  model.ID r = model.ID u -> model.DeletedAt r = None -> model.ID u <> "" ->
  let now := gorm.NowFunc db (gorm.tick s) in
  gorm.fails db (gorm.UpdateRow (model.with_UpdatedAt now u)) (gorm.users s) = None ->
  exists r' s',
    repository.Update (userRepo db) (Some u) s
    = ((Some (model.with_UpdatedAt now u), None), s') /\
    gorm.users s' !! i = Some r' /\
    model.ID r' = model.ID r /\
    model.Email r'
    = (if decide (model.Email u = "") then model.Email r else model.Email u) /\
    model.Password r'
    = (if decide (model.Password u = "") then model.Password r
       else model.Password u) /\
    model.FirstName r'
    = (if decide (model.FirstName u = "") then model.FirstName r
       else model.FirstName u) /\
    model.LastName r'
    = (if decide (model.LastName u = "") then model.LastName r
       else model.LastName u) /\
    model.Phone r'
    = (if decide (model.Phone u = "") then model.Phone r else model.Phone u) /\
    model.Status r'
    = (if decide (model.Status u = "") then model.Status r else model.Status u) /\
    model.UpdatedAt r' = now.
Proof.
  intros Hi Hid Hact Hne now Hok.
  rewrite Update_unfold by done. cbn zeta. fold now. rewrite Hok.
  assert (Hs : gorm.scoped db [gorm.IdEq (model.ID u)] r = true)
    by (apply scoped_IdEq; auto).
  assert (Hhit : (gorm.count (gorm.scoped db [gorm.IdEq (model.ID u)])
                             (gorm.users s) =? 0) = false).
  { apply Z.eqb_neq. rewrite count_zero. intros Hnone.
    apply list_elem_of_lookup_2, list_elem_of_In in Hi.
    specialize (Hnone r Hi). congruence. }
  rewrite Hhit. eexists _, _. split; [reflexivity|]. cbn [gorm.users].
  rewrite lookup_map, Hi. cbn. rewrite Hs.
  split; [reflexivity|]. unfold gorm.assign, gorm.pick. cbn.
  repeat split.
Qed.

Lemma C7_Update_skips_empty_fields_witness :
  exists r' s',
    repository.Update (userRepo sample.db)
      (Some (model.with_FirstName "" sample.ann)) sample.store
    = ((Some (model.with_UpdatedAt 1000 (model.with_FirstName "" sample.ann)),
        None), s') /\
    gorm.users s' !! 0%nat = Some r' /\
    model.FirstName r' = "Ann".
Proof.
  destruct (C7_Update_skips_empty_fields sample.db
              (model.with_FirstName "" sample.ann) sample.store 0 sample.ann
              eq_refl eq_refl eq_refl ltac:(discriminate) eq_refl)
    as (r' & s' & Hcall & Hrow & _ & _ & _ & Hfirst & _).
  exists r', s'. split; [exact Hcall|]. split; [exact Hrow|]. exact Hfirst.
Defined.

(** The same call, evaluated: it reports success, the returned record has
    the empty first name, and the stored row still has the old one. *)
Example Update_first_name_empty :
  repository.Update (userRepo sample.db)
    (Some (model.with_FirstName "" sample.ann)) sample.store
  = ((Some (model.mkUser "u1" "ann@x.com" "$2a$10$password1" "" "Lee" "555"
                         "active" 10 1000 None), None),
     gorm.mkStore
       [model.mkUser "u1" "ann@x.com" "$2a$10$password1" "Ann" "Lee" "555"
                     "active" 10 1000 None; sample.bob; sample.cat]
       [gorm.UpdateRow (model.mkUser "u1" "ann@x.com" "$2a$10$password1" ""
                                     "Lee" "555" "active" 10 1000 None)]).
Proof. vm_compute. reflexivity. Qed.

(** ** Deletion *)

Lemma DeleteUser_delegates (crypto : bcrypt.Package)
  (repo : repository.UserRepository) (id : string) (s : gorm.Store) :
  service.DeleteUser (service.NewUserService crypto repo) id s
  = repository.Delete repo id s.
Proof.
  cbn [service.DeleteUser service.NewUserService].
  unfold service.userService_DeleteUser. cbn [service.repo]. run.
  destruct (repository.Delete repo id s) as [[err|] s']; reflexivity.
Qed.

Lemma Delete_unknown (db : gorm.DB) (id : string) (s : gorm.Store) :
  gorm.fails db (gorm.SoftDelete [gorm.IdEq id]) (gorm.users s) = None ->
  (forall r, In r (gorm.users s) -> model.DeletedAt r = None -> model.ID r <> id) ->
  repository.Delete (userRepo db) id s
  = (Some ErrUserNotFound,
     gorm.mkStore (gorm.users s)
                  (gorm.executed s ++ [gorm.SoftDelete [gorm.IdEq id]])).
Proof.
  intros Hok Hunknown. rewrite Delete_unfold. cbn zeta. rewrite Hok.
  assert (Hnone : forall r, In r (gorm.users s) ->
                            gorm.scoped db [gorm.IdEq id] r = false).
  { intros r Hr. apply not_true_iff_false. rewrite scoped_IdEq.
    intros [Hd Hi]. exact (Hunknown r Hr Hd Hi). }
  rewrite (proj2 (count_zero _ _) Hnone), map_out_of_scope by exact Hnone.
  reflexivity.
Qed.

Lemma untouched_refl (s s' : gorm.Store) :
  gorm.users s' = gorm.users s -> deleted_rows_untouched s s'.
Proof. intros H. unfold deleted_rows_untouched. rewrite H. auto. Qed.

Lemma untouched_map (db : gorm.DB) (conds : list gorm.Cond)
  (g : model.User -> model.User) (s s' : gorm.Store) :
  gorm.users s'
  = List.map (fun r => if gorm.scoped db conds r then g r else r) (gorm.users s) ->
  deleted_rows_untouched s s'.
Proof.
  intros H. unfold deleted_rows_untouched. rewrite H. split.
  - apply List.length_map.
  - intros i r Hi Hdel. rewrite lookup_map, Hi. cbn.
    destruct (gorm.scoped db conds r) eqn:Hs; [|reflexivity].
    apply scoped_active in Hs. contradiction.
Qed.

Lemma Delete_untouched (db : gorm.DB) (id : string) (s : gorm.Store) :
  deleted_rows_untouched s (snd (repository.Delete (userRepo db) id s)).
Proof.
  rewrite Delete_unfold. cbn zeta.
  destruct (gorm.fails db _ _); cbn [snd].
  - by apply untouched_refl.
  - by eapply untouched_map.
Qed.

Lemma Update_untouched (db : gorm.DB) (p : option model.User) (s : gorm.Store) :
  deleted_rows_untouched s (snd (repository.Update (userRepo db) p s)).
Proof.
  destruct p as [u|]; [|by apply untouched_refl].
  destruct (decide (model.ID u = "")) as [Hid|Hid].
  - cbn. unfold repository.userRepository_Update. rewrite decide_True by done.
    by apply untouched_refl.
  - rewrite Update_unfold by done. cbn zeta.
    destruct (gorm.fails db _ _); cbn [snd].
    + by apply untouched_refl.
    + by eapply untouched_map.
Qed.

(** After a successful [Delete] of [id] no active row carries [id]. *)
Lemma Delete_leaves_none (db : gorm.DB) (id : string) (s s1 : gorm.Store) :
  repository.Delete (userRepo db) id s = (None, s1) ->
  forall r, In r (gorm.users s1) -> model.DeletedAt r = None -> model.ID r <> id.
Proof.
  rewrite Delete_unfold. cbn zeta.
  destruct (gorm.fails db _ _); [intros [=]|].
  destruct (_ =? 0); intros [= <-]. cbn [gorm.users].
  intros r Hr Hact Hid. apply List.in_map_iff in Hr as (r0 & Hr0 & _).
  destruct (gorm.scoped db [gorm.IdEq id] r0) eqn:Hs; subst r.
  - discriminate Hact.
  - apply not_true_iff_false in Hs. apply Hs, scoped_IdEq. auto.
Qed.

Lemma window_In (offset limit : Z) (l : list model.User) (u : model.User) :
  In u (gorm.window offset limit l) -> In u l.
Proof.
  unfold gorm.window. rewrite <- !list_elem_of_In. intros H.
  assert (Hskip : u ∈ (if 0 <? offset then skipn (Z.to_nat offset) l else l) -> u ∈ l).
  { destruct (0 <? offset); [apply subseteq_drop|auto]. }
  apply Hskip. destruct (0 <=? limit); [by eapply subseteq_take|done].
Qed.

Lemma filter_scoped_query (db : gorm.DB) (filter : string) (l : list model.User) :
  List.filter
    (gorm.scoped db
       (if decide (filter = "") then []
        else [gorm.NamesLike ("%" ++ filter ++ "%") ("%" ++ filter ++ "%")
                             ("%" ++ filter ++ "%")])) l
  = List.filter (matches db filter) (List.filter gorm.active l).
Proof.
  induction l as [|a l IH]; [reflexivity|].
  cbn [List.filter]. unfold gorm.scoped at 1.
  destruct (gorm.active a); cbn [andb List.filter]; [|exact IH].
  unfold matches at 1. destruct (decide (filter = "")); cbn.
  - by rewrite IH.
  - rewrite andb_true_r. by rewrite IH.
Qed.

(** C4: a soft-deleted row is absent from the gateway's operations.
    [GetByID] and [GetByEmail] only return rows whose deletedAt is null;
    [List] returns a window of, and counts, the rows that are not
    soft-deleted; [Update] and [Delete] leave every soft-deleted row as
    it is, and an [Update] whose id only soft-deleted rows carry fails with
    [ErrUserNotFound]; and once [Delete] of an id has succeeded, a second [Delete]
    of that id (the statement executing) fails with [ErrUserNotFound]
    and changes nothing, as does a [GetByID]. *)
Theorem C4_soft_deleted_is_absent (db : gorm.DB) (s : gorm.Store) :
  (forall id u s',
     repository.GetByID (userRepo db) id s = (inl u, s') ->
     In u (gorm.users s) /\ model.DeletedAt u = None /\
     gorm.users s' = gorm.users s) /\
  (forall email u s',
     repository.GetByEmail (userRepo db) email s = (inl u, s') ->
     In u (gorm.users s) /\ model.DeletedAt u = None /\
     gorm.users s' = gorm.users s) /\
  (forall p,
     deleted_rows_untouched s (snd (repository.Update (userRepo db) p s))) /\
  (forall u,
     model.ID u <> "" ->
     gorm.fails db
       (gorm.UpdateRow (model.with_UpdatedAt (gorm.NowFunc db (gorm.tick s)) u))
       (gorm.users s) = None ->
     (forall x, In x (gorm.users s) -> model.ID x = model.ID u ->
                model.DeletedAt x <> None) ->
     snd (fst (repository.Update (userRepo db) (Some u) s)) = Some ErrUserNotFound /\
     gorm.users (snd (repository.Update (userRepo db) (Some u) s)) = gorm.users s) /\
  (forall page pageSize filter us total s',
     repository.List (userRepo db) page pageSize filter s = (inl (us, total), s') ->
     us = gorm.window (int (int (page - 1) * pageSize)) pageSize
            (List.filter (matches db filter) (active_rows s)) /\
     total = int64 (Z.of_nat (length (List.filter (matches db filter)
                                                  (active_rows s)))) /\
     (forall u, In u us -> In u (gorm.users s) /\ model.DeletedAt u = None) /\
     gorm.users s' = gorm.users s) /\
  (forall id,
     deleted_rows_untouched s (snd (repository.Delete (userRepo db) id s))) /\
  (forall id s1,
     repository.Delete (userRepo db) id s = (None, s1) ->
     (gorm.fails db (gorm.SoftDelete [gorm.IdEq id]) (gorm.users s1) = None ->
      exists s2,
        repository.Delete (userRepo db) id s1 = (Some ErrUserNotFound, s2) /\
        gorm.users s2 = gorm.users s1) /\
     (gorm.fails db (gorm.SelectFirst [gorm.IdEq id]) (gorm.users s1) = None ->
      exists s2,
        repository.GetByID (userRepo db) id s1 = (inr ErrUserNotFound, s2) /\
        gorm.users s2 = gorm.users s1)).
Proof.
  repeat apply conj.
  - intros id u s'. cbn. unfold repository.userRepository_GetByID. run.
    destruct (gorm.First _ _ s) as [[u0|e] s0] eqn:HF.
    + intros [= <- <-]. apply First_found in HF as (Hin & Hs & Hu).
      apply scoped_active in Hs. auto.
    + destruct (errors_Is e ErrRecordNotFound); intros [=].
  - intros email u s'. cbn. unfold repository.userRepository_GetByEmail. run.
    destruct (gorm.First _ _ s) as [[u0|e] s0] eqn:HF.
    + intros [= <- <-]. apply First_found in HF as (Hin & Hs & Hu).
      apply scoped_active in Hs. auto.
    + destruct (errors_Is e ErrRecordNotFound); intros [=].
  - intros p. apply Update_untouched.
  - intros u Hid Hok Hdeleted.
    pose proof (Update_failures db (Some u) s) as (_ & Hnf & Hsame).
    cbn zeta in Hnf, Hsame.
    assert (Hr : snd (fst (repository.Update (userRepo db) (Some u) s))
                 = Some ErrUserNotFound).
    { apply (Hnf u eq_refl Hid). split; [exact Hok|].
      intros x Hx Hd Hi. exact (Hdeleted x Hx Hi Hd). }
    split; [exact Hr|]. apply Hsame. congruence.
  - intros page pageSize filter us total s'. cbn.
    unfold repository.userRepository_List, gorm.Count, gorm.Find. run.
    cbn [repository.db].
    pose proof (filter_scoped_query db filter (gorm.users s)) as Hq.
    set (query := if decide (filter = "") then [] else _) in *. clearbody query.
    intros H. repeat (case_match; simplify_eq/=).
    unfold gorm.count, active_rows. rewrite !Hq.
    repeat apply conj; try reflexivity.
    intros u Hu. apply window_In in Hu.
    apply List.filter_In in Hu as [Hu _].
    apply List.filter_In in Hu as [Hu Hact]. split; [exact Hu|].
    unfold gorm.active in Hact. by destruct (model.DeletedAt u).
  - intros id. apply Delete_untouched.
  - intros id s1 Hdel. pose proof (Delete_leaves_none db id s s1 Hdel) as Hnone.
    split; intros Hok.
    + eexists. split; [by apply Delete_unknown|reflexivity].
    + eexists. cbn. unfold repository.userRepository_GetByID. run.
      cbn [repository.db]. rewrite First_none; [split; reflexivity|exact Hok|].
      intros r Hr. apply not_true_iff_false. rewrite scoped_IdEq.
      intros [Hd Hi]. exact (Hnone r Hr Hd Hi).
Qed.

Lemma C4_soft_deleted_is_absent_witness :
  (exists s2,
     repository.Delete (userRepo sample.db) "u2"
       (snd (repository.Delete (userRepo sample.db) "u2" sample.store))
     = (Some ErrUserNotFound, s2) /\
     gorm.users s2
     = gorm.users (snd (repository.Delete (userRepo sample.db) "u2" sample.store))) /\
  deleted_rows_untouched sample.store
    (snd (repository.Delete (userRepo sample.db) "u3" sample.store)).
Proof.
  split.
  - apply (C4_soft_deleted_is_absent sample.db sample.store); reflexivity.
  - apply (C4_soft_deleted_is_absent sample.db sample.store).
Defined.

(** X9: Rows never carry the empty id when the engine generates none: the
    three writing operations of the gateway keep every id non-empty, so
    the empty id is an id no row carries. *)
Lemma ids_nonempty_preserved (db : gorm.DB) (s : gorm.Store) :
  (forall n, gorm.gen_random_uuid db n <> "") ->
  (forall r, In r (gorm.users s) -> model.ID r <> "") ->
  (forall p r, In r (gorm.users (snd (repository.Create (userRepo db) p s))) ->
               model.ID r <> "") /\
  (forall p r, In r (gorm.users (snd (repository.Update (userRepo db) p s))) ->
               model.ID r <> "") /\
  (forall id r, In r (gorm.users (snd (repository.Delete (userRepo db) id s))) ->
                model.ID r <> "").
Proof.
  intros Huuid Hids. repeat apply conj.
  - intros [u|] r; [|apply Hids].
    cbn. unfold repository.userRepository_Create. run. cbn [repository.db].
    destruct (gorm.First db _ s) as [[u0|e] s0] eqn:HF; cbn [snd].
    { apply First_found in HF as (_ & _ & ->). apply Hids. }
    assert (Hs0 : gorm.users s0 = gorm.users s).
    { unfold gorm.First in HF. repeat (case_match; simplify_eq/=); reflexivity. }
    rewrite Create_prepares. cbn zeta.
    destruct (gorm.fails db _ _); cbn [fst snd gorm.record gorm.users];
      rewrite Hs0; [apply Hids|].
    rewrite List.in_app_iff. intros [Hr|[<-|[]]]; [by apply Hids|].
    unfold stored. cbn. case_decide; [apply Huuid|done].
  - intros [u|] r; [|apply Hids].
    destruct (decide (model.ID u = "")) as [Hid|Hid].
    { cbn. unfold repository.userRepository_Update. rewrite decide_True by done.
      apply Hids. }
    rewrite Update_unfold by done. cbn zeta.
    destruct (gorm.fails db _ _); cbn [snd gorm.record gorm.users]; [apply Hids|].
    rewrite List.in_map_iff. intros (r0 & <- & Hr0).
    destruct (gorm.scoped db _ r0); cbn; by apply Hids.
  - intros id r. rewrite Delete_unfold. cbn zeta.
    destruct (gorm.fails db _ _); cbn [snd gorm.record gorm.users]; [apply Hids|].
    rewrite List.in_map_iff. intros (r0 & <- & Hr0).
    destruct (gorm.scoped db _ r0); cbn; by apply Hids.
Qed.

(** C10 (amended): the delete path validates no identifier.  For every
    id, the empty one included, neither the gateway's [Delete] nor
    [DeleteUser] ever fails with the invalid-input error; when no active
    row carries the id, both issue the statement, change no row, and fail
    with [ErrUserNotFound] if the engine executes the statement and with
    the engine's failure, wrapped, if it refuses it.  The update path of
    the service is no different: [UpdateUser] looks the id up first, so
    for such an id it issues the SELECT and fails with [ErrUserNotFound],
    or with the engine's failure, wrapped, and never reaches the check of
    the id.  Only the gateway's [Update] itself rejects an empty id with
    [ErrInvalidUserData] without touching the store. *)
Theorem C10_delete_does_not_validate_id (crypto : bcrypt.Package)
  (db : gorm.DB) (id : string) (s : gorm.Store) :
  let delete := gorm.SoftDelete [gorm.IdEq id] in
  let lookup := gorm.SelectFirst [gorm.IdEq id] in
  (forall err, fst (repository.Delete (userRepo db) id s) = Some err ->
               errors_Is err ErrInvalidUserData = false) /\
  (forall err, fst (service.DeleteUser (userService crypto db) id s) = Some err ->
               errors_Is err ErrInvalidUserData = false) /\
  ((forall r, In r (gorm.users s) -> model.DeletedAt r = None -> model.ID r <> id) ->
   let failure := match gorm.fails db delete (gorm.users s) with
                  | None => ErrUserNotFound
                  | Some msg => Errorf "failed to delete user" (Foreign msg)
                  end in
   let failure' := match gorm.fails db lookup (gorm.users s) with
                   | None => ErrUserNotFound
                   | Some msg => Errorf "failed to get user" (Foreign msg)
                   end in
   repository.Delete (userRepo db) id s = (Some failure, gorm.record delete s) /\
   service.DeleteUser (userService crypto db) id s
   = (Some failure, gorm.record delete s) /\
   forall updates,
     service.UpdateUser (userService crypto db) id updates s
     = (inr failure', gorm.record lookup s)) /\
  (forall u, model.ID u = "" ->
             repository.Update (userRepo db) (Some u) s
             = ((Some u, Some ErrInvalidUserData), s)).
Proof.
  intros delete lookup.
  assert (Hrepo : forall err,
            fst (repository.Delete (userRepo db) id s) = Some err ->
            errors_Is err ErrInvalidUserData = false).
  { intros err. destruct (repository.Delete _ id s) as [o s'] eqn:HD.
    cbn. intros ->. apply Delete_errors in HD as [->|[m ->]]; reflexivity. }
  unfold userService. rewrite DeleteUser_delegates. fold (userRepo db).
  repeat apply conj; auto.
  - intros Hunknown.
    assert (HD : repository.Delete (userRepo db) id s
                 = (Some match gorm.fails db delete (gorm.users s) with
                         | None => ErrUserNotFound
                         | Some msg => Errorf "failed to delete user" (Foreign msg)
                         end, gorm.record delete s)).
    { destruct (gorm.fails db delete (gorm.users s)) as [msg|] eqn:Hf.
      - rewrite Delete_unfold. cbn zeta. fold delete. rewrite Hf. reflexivity.
      - by apply Delete_unknown. }
    split; [exact HD|]. split; [exact HD|]. intros updates.
    cbn [service.UpdateUser service.NewUserService].
    unfold service.userService_UpdateUser. cbn [service.repo]. run.
    cbn [repository.GetByID userRepo repository.NewUserRepository].
    unfold repository.userRepository_GetByID. run. cbn [repository.db].
    destruct (gorm.fails db lookup (gorm.users s)) as [msg|] eqn:Hf.
    + unfold gorm.First. fold lookup. rewrite Hf. reflexivity.
    + rewrite First_none; [reflexivity|exact Hf|].
      intros r Hr. apply not_true_iff_false. rewrite scoped_IdEq.
      intros [Hd Hi]. exact (Hunknown r Hr Hd Hi).
  - intros u Hu. cbn. unfold repository.userRepository_Update.
    rewrite decide_True by exact Hu. reflexivity.
Qed.

Lemma C10_delete_does_not_validate_id_witness :
  repository.Delete (userRepo sample.db) "" sample.store
  = (Some ErrUserNotFound,
     gorm.mkStore (gorm.users sample.store) [gorm.SoftDelete [gorm.IdEq ""]]) /\
  service.DeleteUser (userService sample.crypto sample.uuid_db) "" sample.store
  = (Some (Errorf "failed to delete user"
                  (Foreign "invalid input syntax for type uuid")),
     gorm.mkStore (gorm.users sample.store) [gorm.SoftDelete [gorm.IdEq ""]]) /\
  service.UpdateUser (userService sample.crypto sample.uuid_db) "" ∅ sample.store
  = (inr (Errorf "failed to get user"
                 (Foreign "invalid input syntax for type uuid")),
     gorm.mkStore (gorm.users sample.store) [gorm.SelectFirst [gorm.IdEq ""]]).
Proof.
  assert (Hunknown : forall r, In r (gorm.users sample.store) ->
                               model.DeletedAt r = None -> model.ID r <> "").
  { intros r [<-|[<-|[<-|[]]]]; cbn; congruence. }
  pose proof (C10_delete_does_not_validate_id sample.crypto sample.db ""
                sample.store) as (_ & _ & Hplain & _).
  pose proof (C10_delete_does_not_validate_id sample.crypto sample.uuid_db ""
                sample.store) as (_ & _ & Huuid & _).
  destruct (Hplain Hunknown) as (HD & _ & _).
  destruct (Huuid Hunknown) as (_ & HDU & HU).
  split; [exact HD|]. split; [exact HDU|exact (HU ∅)].
Defined.

(** C10 (as stated) fails: the update path does not reject an empty id
    with the invalid-input error before touching storage.  [UpdateUser]
    with the empty id issues the SELECT of its lookup and fails with
    [ErrUserNotFound], as [DeleteUser] does, and the handler answers with
    not-found. *)
Lemma C10_counterexample :
  let updates : gmap string any := {[ "first_name" := AnyString "X" ]} in
  service.UpdateUser (userService sample.crypto sample.db) "" updates sample.store
  = (inr ErrUserNotFound,
     gorm.mkStore (gorm.users sample.store) [gorm.SelectFirst [gorm.IdEq ""]]) /\
  errors_Is ErrUserNotFound ErrInvalidUserData = false /\
  fst (handler.UpdateUser (userHandler sample.crypto sample.db)
         (pb.mkUpdateUserRequest "" None (Some "X") None None None) sample.store)
  = inr (status.Error codes.NotFound "user not found").
Proof.
  cbn zeta. split; [vm_compute; reflexivity|]. split; [reflexivity|].
  vm_compute. reflexivity.
Qed.

(** ** Failure mapping of the Protocol Handler *)

(** Which sentinels can be on the chain of an error of each service call. *)
Section ServiceErrors.
Variable crypto : bcrypt.Package.
Variable db : gorm.DB.

Lemma CreateUser_not_NotFound (email password firstName lastName phone : string)
  (s s' : gorm.Store) (err : error) :
  service.CreateUser (userService crypto db) email password firstName lastName
                     phone s = (inr err, s') ->
  errors_Is err ErrUserNotFound = false.
Proof.
  cbn [service.CreateUser userService service.NewUserService].
  unfold service.userService_CreateUser. cbn [service.repo]. run.
  destruct (decide (email = "")); [intros [=]; subst; reflexivity|].
  destruct (_ || _); [intros [=]; subst; reflexivity|].
  destruct (bcrypt.GenerateFromPassword _ _ _);
    [|intros [=]; subst; reflexivity].
  destruct (repository.Create _ _ s) as [[p [e|]] st] eqn:HC;
    cbn [fst snd]; intros [=]; subst.
  apply Create_errors in HC as [->|[m ->]]; reflexivity.
Qed.

Lemma GetUser_not_AlreadyExists (id : string) (s s' : gorm.Store) (err : error) :
  service.GetUser (userService crypto db) id s = (inr err, s') ->
  errors_Is err ErrUserAlreadyExists = false.
Proof.
  cbn [service.GetUser userService service.NewUserService].
  unfold service.userService_GetUser. cbn [service.repo]. run.
  destruct (repository.GetByID _ id s) as [[u|e] s0] eqn:HG; intros [=]; subst.
  apply GetByID_errors in HG as [->|[m ->]]; reflexivity.
Qed.

Lemma GetUserByEmail_not_AlreadyExists (email : string) (s s' : gorm.Store)
  (err : error) :
  service.GetUserByEmail (userService crypto db) email s = (inr err, s') ->
  errors_Is err ErrUserAlreadyExists = false.
Proof.
  cbn [service.GetUserByEmail userService service.NewUserService].
  unfold service.userService_GetUserByEmail. cbn [service.repo]. run.
  destruct (repository.GetByEmail _ email s) as [[u|e] s0] eqn:HG;
    intros [=]; subst.
  apply GetByEmail_errors in HG as [->|[m ->]]; reflexivity.
Qed.

Lemma UpdateUser_not_AlreadyExists (id : string) (updates : gmap string any)
  (s s' : gorm.Store) (err : error) :
  service.UpdateUser (userService crypto db) id updates s = (inr err, s') ->
  errors_Is err ErrUserAlreadyExists = false.
Proof.
  cbn [service.UpdateUser userService service.NewUserService].
  unfold service.userService_UpdateUser. cbn [service.repo]. run.
  destruct (repository.GetByID _ id s) as [[u|e] s0] eqn:HG.
  - destruct (repository.Update _ _ s0) as [[p [e|]] s1] eqn:HU;
      cbn; intros [=]; subst.
    apply Update_errors in HU as [->|[->|[m ->]]]; reflexivity.
  - intros [=]; subst.
    apply GetByID_errors in HG as [->|[m ->]]; reflexivity.
Qed.

Lemma DeleteUser_not_AlreadyExists (id : string) (s s' : gorm.Store) (err : error) :
  service.DeleteUser (userService crypto db) id s = (Some err, s') ->
  errors_Is err ErrUserAlreadyExists = false.
Proof.
  cbn [service.DeleteUser userService service.NewUserService].
  unfold service.userService_DeleteUser. cbn [service.repo]. run.
  destruct (repository.Delete _ id s) as [[e|] s0] eqn:HD; intros [=]; subst.
  apply Delete_errors in HD as [->|[m ->]]; reflexivity.
Qed.

Lemma ListUsers_errors_foreign (page pageSize : Z) (filter : string)
  (s s' : gorm.Store) (err : error) :
  service.ListUsers (userService crypto db) page pageSize filter s = (inr err, s') ->
  errors_Is err ErrUserAlreadyExists = false /\
  errors_Is err ErrUserNotFound = false.
Proof.
  unfold userService. rewrite ListUsers_delegates. intros HL.
  apply List_errors in HL as (p & m & ->). split; reflexivity.
Qed.

End ServiceErrors.

(** C8: on the assembled pipeline, whenever the Domain Service returns an
    error to a handler, the reply is a status whose code is AlreadyExists
    for an error of the AlreadyExists kind, NotFound for one of the
    NotFound kind and Internal for every other error, with the constant
    message of that code and operation; [ErrInvalidEmail] and
    [ErrInvalidPassword] are among the errors answered with Internal. *)
Theorem C8_handler_failure_mapping (crypto : bcrypt.Package) (db : gorm.DB)
  (s : gorm.Store) :
  let svc := userService crypto db in
  let h := userHandler crypto db in
  (forall req,
     answers OpCreateUser
       (service.CreateUser svc (pb.CreateUserRequest_Email req)
          (pb.CreateUserRequest_Password req) (pb.CreateUserRequest_FirstName req)
          (pb.CreateUserRequest_LastName req) (pb.CreateUserRequest_Phone req) s)
       (handler.CreateUser h req s)) /\
  (forall req,
     answers OpGetUser (service.GetUser svc (pb.GetUserRequest_Id req) s)
       (handler.GetUser h req s)) /\
  (forall req,
     answers OpGetUserByEmail
       (service.GetUserByEmail svc (pb.GetUserByEmailRequest_Email req) s)
       (handler.GetUserByEmail h req s)) /\
  (forall req,
     answers OpUpdateUser
       (service.UpdateUser svc (pb.UpdateUserRequest_Id req)
          (handler.updates_of h req) s)
       (handler.UpdateUser h req s)) /\
  (forall req,
     answers OpDeleteUser
       (as_result (service.DeleteUser svc (pb.DeleteUserRequest_Id req) s))
       (handler.DeleteUser h req s)) /\
  (forall req,
     answers OpListUsers
       (service.ListUsers svc (int (pb.ListUsersRequest_Page req))
          (int (pb.ListUsersRequest_PageSize req))
          (pb.ListUsersRequest_Filter req) s)
       (handler.ListUsers h req s)) /\
  status_code_for ErrInvalidEmail = codes.Internal /\
  status_code_for ErrInvalidPassword = codes.Internal.
Proof.
  intros svc h. unfold answers, failure_status, status_code_for.
  repeat apply conj; try reflexivity; intros req.
  - unfold handler.CreateUser. cbn [handler.service h userHandler handler.NewUserHandler].
    fold svc. run.
    destruct (service.CreateUser svc _ _ _ _ _ s) as [[u|err] s'] eqn:HS;
      cbn [fst snd]; [eauto|].
    apply CreateUser_not_NotFound in HS. rewrite HS.
    destruct (errors_Is err ErrUserAlreadyExists); reflexivity.
  - unfold handler.GetUser. cbn [handler.service h userHandler handler.NewUserHandler].
    fold svc. run.
    destruct (service.GetUser svc _ s) as [[u|err] s'] eqn:HS;
      cbn [fst snd]; [eauto|].
    apply GetUser_not_AlreadyExists in HS. rewrite HS.
    destruct (errors_Is err ErrUserNotFound); reflexivity.
  - unfold handler.GetUserByEmail.
    cbn [handler.service h userHandler handler.NewUserHandler].
    fold svc. run.
    destruct (service.GetUserByEmail svc _ s) as [[u|err] s'] eqn:HS;
      cbn [fst snd]; [eauto|].
    apply GetUserByEmail_not_AlreadyExists in HS. rewrite HS.
    destruct (errors_Is err ErrUserNotFound); reflexivity.
  - unfold handler.UpdateUser.
    cbn [handler.service h userHandler handler.NewUserHandler].
    fold svc. fold h. run.
    destruct (service.UpdateUser svc _ _ s) as [[u|err] s'] eqn:HS;
      cbn [fst snd]; [eauto|].
    apply UpdateUser_not_AlreadyExists in HS. rewrite HS.
    destruct (errors_Is err ErrUserNotFound); reflexivity.
  - unfold handler.DeleteUser, as_result.
    cbn [handler.service h userHandler handler.NewUserHandler].
    fold svc. run.
    destruct (service.DeleteUser svc _ s) as [[err|] s'] eqn:HS;
      cbn [fst snd]; [|eauto].
    apply DeleteUser_not_AlreadyExists in HS. rewrite HS.
    destruct (errors_Is err ErrUserNotFound); reflexivity.
  - unfold handler.ListUsers.
    cbn [handler.service h userHandler handler.NewUserHandler].
    fold svc. run.
    set (page := int (pb.ListUsersRequest_Page req)).
    set (pageSize := int (pb.ListUsersRequest_PageSize req)).
    assert (Hsame :
      service.ListUsers svc (if page <? 1 then 1 else page)
        (if pageSize <? 1 then 10 else pageSize) (pb.ListUsersRequest_Filter req) s
      = service.ListUsers svc page pageSize (pb.ListUsersRequest_Filter req) s).
    { unfold svc, userService. rewrite !ListUsers_delegates. f_equal.
      - destruct (Z.ltb_spec page 1); [reflexivity|].
        destruct (Z.ltb_spec page 1); [lia|reflexivity].
      - destruct (Z.ltb_spec pageSize 1); [reflexivity|].
        destruct (Z.ltb_spec pageSize 1); [lia|reflexivity]. }
    rewrite Hsame.
    destruct (service.ListUsers svc page pageSize _ s) as [[[us total]|err] s'] eqn:HS;
      cbn [fst snd]; [eauto|].
    apply ListUsers_errors_foreign in HS as [-> ->]. reflexivity.
Qed.

(** The mapping at work: a validation error of the service is answered
    with the generic internal failure, a taken email with the conflict
    code, an unknown id with not-found. *)
Example CreateUser_empty_email :
  fst (handler.CreateUser (userHandler sample.crypto sample.db)
         (pb.mkCreateUserRequest "" "password1" "Dan" "" "") sample.store)
  = inr (status.Error codes.Internal "failed to create user").
Proof. reflexivity. Qed.

Example CreateUser_taken_email :
  fst (handler.CreateUser (userHandler sample.crypto sample.db)
         (pb.mkCreateUserRequest "ann@x.com" "password1" "Dan" "" "") sample.store)
  = inr (status.Error codes.AlreadyExists "user already exists").
Proof. vm_compute. reflexivity. Qed.

Example GetUser_soft_deleted :
  fst (handler.GetUser (userHandler sample.crypto sample.db)
         (pb.mkGetUserRequest "u3") sample.store)
  = inr (status.Error codes.NotFound "user not found").
Proof. vm_compute. reflexivity. Qed.

(** With a unique index on the email column the engine rejects the email
    of a soft-deleted row; the failure is answered as an internal one. *)
Example CreateUser_rejected_by_engine :
  fst (handler.CreateUser (userHandler sample.crypto sample.strict_db)
         (pb.mkCreateUserRequest "cat@x.com" "password1" "Cat" "" "") sample.store)
  = inr (status.Error codes.Internal "failed to create user").
Proof. vm_compute. reflexivity. Qed.

(** ** Wire representation of a user *)

(** C9: the encoded user is built from id, email, firstName, lastName,
    phone, status, createdAt and updatedAt only: [modelToProto] gives the
    same message for two entities that agree on these eight fields, hence
    when the credential is replaced or blanked, and for every service
    implementation each of the handler's operations gives the same reply
    when every entity the service returns has its credential blanked. *)
Theorem C9_credential_never_encoded :
  (forall h u v,
     model.ID u = model.ID v -> model.Email u = model.Email v ->
     model.FirstName u = model.FirstName v ->
     model.LastName u = model.LastName v -> model.Phone u = model.Phone v ->
     model.Status u = model.Status v ->
     model.CreatedAt u = model.CreatedAt v ->
     model.UpdatedAt u = model.UpdatedAt v ->
     handler.modelToProto h u = handler.modelToProto h v) /\
  (forall h u password,
     handler.modelToProto h (model.with_Password password u)
     = handler.modelToProto h u) /\
  (forall (svc : service.UserService) (s : gorm.Store),
     let h := handler.NewUserHandler svc in
     let h' := handler.NewUserHandler (redacted svc) in
     (forall req, handler.CreateUser h' req s = handler.CreateUser h req s) /\
     (forall req, handler.GetUser h' req s = handler.GetUser h req s) /\
     (forall req, handler.GetUserByEmail h' req s = handler.GetUserByEmail h req s) /\
     (forall req, handler.UpdateUser h' req s = handler.UpdateUser h req s) /\
     (forall req, handler.DeleteUser h' req s = handler.DeleteUser h req s) /\
     (forall req, handler.ListUsers h' req s = handler.ListUsers h req s)).
Proof.
  split; [intros h u v; unfold handler.modelToProto; congruence|].
  split; [reflexivity|].
  intros svc s h h'. repeat apply conj; intros req.
  - unfold handler.CreateUser. cbn. run.
    destruct (service.CreateUser svc _ _ _ _ _ s) as [[u|err] s']; reflexivity.
  - unfold handler.GetUser. cbn. run.
    destruct (service.GetUser svc _ s) as [[u|err] s']; reflexivity.
  - unfold handler.GetUserByEmail. cbn. run.
    destruct (service.GetUserByEmail svc _ s) as [[u|err] s']; reflexivity.
  - unfold handler.UpdateUser. cbn. run.
    destruct (service.UpdateUser svc _ _ s) as [[u|err] s']; reflexivity.
  - reflexivity.
  - unfold handler.ListUsers. cbn. run.
    destruct (service.ListUsers svc _ _ _ s) as [[[us total]|err] s'];
      [|reflexivity].
    cbn. rewrite List.map_map. reflexivity.
Qed.

(** * Further properties of the pipeline *)

(** ** Status conversion *)

(** X1: Decoding an encoded status gives it back exactly for active, inactive
    and suspended, and encoding a decoded wire value gives it back exactly
    for their three wire values; any other domain status is encoded as
    unspecified and any other wire value is decoded as active. *)
Theorem status_round_trip (h : handler.UserHandler) :
  (forall s, handler.protoStatusToModel h (handler.modelStatusToProto h s) = s
             <-> known_status s) /\
  (forall p, handler.modelStatusToProto h (handler.protoStatusToModel h p) = p
             <-> known_wire_status p) /\
  (forall s, ~ known_status s ->
             handler.modelStatusToProto h s = pb.UserStatus_USER_STATUS_UNSPECIFIED) /\
  (forall p, ~ known_wire_status p ->
             handler.protoStatusToModel h p = model.UserStatusActive).
Proof.
  unfold known_status, known_wire_status. repeat apply conj.
  - intros s. unfold handler.modelStatusToProto.
    repeat case_decide; subst; cbn; split; auto; try tauto;
      intros <-; tauto.
  - intros p. destruct p; cbn; split; auto; try discriminate;
      intros [?|[?|?]]; discriminate.
  - intros s Hs. unfold handler.modelStatusToProto.
    repeat case_decide; subst; tauto.
  - intros p Hp. destruct p; cbn; tauto.
Qed.

(** ** The update request as the service sees it *)

(** X2: Applying the map that the handler builds from an update request sets
    every field the request carries (the status decoded) and keeps every
    field it does not carry: no value of the map has a type the service
    would skip. *)
Theorem updates_of_applied (h : handler.UserHandler)
  (req : pb.UpdateUserRequest) (u : model.User) :
  service.apply_updates (handler.updates_of h req) u
  = model.mkUser (model.ID u)
      (default (model.Email u) (pb.UpdateUserRequest_Email req))
      (model.Password u)
      (default (model.FirstName u) (pb.UpdateUserRequest_FirstName req))
      (default (model.LastName u) (pb.UpdateUserRequest_LastName req))
      (default (model.Phone u) (pb.UpdateUserRequest_Phone req))
      (default (model.Status u)
               (handler.protoStatusToModel h <$> pb.UpdateUserRequest_Status req))
      (model.CreatedAt u) (model.UpdatedAt u) (model.DeletedAt u).
Proof.
  rewrite apply_updates_sparse.
  unfold sparse_merge, field_after, status_after, handler.updates_of.
  destruct req as [id [e|] [f|] [l|] [p|] [st|]]; cbn;
    repeat (rewrite lookup_insert_eq || (rewrite lookup_insert_ne by done)
            || rewrite lookup_empty);
    reflexivity.
Qed.

(** ** Creating a user and finding it again *)

Lemma filter_nil_inv (f : model.User -> bool) (l : list model.User) :
  List.filter f l = [] -> forall r, In r l -> f r = false.
Proof.
  intros Hnil r Hr. apply not_true_iff_false. intros Hf.
  assert (Hin : In r (List.filter f l)) by (apply List.filter_In; auto).
  rewrite Hnil in Hin. destruct Hin.
Qed.

Lemma First_not_found_inv (db : gorm.DB) (conds : list gorm.Cond)
  (s s' : gorm.Store) (err : error) :
  gorm.fails db (gorm.SelectFirst conds) (gorm.users s) = None ->
  gorm.First db conds s = (inr err, s') ->
  forall r, In r (gorm.users s) -> gorm.scoped db conds r = false.
Proof.
  unfold gorm.First. intros ->.
  destruct (gorm.least_pk _) as [u|] eqn:Hl; [intros [=]|]. intros _.
  apply least_pk_None in Hl. by apply filter_nil_inv.
Qed.

Lemma First_state (db : gorm.DB) (conds : list gorm.Cond) (s : gorm.Store) :
  snd (gorm.First db conds s) = gorm.record (gorm.SelectFirst conds) s.
Proof. unfold gorm.First. repeat case_match; reflexivity. Qed.

Lemma tick_record (q : gorm.Stmt) (s : gorm.Store) :
  gorm.tick (gorm.record q s) = S (gorm.tick s).
Proof.
  unfold gorm.tick, gorm.record. cbn. rewrite List.length_app. cbn. lia.
Qed.

(** What a successful [CreateUser] has done. *)
Lemma CreateUser_inserted (crypto : bcrypt.Package) (db : gorm.DB)
  (email password firstName lastName phone : string)
  (s s1 : gorm.Store) (user : model.User) :
  service.CreateUser (userService crypto db) email password firstName lastName
                     phone s = (inl user, s1) ->
  let now := gorm.NowFunc db (S (gorm.tick s)) in
  exists hashed,
    bcrypt.GenerateFromPassword crypto password bcrypt.DefaultCost = inl hashed /\
    email <> "" /\ 8 <= len password /\
    user = model.mkUser (gorm.gen_random_uuid db (S (gorm.tick s))) email hashed
                        firstName lastName phone model.UserStatusActive
                        now now None /\
    gorm.users s1 = (gorm.users s ++ [user])%list /\
    (gorm.fails db (gorm.SelectFirst [gorm.EmailEq email]) (gorm.users s) = None ->
     forall r, In r (gorm.users s) -> model.DeletedAt r = None ->
               model.Email r <> email).
Proof.
  cbn [service.CreateUser userService service.NewUserService].
  unfold service.userService_CreateUser. cbn [service.repo].
  destruct (decide (email = "")) as [He|He]; [intros [=]|].
  destruct (bool_decide (password = "") || (len password <? 8)) eqn:Hp;
    [intros [=]|].
  apply orb_false_iff in Hp as [_ Hp]. apply Z.ltb_ge in Hp.
  destruct (bcrypt.GenerateFromPassword crypto password bcrypt.DefaultCost)
    as [hashed|msg]; [|intros [=]].
  run. cbn. unfold repository.userRepository_Create. run. cbn [repository.db model.Email].
  pose proof (First_state db [gorm.EmailEq email] s) as Hst.
  destruct (gorm.First db [gorm.EmailEq email] s) as [[u0|e] s0] eqn:HF;
    [intros [=]|]. cbn [snd] in Hst. subst s0.
  rewrite Create_prepares. cbn zeta. rewrite tick_record.
  cbn [gorm.record gorm.users].
  destruct (gorm.fails db (gorm.InsertRow _) (gorm.users s)); [intros [=]|].
  cbn [fst snd deref]. intros [= <- <-]. cbn zeta.
  exists hashed. repeat apply conj; auto.
  intros Hok r Hr Hact Hemail.
  pose proof (First_not_found_inv db _ s _ e Hok HF r Hr) as Hs.
  apply not_true_iff_false in Hs. apply Hs, scoped_EmailEq. auto.
Qed.

(** X3: A successful [CreateUser] of the handler answers with the email,
    names and phone of the request, the generated id, status active and
    createdAt equal to updatedAt, and has appended to the table exactly
    one row, not soft-deleted, whose credential is what bcrypt returned
    for the password of the request. *)
Theorem CreateUser_response (crypto : bcrypt.Package) (db : gorm.DB)
  (req : pb.CreateUserRequest) (s s' : gorm.Store)
  (resp : pb.CreateUserResponse) :
  handler.CreateUser (userHandler crypto db) req s = (inl resp, s') ->
  let now := gorm.NowFunc db (S (gorm.tick s)) in
  pb.CreateUserResponse_User resp
  = pb.mkUser (gorm.gen_random_uuid db (S (gorm.tick s)))
              (pb.CreateUserRequest_Email req) (pb.CreateUserRequest_FirstName req)
              (pb.CreateUserRequest_LastName req) (pb.CreateUserRequest_Phone req)
              pb.UserStatus_USER_STATUS_ACTIVE now now /\
  exists row,
    gorm.users s' = (gorm.users s ++ [row])%list /\
    model.DeletedAt row = None /\
    model.ID row = pb.Id (pb.CreateUserResponse_User resp) /\
    bcrypt.GenerateFromPassword crypto (pb.CreateUserRequest_Password req)
                                bcrypt.DefaultCost = inl (model.Password row).
Proof.
  unfold handler.CreateUser, userHandler. run.
  cbn [handler.service handler.NewUserHandler].
  destruct (service.CreateUser _ _ _ _ _ _ s) as [[user|err] s1] eqn:HC.
  2:{ destruct (errors_Is err ErrUserAlreadyExists); intros [=]. }
  intros [= <- <-]. apply CreateUser_inserted in HC.
  cbn zeta in HC. destruct HC as (hashed & Hgen & _ & _ & -> & Hrows & _).
  cbn zeta. split; [reflexivity|].
  eexists. split; [exact Hrows|]. cbn. auto.
Qed.

Lemma CreateUser_response_witness :
  exists resp s',
    handler.CreateUser (userHandler sample.crypto sample.db)
      (pb.mkCreateUserRequest "dan@x.com" "password4" "Dan" "Orr" "") sample.store
    = (inl resp, s') /\
    pb.CreateUserResponse_User resp
    = pb.mkUser "10" "dan@x.com" "Dan" "Orr" "" pb.UserStatus_USER_STATUS_ACTIVE
                1001 1001.
Proof.
  eexists _, _. split; [vm_compute; reflexivity|].
  apply (CreateUser_response sample.crypto sample.db
           (pb.mkCreateUserRequest "dan@x.com" "password4" "Dan" "Orr" "")
           sample.store _ _ eq_refl).
Defined.

Lemma filter_appended (f : model.User -> bool) (l : list model.User)
  (u : model.User) :
  (forall r, In r l -> f r = false) -> f u = true ->
  List.filter f (l ++ [u]) = [u].
Proof.
  intros Hl Hu. rewrite List.filter_app, filter_none by exact Hl.
  cbn. by rewrite Hu.
Qed.

(** X4: Coming back for a user that [CreateUser] has just stored: by email,
    when the lookup that preceded the insert was executed, and by id, when
    no active row already carried the generated id, the service returns
    the very record that [CreateUser] returned. *)
Theorem CreateUser_then_get (crypto : bcrypt.Package) (db : gorm.DB)
  (email password firstName lastName phone : string)
  (s s1 : gorm.Store) (user : model.User) :
  service.CreateUser (userService crypto db) email password firstName lastName
                     phone s = (inl user, s1) ->
  (gorm.fails db (gorm.SelectFirst [gorm.EmailEq email]) (gorm.users s) = None ->
   gorm.fails db (gorm.SelectFirst [gorm.EmailEq email]) (gorm.users s1) = None ->
   fst (service.GetUserByEmail (userService crypto db) email s1) = inl user) /\
  ((forall r, In r (gorm.users s) -> model.DeletedAt r = None ->
              model.ID r <> model.ID user) ->
   gorm.fails db (gorm.SelectFirst [gorm.IdEq (model.ID user)]) (gorm.users s1)
   = None ->
   fst (service.GetUser (userService crypto db) (model.ID user) s1) = inl user).
Proof.
  intros HC. apply CreateUser_inserted in HC. cbn zeta in HC.
  destruct HC as (hashed & _ & _ & _ & Huser & Hrows & Hnew).
  assert (Hemail : model.Email user = email) by (subst user; reflexivity).
  assert (Hact : model.DeletedAt user = None) by (subst user; reflexivity).
  split.
  - intros Hok Hok1. specialize (Hnew Hok).
    cbn [service.GetUserByEmail userService service.NewUserService].
    unfold service.userService_GetUserByEmail. cbn [service.repo]. run.
    cbn. unfold repository.userRepository_GetByEmail, gorm.First. run.
    cbn [repository.db]. rewrite Hok1, Hrows, filter_appended; [reflexivity| |].
    + intros r Hr. apply not_true_iff_false. rewrite scoped_EmailEq.
      intros [Hd He]. exact (Hnew r Hr Hd He).
    + apply scoped_EmailEq. auto.
  - intros Hfresh Hok1.
    cbn [service.GetUser userService service.NewUserService].
    unfold service.userService_GetUser. cbn [service.repo]. run.
    cbn. unfold repository.userRepository_GetByID, gorm.First. run.
    cbn [repository.db]. rewrite Hok1, Hrows, filter_appended; [reflexivity| |].
    + intros r Hr. apply not_true_iff_false. rewrite scoped_IdEq.
      intros [Hd Hi]. exact (Hfresh r Hr Hd Hi).
    + apply scoped_IdEq. auto.
Qed.

Lemma CreateUser_then_get_witness :
  let created := service.CreateUser (userService sample.crypto sample.db)
                   "dan@x.com" "password4" "Dan" "Orr" "" sample.store in
  let user := model.mkUser "10" "dan@x.com" "$2a$10$password4" "Dan" "Orr" ""
                           "active" 1001 1001 None in
  fst (service.GetUserByEmail (userService sample.crypto sample.db) "dan@x.com"
         (snd created)) = inl user /\
  fst (service.GetUser (userService sample.crypto sample.db) "10" (snd created))
  = inl user.
Proof.
  cbn zeta.
  pose proof (CreateUser_then_get sample.crypto sample.db
                "dan@x.com" "password4" "Dan" "Orr" "" sample.store
                (snd (service.CreateUser (userService sample.crypto sample.db)
                        "dan@x.com" "password4" "Dan" "Orr" "" sample.store))
                (model.mkUser "10" "dan@x.com" "$2a$10$password4" "Dan" "Orr" ""
                              "active" 1001 1001 None)
                ltac:(vm_compute; reflexivity)) as [Hemail Hid].
  split.
  - apply Hemail; reflexivity.
  - apply Hid; [|reflexivity].
    intros r [<-|[<-|[<-|[]]]]; cbn; intros _; discriminate.
Defined.

(** ** Checking a password *)

Lemma GetByEmail_the_row (db : gorm.DB) (email : string) (s : gorm.Store)
  (e : model.User) :
  gorm.fails db (gorm.SelectFirst [gorm.EmailEq email]) (gorm.users s) = None ->
  In e (gorm.users s) -> model.DeletedAt e = None -> model.Email e = email ->
  (forall r, In r (gorm.users s) -> model.DeletedAt r = None ->
             model.Email r = email -> r = e) ->
  repository.GetByEmail (userRepo db) email s
  = (inl e, gorm.record (gorm.SelectFirst [gorm.EmailEq email]) s).
Proof.
  intros Hok Hin Hact Hemail Honly.
  destruct (First_some db [gorm.EmailEq email] s e Hok Hin) as [u HF].
  { apply scoped_EmailEq. auto. }
  cbn. unfold repository.userRepository_GetByEmail. run. cbn [repository.db].
  rewrite HF. apply First_found in HF as (Hu & Hs & _).
  apply scoped_EmailEq in Hs as [Hd He]. by rewrite (Honly u Hu Hd He).
Qed.

Lemma GetByEmail_none (db : gorm.DB) (email : string) (s : gorm.Store) :
  gorm.fails db (gorm.SelectFirst [gorm.EmailEq email]) (gorm.users s) = None ->
  (forall r, In r (gorm.users s) -> model.DeletedAt r = None ->
             model.Email r <> email) ->
  repository.GetByEmail (userRepo db) email s
  = (inr ErrUserNotFound, gorm.record (gorm.SelectFirst [gorm.EmailEq email]) s).
Proof.
  intros Hok Hnone.
  cbn. unfold repository.userRepository_GetByEmail. run. cbn [repository.db].
  rewrite First_none; [reflexivity|exact Hok|].
  intros r Hr. apply not_true_iff_false. rewrite scoped_EmailEq.
  intros [Hd He]. exact (Hnone r Hr Hd He).
Qed.

Lemma ValidatePassword_unfold (crypto : bcrypt.Package)
  (repo : repository.UserRepository) (email password : string) (s : gorm.Store) :
  service.ValidatePassword (service.NewUserService crypto repo) email password s
  = match repository.GetByEmail repo email s with
    | (inr err, s') => (inr err, s')
    | (inl user, s') =>
        (match bcrypt.CompareHashAndPassword crypto (model.Password user) password with
         | Some _ => inr ErrInvalidPassword
         | None => inl user
         end, s')
    end.
Proof.
  cbn [service.ValidatePassword service.NewUserService].
  unfold service.userService_ValidatePassword. cbn [service.repo]. run.
  destruct (repository.GetByEmail repo email s) as [[u|e] s']; [|reflexivity].
  destruct (bcrypt.CompareHashAndPassword _ _ _); reflexivity.
Qed.

(** X5: [ValidatePassword], the lookup being executed: for an email that no
    active row carries (a soft-deleted user included) it fails with
    [ErrUserNotFound] whatever the password; for the email of the one
    active row that carries it, it returns that row when bcrypt accepts
    the password against the stored credential and fails with
    [ErrInvalidPassword] when it does not.  The status of the row plays
    no part, and no row is changed. *)
Theorem ValidatePassword_outcome (crypto : bcrypt.Package) (db : gorm.DB)
  (email password : string) (s : gorm.Store) :
  gorm.fails db (gorm.SelectFirst [gorm.EmailEq email]) (gorm.users s) = None ->
  let r := service.ValidatePassword (userService crypto db) email password s in
  ((forall x, In x (gorm.users s) -> model.DeletedAt x = None ->
              model.Email x <> email) ->
   fst r = inr ErrUserNotFound) /\
  (forall e,
     In e (gorm.users s) -> model.DeletedAt e = None -> model.Email e = email ->
     (forall x, In x (gorm.users s) -> model.DeletedAt x = None ->
                model.Email x = email -> x = e) ->
     fst r = match bcrypt.CompareHashAndPassword crypto (model.Password e) password with
             | Some _ => inr ErrInvalidPassword
             | None => inl e
             end) /\
  gorm.users (snd r) = gorm.users s.
Proof.
  intros Hok. cbn zeta. unfold userService. rewrite ValidatePassword_unfold.
  fold (userRepo db). repeat apply conj.
  - intros Hnone. by rewrite GetByEmail_none.
  - intros e Hin Hact Hemail Honly. by rewrite (GetByEmail_the_row db email s e).
  - destruct (repository.GetByEmail (userRepo db) email s) as [[u|err] s'] eqn:HG.
    + cbn in HG. unfold repository.userRepository_GetByEmail in HG.
      revert HG. run. cbn [repository.db].
      pose proof (First_state db [gorm.EmailEq email] s) as Hst.
      destruct (gorm.First db _ s) as [[u0|e0] s0]; cbn [snd] in Hst; subst s0.
      * intros [= <- <-]. reflexivity.
      * destruct (errors_Is e0 ErrRecordNotFound); intros [=].
    + cbn in HG. unfold repository.userRepository_GetByEmail in HG.
      revert HG. run. cbn [repository.db].
      pose proof (First_state db [gorm.EmailEq email] s) as Hst.
      destruct (gorm.First db _ s) as [[u0|e0] s0]; cbn [snd] in Hst; subst s0.
      * intros [=].
      * destruct (errors_Is e0 ErrRecordNotFound); intros [= <- <-]; reflexivity.
Qed.

Lemma ValidatePassword_outcome_witness :
  fst (service.ValidatePassword (userService sample.crypto sample.db)
         "cat@x.com" "password3" sample.store) = inr ErrUserNotFound /\
  fst (service.ValidatePassword (userService sample.crypto sample.db)
         "bob@x.com" "password2" sample.store) = inl sample.bob /\
  fst (service.ValidatePassword (userService sample.crypto sample.db)
         "bob@x.com" "password1" sample.store) = inr ErrInvalidPassword.
Proof.
  pose proof (ValidatePassword_outcome sample.crypto sample.db "cat@x.com"
                "password3" sample.store eq_refl) as [Hcat _].
  pose proof (ValidatePassword_outcome sample.crypto sample.db "bob@x.com"
                "password2" sample.store eq_refl) as [_ [Hright _]].
  pose proof (ValidatePassword_outcome sample.crypto sample.db "bob@x.com"
                "password1" sample.store eq_refl) as [_ [Hwrong _]].
  assert (Honly : forall x, In x (gorm.users sample.store) ->
                            model.DeletedAt x = None ->
                            model.Email x = "bob@x.com" -> x = sample.bob).
  { intros x [<-|[<-|[<-|[]]]]; cbn; congruence. }
  repeat apply conj.
  - apply Hcat. intros x [<-|[<-|[<-|[]]]]; cbn; congruence.
  - apply (Hright sample.bob); cbn; auto.
  - apply (Hwrong sample.bob); cbn; auto.
Defined.

(** X6: After [CreateUser] has stored a user (its lookup having been
    executed), [ValidatePassword] with the email of that user returns the
    record that [CreateUser] returned exactly for the passwords that
    bcrypt accepts against the hash it produced at creation, and fails
    with [ErrInvalidPassword] for the others. *)
Theorem CreateUser_then_ValidatePassword (crypto : bcrypt.Package) (db : gorm.DB)
  (email password firstName lastName phone : string)
  (s s1 : gorm.Store) (user : model.User) :
  service.CreateUser (userService crypto db) email password firstName lastName
                     phone s = (inl user, s1) ->
  gorm.fails db (gorm.SelectFirst [gorm.EmailEq email]) (gorm.users s) = None ->
  gorm.fails db (gorm.SelectFirst [gorm.EmailEq email]) (gorm.users s1) = None ->
  bcrypt.GenerateFromPassword crypto password bcrypt.DefaultCost
  = inl (model.Password user) /\
  forall attempt,
    fst (service.ValidatePassword (userService crypto db) email attempt s1)
    = match bcrypt.CompareHashAndPassword crypto (model.Password user) attempt with
      | Some _ => inr ErrInvalidPassword
      | None => inl user
      end.
Proof.
  intros HC Hok Hok1. apply CreateUser_inserted in HC. cbn zeta in HC.
  destruct HC as (hashed & Hgen & _ & _ & Huser & Hrows & Hnew).
  specialize (Hnew Hok).
  assert (Hemail : model.Email user = email) by (subst user; reflexivity).
  assert (Hact : model.DeletedAt user = None) by (subst user; reflexivity).
  split; [subst user; exact Hgen|].
  intros attempt. unfold userService. rewrite ValidatePassword_unfold.
  fold (userRepo db).
  rewrite (GetByEmail_the_row db email s1 user); auto.
  - rewrite Hrows. apply List.in_app_iff. right. by left.
  - rewrite Hrows. intros r Hr Hd He. apply List.in_app_iff in Hr as [Hr|[<-|[]]].
    + destruct (Hnew r Hr Hd He).
    + reflexivity.
Qed.

Lemma CreateUser_then_ValidatePassword_witness :
  let created := service.CreateUser (userService sample.crypto sample.db)
                   "dan@x.com" "password4" "Dan" "Orr" "" sample.store in
  fst (service.ValidatePassword (userService sample.crypto sample.db)
         "dan@x.com" "password4" (snd created)) = fst created /\
  fst (service.ValidatePassword (userService sample.crypto sample.db)
         "dan@x.com" "password5" (snd created)) = inr ErrInvalidPassword.
Proof.
  cbn zeta.
  pose proof (CreateUser_then_ValidatePassword sample.crypto sample.db
                "dan@x.com" "password4" "Dan" "Orr" "" sample.store
                (snd (service.CreateUser (userService sample.crypto sample.db)
                        "dan@x.com" "password4" "Dan" "Orr" "" sample.store))
                (model.mkUser "10" "dan@x.com" "$2a$10$password4" "Dan" "Orr" ""
                              "active" 1001 1001 None)
                ltac:(vm_compute; reflexivity) eq_refl eq_refl) as [_ Hv].
  split.
  - rewrite (Hv "password4"). vm_compute. reflexivity.
  - rewrite (Hv "password5"). vm_compute. reflexivity.
Defined.

(** ** What reading and writing operations leave alone *)

Lemma only_read_refl (s : gorm.Store) : only_read s s.
Proof.
  split; [reflexivity|]. exists []. split; [by rewrite app_nil_r|constructor].
Qed.

Lemma only_read_record (q : gorm.Stmt) (s s' : gorm.Store) :
  is_select q -> only_read s s' -> only_read s (gorm.record q s').
Proof.
  intros Hq [Hu (qs & He & Hqs)]. split; [exact Hu|].
  exists (qs ++ [q])%list. cbn. rewrite He, <- app_assoc. split; [reflexivity|].
  apply Forall_app. split; [exact Hqs|]. by constructor.
Qed.

Lemma GetByID_state (db : gorm.DB) (id : string) (s : gorm.Store) :
  snd (repository.GetByID (userRepo db) id s)
  = gorm.record (gorm.SelectFirst [gorm.IdEq id]) s.
Proof.
  cbn. unfold repository.userRepository_GetByID. run. cbn [repository.db].
  pose proof (First_state db [gorm.IdEq id] s) as Hst.
  destruct (gorm.First db _ s) as [[u|e] s0]; cbn [snd] in Hst; subst s0;
    [reflexivity|].
  destruct (errors_Is e ErrRecordNotFound); reflexivity.
Qed.

Lemma GetByEmail_state (db : gorm.DB) (email : string) (s : gorm.Store) :
  snd (repository.GetByEmail (userRepo db) email s)
  = gorm.record (gorm.SelectFirst [gorm.EmailEq email]) s.
Proof.
  cbn. unfold repository.userRepository_GetByEmail. run. cbn [repository.db].
  pose proof (First_state db [gorm.EmailEq email] s) as Hst.
  destruct (gorm.First db _ s) as [[u|e] s0]; cbn [snd] in Hst; subst s0;
    [reflexivity|].
  destruct (errors_Is e ErrRecordNotFound); reflexivity.
Qed.

Lemma List_only_reads (db : gorm.DB) (page pageSize : Z) (filter : string)
  (s : gorm.Store) :
  only_read s (snd (repository.List (userRepo db) page pageSize filter s)).
Proof.
  cbn. unfold repository.userRepository_List, gorm.Count, gorm.Find. run.
  cbn [repository.db].
  set (query := if decide (filter = "") then [] else _). clearbody query.
  repeat (case_match; simplify_eq/=);
    repeat (apply only_read_record; [exact I|]); apply only_read_refl.
Qed.

(** X7: The reading operations write nothing.  For every request and every
    behaviour of the engine, [GetUser], [GetUserByEmail] and [ListUsers]
    of the handler and [ValidatePassword] of the service leave the table
    as it is and execute reading statements only. *)
Theorem reading_operations_write_nothing (crypto : bcrypt.Package)
  (db : gorm.DB) (s : gorm.Store) :
  (forall req, only_read s (snd (handler.GetUser (userHandler crypto db) req s))) /\
  (forall req,
     only_read s (snd (handler.GetUserByEmail (userHandler crypto db) req s))) /\
  (forall req, only_read s (snd (handler.ListUsers (userHandler crypto db) req s))) /\
  (forall email password,
     only_read s (snd (service.ValidatePassword (userService crypto db)
                         email password s))).
Proof.
  repeat apply conj.
  - intros req. unfold handler.GetUser, userHandler, userService. run.
    cbn [handler.service handler.NewUserHandler service.GetUser
         service.NewUserService].
    unfold service.userService_GetUser. cbn [service.repo]. run.
    fold (userRepo db).
    pose proof (GetByID_state db (pb.GetUserRequest_Id req) s) as Hst.
    destruct (repository.GetByID _ _ s) as [[u|e] s0]; cbn [snd] in Hst; subst s0.
    + apply only_read_record; [exact I|apply only_read_refl].
    + destruct (errors_Is e ErrUserNotFound);
        (apply only_read_record; [exact I|apply only_read_refl]).
  - intros req. unfold handler.GetUserByEmail, userHandler, userService. run.
    cbn [handler.service handler.NewUserHandler service.GetUserByEmail
         service.NewUserService].
    unfold service.userService_GetUserByEmail. cbn [service.repo]. run.
    fold (userRepo db).
    pose proof (GetByEmail_state db (pb.GetUserByEmailRequest_Email req) s) as Hst.
    destruct (repository.GetByEmail _ _ s) as [[u|e] s0]; cbn [snd] in Hst; subst s0.
    + apply only_read_record; [exact I|apply only_read_refl].
    + destruct (errors_Is e ErrUserNotFound);
        (apply only_read_record; [exact I|apply only_read_refl]).
  - intros req. unfold handler.ListUsers, userHandler, userService. run.
    cbn [handler.service handler.NewUserHandler].
    rewrite ListUsers_delegates. fold (userRepo db).
    match goal with |- context [repository.List (userRepo db) ?p ?k ?f s] =>
      pose proof (List_only_reads db p k f s) as Hst;
      destruct (repository.List (userRepo db) p k f s) as [[[us total]|e] s0]
    end; exact Hst.
  - intros email password. unfold userService.
    rewrite ValidatePassword_unfold. fold (userRepo db).
    pose proof (GetByEmail_state db email s) as Hst.
    destruct (repository.GetByEmail _ _ s) as [[u|e] s0]; cbn [snd] in Hst; subst s0;
      (apply only_read_record; [exact I|apply only_read_refl]).
Qed.

Lemma map_ID_if (f : model.User -> bool) (g : model.User -> model.User)
  (l : list model.User) :
  (forall r, model.ID (g r) = model.ID r) ->
  List.map model.ID (List.map (fun r => if f r then g r else r) l)
  = List.map model.ID l.
Proof.
  intros Hg. rewrite List.map_map. apply List.map_ext. intros r.
  destruct (f r); auto.
Qed.

(** X8: No operation of the gateway removes a row or changes an id.  For every
    argument and every behaviour of the engine, [Create] leaves the table
    as it is or appends one row to it, [Update] and [Delete] keep the
    column of ids (hence the number of rows), and [Delete] changes nothing
    in a row but its deletedAt. *)
Theorem writing_operations_keep_rows (db : gorm.DB) (s : gorm.Store) :
  (forall p,
     exists tail,
       gorm.users (snd (repository.Create (userRepo db) p s))
       = (gorm.users s ++ tail)%list /\ (length tail <= 1)%nat) /\
  (forall p,
     List.map model.ID (gorm.users (snd (repository.Update (userRepo db) p s)))
     = List.map model.ID (gorm.users s)) /\
  (forall id,
     List.map model.ID (gorm.users (snd (repository.Delete (userRepo db) id s)))
     = List.map model.ID (gorm.users s) /\
     forall i r,
       gorm.users s !! i = Some r ->
       exists r',
         gorm.users (snd (repository.Delete (userRepo db) id s)) !! i = Some r' /\
         model.with_DeletedAt (model.DeletedAt r) r' = r).
Proof.
  repeat apply conj.
  - assert (Hsame : forall l : list model.User,
              exists tail, l = (l ++ tail)%list /\ (length tail <= 1)%nat).
    { intros l. exists []. rewrite app_nil_r. split; [reflexivity|cbn; lia]. }
    intros [u|]; [|apply Hsame].
    cbn. unfold repository.userRepository_Create. run. cbn [repository.db].
    pose proof (First_state db [gorm.EmailEq (model.Email u)] s) as Hst.
    destruct (gorm.First db _ s) as [[u0|e] s0]; cbn [snd] in Hst; subst s0.
    { apply Hsame. }
    rewrite Create_prepares. cbn zeta. cbn [gorm.record gorm.users].
    destruct (gorm.fails db _ _); cbn [fst snd gorm.users gorm.record].
    + apply Hsame.
    + eexists [_]. split; [reflexivity|cbn; lia].
  - intros [u|]; [|reflexivity].
    destruct (decide (model.ID u = "")) as [Hid|Hid].
    { cbn. unfold repository.userRepository_Update. by rewrite decide_True. }
    rewrite Update_unfold by done. cbn zeta.
    destruct (gorm.fails db _ _); cbn [snd gorm.users gorm.record]; [reflexivity|].
    by apply map_ID_if.
  - intros id. rewrite Delete_unfold. cbn zeta.
    destruct (gorm.fails db _ _); cbn [snd gorm.users gorm.record].
    + split; [reflexivity|]. intros i r Hi. exists r. split; [exact Hi|].
      by destruct r.
    + split; [by apply map_ID_if|]. intros i r Hi.
      rewrite lookup_map, Hi. cbn. eexists. split; [reflexivity|].
      destruct (gorm.scoped db _ r); by destruct r.
Qed.


Lemma ids_nonempty_preserved_witness :
  (forall p r,
     In r (gorm.users (snd (repository.Create (userRepo sample.db) p sample.store))) ->
     model.ID r <> "") /\
  (forall p r,
     In r (gorm.users (snd (repository.Update (userRepo sample.db) p sample.store))) ->
     model.ID r <> "") /\
  (forall id r,
     In r (gorm.users (snd (repository.Delete (userRepo sample.db) id sample.store))) ->
     model.ID r <> "").
Proof.
  apply (ids_nonempty_preserved sample.db sample.store).
  - intros [|n]; discriminate.
  - intros r [<-|[<-|[<-|[]]]]; discriminate.
Defined.

(** ** Uniqueness of emails *)

(** X10: [Create] keeps the emails of the active rows distinct, provided its
    lookup is executed: if no two rows that are not soft-deleted share an
    email before the call, none do after it, whatever the outcome. *)
Theorem Create_keeps_emails_unique (db : gorm.DB) (s : gorm.Store)
  (u : model.User) :
  gorm.fails db (gorm.SelectFirst [gorm.EmailEq (model.Email u)]) (gorm.users s)
  = None ->
  NoDup (active_emails s) ->
  NoDup (active_emails (snd (repository.Create (userRepo db) (Some u) s))).
Proof.
  intros Hok Hnd. unfold active_emails, active_rows in *.
  cbn. unfold repository.userRepository_Create. run. cbn [repository.db].
  pose proof (First_state db [gorm.EmailEq (model.Email u)] s) as Hst.
  destruct (gorm.First db _ s) as [[u0|e] s0] eqn:HF; cbn [snd] in Hst; subst s0;
    [exact Hnd|].
  pose proof (First_not_found_inv db _ s _ e Hok HF) as Hnone.
  rewrite Create_prepares. cbn zeta. cbn [gorm.record gorm.users].
  destruct (gorm.fails db (gorm.InsertRow _) _);
    cbn [fst snd gorm.users gorm.record]; [exact Hnd|].
  rewrite List.filter_app, List.map_app. cbn [List.filter].
  destruct (gorm.active _) eqn:Hact; [|cbn; by rewrite app_nil_r].
  cbn. apply NoDup_app. split; [exact Hnd|]. split; [|apply NoDup_singleton].
  intros email Hin Hrow. apply list_elem_of_singleton in Hrow.
  apply list_elem_of_In, List.in_map_iff in Hin as (r & Hr & Hin).
  apply List.filter_In in Hin as [Hin Hractive].
  specialize (Hnone r Hin). apply not_true_iff_false in Hnone. apply Hnone.
  apply scoped_EmailEq. split.
  - unfold gorm.active in Hractive. by destruct (model.DeletedAt r).
  - rewrite Hr, Hrow. unfold stored, prepared. reflexivity.
Qed.

Lemma Create_keeps_emails_unique_witness :
  NoDup (active_emails
           (snd (repository.Create (userRepo sample.db)
                   (Some (model.mkUser "" "bob@x.com" "h" "Rob" "" "" "" 0 0 None))
                   sample.store))) /\
  NoDup (active_emails
           (snd (repository.Create (userRepo sample.db)
                   (Some (model.mkUser "" "cat@x.com" "h" "Kit" "" "" "" 0 0 None))
                   sample.store))).
Proof.
  assert (Hnd : NoDup (active_emails sample.store)).
  { cbn. repeat (apply NoDup_cons; split;
                 [rewrite list_elem_of_In; cbn; intuition discriminate|]).
    apply NoDup_nil. done. }
  split; apply (Create_keeps_emails_unique sample.db sample.store);
    [reflexivity|exact Hnd|reflexivity|exact Hnd].
Defined.

(** X11: [Create] treats a lookup that the engine fails like a lookup that
    finds nothing: when the insert is then executed the record is stored
    and no error is returned, even if an active row has the same email. *)
Theorem Create_ignores_failed_lookup (db : gorm.DB) (s : gorm.Store)
  (u : model.User) (msg : string) :
  let lookup := gorm.SelectFirst [gorm.EmailEq (model.Email u)] in
  let now := gorm.NowFunc db (S (gorm.tick s)) in
  let row := stored (gorm.gen_random_uuid db (S (gorm.tick s))) now u in
  gorm.fails db lookup (gorm.users s) = Some msg ->
  gorm.fails db (gorm.InsertRow (prepared now u)) (gorm.users s) = None ->
  repository.Create (userRepo db) (Some u) s
  = ((Some row, None),
     gorm.mkStore (gorm.users s ++ [row])
       (gorm.executed s ++ [lookup; gorm.InsertRow (prepared now u)])).
Proof.
  intros lookup now row Hfail Hok.
  cbn. unfold repository.userRepository_Create, gorm.First. run.
  cbn [repository.db]. fold lookup. rewrite Hfail.
  rewrite Create_prepares. cbn zeta. rewrite tick_record. fold now.
  cbn [gorm.record gorm.users]. rewrite Hok. cbn [fst snd]. fold row.
  unfold gorm.record. cbn [gorm.users gorm.executed]. by rewrite <- app_assoc.
Qed.

Lemma Create_ignores_failed_lookup_witness :
  exists row s',
    repository.Create (userRepo flaky_db)
      (Some (model.mkUser "" "ann@x.com" "h" "Nan" "" "" "" 0 0 None)) sample.store
    = ((Some row, None), s') /\
    gorm.users s' = (gorm.users sample.store ++ [row])%list /\
    model.Email row = model.Email sample.ann /\ model.DeletedAt row = None.
Proof.
  eexists _, _. split.
  - apply (Create_ignores_failed_lookup flaky_db sample.store
             (model.mkUser "" "ann@x.com" "h" "Nan" "" "" "" 0 0 None)
             "connection reset by peer"); reflexivity.
  - cbn. auto.
Defined.

(** [UpdateUser] on the one active row that carries a non-empty id: the
    record returned and the rows stored, the engine executing both
    statements. *)
Lemma UpdateUser_the_row (crypto : bcrypt.Package) (db : gorm.DB)
  (s : gorm.Store) (updates : gmap string any) (existing : model.User) :
  model.ID existing <> "" ->
  NoDup (List.map model.ID (gorm.users s)) ->
  In existing (gorm.users s) ->
  model.DeletedAt existing = None ->
  let now := gorm.NowFunc db (S (gorm.tick s)) in
  let merged := service.apply_updates updates existing in
  gorm.fails db (gorm.SelectFirst [gorm.IdEq (model.ID existing)]) (gorm.users s)
  = None ->
  gorm.fails db (gorm.UpdateRow (model.with_UpdatedAt now merged)) (gorm.users s)
  = None ->
  exists s',
    service.UpdateUser (userService crypto db) (model.ID existing) updates s
    = (inl (model.with_UpdatedAt now merged), s') /\
    gorm.users s'
    = List.map (fun r => if decide (model.ID r = model.ID existing)
                         then gorm.assign now merged existing else r)
               (gorm.users s).
Proof.
  intros Hid Hnd Hin Hact now merged Hfirst Hupdate.
  cbn [service.UpdateUser userService service.NewUserService].
  unfold service.userService_UpdateUser. cbn [service.repo]. run.
  assert (HG : repository.GetByID (userRepo db) (model.ID existing) s
               = (inl existing,
                  gorm.record (gorm.SelectFirst [gorm.IdEq (model.ID existing)]) s)).
  { cbn. unfold repository.userRepository_GetByID, gorm.First. run.
    cbn [repository.db]. rewrite Hfirst, filter_by_ID by done. reflexivity. }
  rewrite HG. fold merged.
  assert (Hmid : model.ID merged = model.ID existing).
  { unfold merged. rewrite apply_updates_sparse. reflexivity. }
  rewrite Update_unfold by (rewrite Hmid; exact Hid). cbn zeta.
  rewrite tick_record. fold now. cbn [gorm.record gorm.users].
  rewrite Hupdate, Hmid.
  assert (Hhit : (gorm.count (gorm.scoped db [gorm.IdEq (model.ID existing)])
                             (gorm.users s) =? 0) = false).
  { apply Z.eqb_neq. rewrite count_zero. intros Hnone.
    specialize (Hnone existing Hin). apply not_true_iff_false in Hnone.
    apply Hnone, scoped_IdEq. auto. }
  rewrite Hhit. cbn [fst snd deref].
  eexists. split; [reflexivity|]. cbn [gorm.users].
  apply List.map_ext_in. intros r Hr.
  destruct (gorm.scoped db [gorm.IdEq (model.ID existing)] r) eqn:Hs.
  - apply scoped_IdEq in Hs as [Hra Hri].
    rewrite decide_True by exact Hri.
    by assert (r = existing) as -> by (eapply unique_by_ID; eauto).
  - case_decide as Hri; [|reflexivity].
    assert (r = existing) as -> by (eapply unique_by_ID; eauto).
    apply not_true_iff_false in Hs. destruct Hs. apply scoped_IdEq. auto.
Qed.

(** X12: [UpdateUser] does not look for the new email among the other users.
    Given two active rows with distinct ids, setting the email of the
    first to the non-empty email of the second succeeds when the engine
    executes the two statements, and leaves two active rows with that
    email in the table. *)
Theorem UpdateUser_email_unchecked (crypto : bcrypt.Package) (db : gorm.DB)
  (s : gorm.Store) (a b : model.User) :
  NoDup (List.map model.ID (gorm.users s)) ->
  In a (gorm.users s) -> In b (gorm.users s) ->
  model.DeletedAt a = None -> model.DeletedAt b = None ->
  model.ID a <> "" -> model.ID a <> model.ID b -> model.Email b <> "" ->
  let now := gorm.NowFunc db (S (gorm.tick s)) in
  let row := model.with_UpdatedAt now (model.with_Email (model.Email b) a) in
  gorm.fails db (gorm.SelectFirst [gorm.IdEq (model.ID a)]) (gorm.users s) = None ->
  gorm.fails db (gorm.UpdateRow row) (gorm.users s) = None ->
  exists s',
    service.UpdateUser (userService crypto db) (model.ID a)
      {[ "email" := AnyString (model.Email b) ]} s = (inl row, s') /\
    In b (gorm.users s') /\
    exists a',
      In a' (gorm.users s') /\ model.ID a' = model.ID a /\
      model.Email a' = model.Email b /\ model.DeletedAt a' = None.
Proof.
  intros Hnd Ha Hb Hacta Hactb Hida Hne Hemail now row Hfirst Hupdate.
  assert (Hmerged : service.apply_updates {[ "email" := AnyString (model.Email b) ]} a
                    = model.with_Email (model.Email b) a).
  { rewrite apply_updates_sparse. unfold sparse_merge, field_after, status_after.
    rewrite lookup_singleton_eq, !lookup_singleton_ne by done.
    by destruct a. }
  destruct (UpdateUser_the_row crypto db s
              {[ "email" := AnyString (model.Email b) ]} a Hida Hnd Ha Hacta)
    as (s' & Hcall & Hrows).
  { exact Hfirst. }
  { rewrite Hmerged. exact Hupdate. }
  rewrite Hmerged in Hcall, Hrows. exists s'. split; [exact Hcall|].
  rewrite Hrows. split.
  - apply List.in_map_iff. exists b. split; [|exact Hb].
    by rewrite decide_False by congruence.
  - eexists. split.
    + apply List.in_map_iff. exists a. split; [|exact Ha].
      rewrite decide_True by reflexivity. reflexivity.
    + unfold gorm.assign, gorm.pick. cbn.
      rewrite decide_False by exact Hemail. rewrite Hacta. auto.
Qed.

Lemma UpdateUser_email_unchecked_witness :
  exists row s',
    service.UpdateUser (userService sample.crypto sample.db) "u1"
      {[ "email" := AnyString "bob@x.com" ]} sample.store = (inl row, s') /\
    In sample.bob (gorm.users s') /\
    exists a',
      In a' (gorm.users s') /\ model.ID a' = "u1" /\
      model.Email a' = "bob@x.com" /\ model.DeletedAt a' = None.
Proof.
  eexists.
  apply (UpdateUser_email_unchecked sample.crypto sample.db sample.store
           sample.ann sample.bob); try reflexivity; try discriminate.
  - cbn. repeat (apply NoDup_cons; split;
                 [rewrite list_elem_of_In; cbn; intuition discriminate|]).
    apply NoDup_nil. done.
  - left. reflexivity.
  - right. left. reflexivity.
Defined.

(** ** Pages *)

Lemma int_small (z : Z) : - 2 ^ 63 <= z < 2 ^ 63 -> int z = z.
Proof.
  intros Hz. unfold int, wrap.
  replace (2 ^ (64 - 1)) with 9223372036854775808 by reflexivity.
  replace (2 ^ 64) with 18446744073709551616 by reflexivity.
  replace (2 ^ 63) with 9223372036854775808 in Hz by reflexivity.
  rewrite Z.mod_small; lia.
Qed.

Lemma List_returns (db : gorm.DB) (page pageSize : Z) (filter : string)
  (s s' : gorm.Store) (us : list model.User) (total : Z) :
  repository.List (userRepo db) page pageSize filter s = (inl (us, total), s') ->
  us = gorm.window (int (int (page - 1) * pageSize)) pageSize (matching db filter s) /\
  total = int64 (Z.of_nat (length (matching db filter s))) /\
  gorm.users s' = gorm.users s.
Proof.
  cbn. unfold repository.userRepository_List, gorm.Count, gorm.Find. run.
  cbn [repository.db].
  pose proof (filter_scoped_query db filter (gorm.users s)) as Hq.
  set (query := if decide (filter = "") then [] else _) in *. clearbody query.
  intros H. repeat (case_match; simplify_eq/=).
  unfold gorm.count, matching, active_rows. rewrite !Hq. auto.
Qed.

Lemma window_in_range (offset limit : Z) (l : list model.User) :
  0 <= offset -> 0 <= limit ->
  gorm.window offset limit l = take (Z.to_nat limit) (drop (Z.to_nat offset) l).
Proof.
  intros Ho Hl. unfold gorm.window.
  destruct (Z.leb_spec 0 limit); [|lia].
  destruct (Z.ltb_spec 0 offset); [reflexivity|].
  by replace offset with 0 by lia.
Qed.

(** X13: A list reply is never longer than the page size in force: whatever
    the request, a successful [ListUsers] of the handler carries at most
    100 users, and at most pageSize of them when the requested pageSize
    lies in 1..100 (10 otherwise). *)
Theorem ListUsers_page_bounded (crypto : bcrypt.Package) (db : gorm.DB)
  (req : pb.ListUsersRequest) (s s' : gorm.Store) (resp : pb.ListUsersResponse) :
  handler.ListUsers (userHandler crypto db) req s = (inl resp, s') ->
  Z.of_nat (length (pb.Users resp))
  <= effective_pageSize (int (pb.ListUsersRequest_PageSize req)) <= 100.
Proof.
  unfold handler.ListUsers, userHandler, userService. run.
  cbn [handler.service handler.NewUserHandler].
  rewrite ListUsers_delegates. fold (userRepo db).
  set (pageSize := int (pb.ListUsersRequest_PageSize req)).
  set (page := int (pb.ListUsersRequest_Page req)).
  set (k := if (_ <? 1) || (100 <? _) then 10 else _).
  assert (Hk : k = effective_pageSize pageSize /\ 1 <= k <= 100).
  { unfold k, effective_pageSize.
    destruct (Z.ltb_spec pageSize 1); cbn.
    - change (100 <? 10) with false. cbn. case_decide; lia.
    - rewrite (proj2 (Z.ltb_ge pageSize 1)) by lia. cbn.
      destruct (Z.ltb_spec 100 pageSize); case_decide; lia. }
  destruct Hk as [Hk Hrange]. clearbody k.
  destruct (repository.List (userRepo db) _ k _ s) as [[[us total]|e] s0] eqn:HL;
    [|intros [=]].
  intros [= <- <-]. cbn [pb.Users]. rewrite List.length_map.
  apply List_returns in HL as (-> & _ & _). rewrite <- Hk. split; [|lia].
  unfold gorm.window. destruct (Z.leb_spec 0 k); [|lia].
  rewrite length_take. lia.
Qed.

Lemma ListUsers_page_bounded_witness :
  exists resp s',
    handler.ListUsers (userHandler sample.crypto sample.db)
                      (pb.mkListUsersRequest 1 1 "") sample.store = (inl resp, s') /\
    Z.of_nat (length (pb.Users resp)) <= effective_pageSize (int 1) <= 100.
Proof.
  eexists _, _. split; [vm_compute; reflexivity|].
  apply (ListUsers_page_bounded sample.crypto sample.db
           (pb.mkListUsersRequest 1 1 "") sample.store _ _ eq_refl).
Defined.

(** X14: Consecutive pages tile the result.  For a page number in the range of
    the wire type and a page size in 1..100, the users of page [page]
    followed by those of page [page + 1], listed right after, are the
    [2 * pageSize] rows that follow the first [(page - 1) * pageSize] of
    the matching active rows: no row is skipped and none is repeated;
    both calls report the same total. *)
Theorem consecutive_pages (crypto : bcrypt.Package) (db : gorm.DB)
  (page pageSize : Z) (filter : string) (s s1 s2 : gorm.Store)
  (us1 us2 : list model.User) (total1 total2 : Z) :
  1 <= page < 2 ^ 31 -> 1 <= pageSize <= 100 ->
  service.ListUsers (userService crypto db) page pageSize filter s
  = (inl (us1, total1), s1) ->
  service.ListUsers (userService crypto db) (page + 1) pageSize filter s1
  = (inl (us2, total2), s2) ->
  (us1 ++ us2)%list
  = take (Z.to_nat (2 * pageSize))
         (drop (Z.to_nat ((page - 1) * pageSize)) (matching db filter s)) /\
  total1 = total2.
Proof.
  intros Hp Hk. unfold userService. rewrite !ListUsers_delegates.
  fold (userRepo db).
  replace (2 ^ 31) with 2147483648 in Hp by reflexivity.
  rewrite (proj2 (Z.ltb_ge page 1)), (proj2 (Z.ltb_ge (page + 1) 1)) by lia.
  rewrite (proj2 (Z.ltb_ge pageSize 1)), (proj2 (Z.ltb_ge 100 pageSize)) by lia.
  cbn [orb]. intros H1 H2.
  apply List_returns in H1 as (-> & -> & Hrows).
  apply List_returns in H2 as (-> & -> & _).
  assert (Hsame : matching db filter s1 = matching db filter s).
  { unfold matching, active_rows. by rewrite Hrows. }
  rewrite Hsame. split; [|reflexivity].
  replace (page + 1 - 1) with page by lia.
  assert (H63 : 2 ^ 63 = 9223372036854775808) by reflexivity.
  rewrite (int_small (page - 1)), (int_small page) by lia.
  rewrite (int_small ((page - 1) * pageSize)), (int_small (page * pageSize)) by nia.
  rewrite !window_in_range by nia.
  replace (Z.to_nat (page * pageSize))
    with (Z.to_nat ((page - 1) * pageSize) + Z.to_nat pageSize)%nat by nia.
  rewrite <- drop_drop, take_take_drop. f_equal. lia.
Qed.

Lemma consecutive_pages_witness :
  let svc := userService sample.crypto sample.db in
  let first := service.ListUsers svc 1 1 "" sample.store in
  let second := service.ListUsers svc 2 1 "" (snd first) in
  fst first = inl ([sample.ann], 2) /\
  fst second = inl ([sample.bob], 2) /\
  ([sample.ann] ++ [sample.bob])%list
  = take (Z.to_nat (2 * 1))
         (drop (Z.to_nat ((1 - 1) * 1)) (matching sample.db "" sample.store)).
Proof.
  cbn zeta. split; [vm_compute; reflexivity|]. split; [vm_compute; reflexivity|].
  apply (consecutive_pages sample.crypto sample.db 1 1 "" sample.store
           (snd (service.ListUsers (userService sample.crypto sample.db)
                   1 1 "" sample.store))
           (snd (service.ListUsers (userService sample.crypto sample.db) 2 1 ""
                   (snd (service.ListUsers (userService sample.crypto sample.db)
                           1 1 "" sample.store))))
           [sample.ann] [sample.bob] 2 2);
    first [lia | vm_compute; reflexivity | (split; [lia|reflexivity])].
Defined.

(** X15: A page past the end is empty and still reports the total: for a page
    number in the range of the wire type and a page size in 1..100, when
    the matching active rows are no more than the rows before the page,
    a successful [ListUsers] returns no user and the count of all of
    them. *)
Theorem page_past_the_end (crypto : bcrypt.Package) (db : gorm.DB)
  (page pageSize : Z) (filter : string) (s s' : gorm.Store)
  (us : list model.User) (total : Z) :
  1 <= page < 2 ^ 31 -> 1 <= pageSize <= 100 ->
  Z.of_nat (length (matching db filter s)) <= (page - 1) * pageSize ->
  service.ListUsers (userService crypto db) page pageSize filter s
  = (inl (us, total), s') ->
  us = [] /\ total = int64 (Z.of_nat (length (matching db filter s))).
Proof.
  intros Hp Hk Hpast. unfold userService. rewrite ListUsers_delegates.
  fold (userRepo db).
  replace (2 ^ 31) with 2147483648 in Hp by reflexivity.
  rewrite (proj2 (Z.ltb_ge page 1)) by lia.
  rewrite (proj2 (Z.ltb_ge pageSize 1)), (proj2 (Z.ltb_ge 100 pageSize)) by lia.
  cbn [orb]. intros HL. apply List_returns in HL as (-> & -> & _).
  split; [|reflexivity].
  assert (H63 : 2 ^ 63 = 9223372036854775808) by reflexivity.
  rewrite (int_small (page - 1)) by lia.
  rewrite (int_small ((page - 1) * pageSize)) by nia.
  rewrite window_in_range by nia.
  rewrite drop_ge by lia. apply take_nil.
Qed.

Lemma page_past_the_end_witness :
  fst (service.ListUsers (userService sample.crypto sample.db) 2 2 "" sample.store)
  = inl ([], 2).
Proof.
  destruct (service.ListUsers (userService sample.crypto sample.db) 2 2 ""
              sample.store) as [[[us total]|e] s'] eqn:HL;
    [|vm_compute in HL; discriminate].
  destruct (page_past_the_end sample.crypto sample.db 2 2 "" sample.store s'
              us total) as [-> ->]; [lia|lia|vm_compute; discriminate|exact HL|].
  reflexivity.
Defined.

(** ** After a deletion *)

Lemma handler_DeleteUser_done (crypto : bcrypt.Package) (db : gorm.DB)
  (req : pb.DeleteUserRequest) (s s1 : gorm.Store) (done : pb.Empty) :
  handler.DeleteUser (userHandler crypto db) req s = (inl done, s1) ->
  repository.Delete (userRepo db) (pb.DeleteUserRequest_Id req) s = (None, s1).
Proof.
  unfold handler.DeleteUser, userHandler, userService. run.
  cbn [handler.service handler.NewUserHandler].
  rewrite DeleteUser_delegates. fold (userRepo db).
  destruct (repository.Delete _ _ s) as [[err|] s0].
  - destruct (errors_Is err ErrUserNotFound); intros [=].
  - intros [= _ <-]. reflexivity.
Qed.

Lemma count_nonzero (f : model.User -> bool) (l : list model.User) :
  gorm.count f l <> 0 -> exists r, In r l /\ f r = true.
Proof.
  unfold gorm.count. induction l as [|a l IH]; cbn; [lia|].
  destruct (f a) eqn:Ha; [eauto|]. intros H. destruct (IH H) as (r & Hr & Hf). eauto.
Qed.

(** X16: Once [DeleteUser] of the handler has succeeded for an id, the user is
    gone for the callers and still in the table: a row with that id stays
    stored, marked with the time of the deletion; a second [DeleteUser]
    and a [GetUser] of the id are answered with not-found (the engine
    executing their statement); and no later [ListUsers] reply, whatever
    its page and filter, contains a user with that id. *)
Theorem DeleteUser_then (crypto : bcrypt.Package) (db : gorm.DB)
  (req : pb.DeleteUserRequest) (s s1 : gorm.Store) (done : pb.Empty) :
  let h := userHandler crypto db in
  let id := pb.DeleteUserRequest_Id req in
  handler.DeleteUser h req s = (inl done, s1) ->
  (exists r, In r (gorm.users s1) /\ model.ID r = id /\
             model.DeletedAt r = Some (gorm.NowFunc db (gorm.tick s))) /\
  (gorm.fails db (gorm.SoftDelete [gorm.IdEq id]) (gorm.users s1) = None ->
   fst (handler.DeleteUser h req s1)
   = inr (status.Error codes.NotFound "user not found")) /\
  (gorm.fails db (gorm.SelectFirst [gorm.IdEq id]) (gorm.users s1) = None ->
   fst (handler.GetUser h (pb.mkGetUserRequest id) s1)
   = inr (status.Error codes.NotFound "user not found")) /\
  (forall lreq resp s2,
     handler.ListUsers h lreq s1 = (inl resp, s2) ->
     forall u, In u (pb.Users resp) -> pb.Id u <> id).
Proof.
  intros h id Hdone. apply handler_DeleteUser_done in Hdone. fold id in Hdone.
  pose proof (Delete_leaves_none db id s s1 Hdone) as Hnone.
  repeat apply conj.
  - revert Hdone. rewrite Delete_unfold. cbn zeta.
    destruct (gorm.fails db _ _); [intros [=]|].
    destruct (Z.eqb_spec (gorm.count (gorm.scoped db [gorm.IdEq id]) (gorm.users s)) 0)
      as [Hc|Hc]; intros [= <-].
    apply count_nonzero in Hc as (r & Hr & Hs).
    exists (model.with_DeletedAt (Some (gorm.NowFunc db (gorm.tick s))) r).
    cbn [gorm.users]. split.
    + apply List.in_map_iff. exists r. by rewrite Hs.
    + apply scoped_IdEq in Hs as [_ Hid]. auto.
  - intros Hok. unfold handler.DeleteUser, h, userHandler, userService. run.
    cbn [handler.service handler.NewUserHandler].
    rewrite DeleteUser_delegates. fold (userRepo db). fold id.
    by rewrite (Delete_unknown db id s1 Hok Hnone).
  - intros Hok. unfold handler.GetUser, h, userHandler, userService. run.
    cbn [handler.service handler.NewUserHandler service.GetUser
         service.NewUserService pb.GetUserRequest_Id].
    unfold service.userService_GetUser. cbn [service.repo]. run.
    cbn. unfold repository.userRepository_GetByID. run. cbn [repository.db].
    rewrite First_none; [reflexivity|exact Hok|].
    intros r Hr. apply not_true_iff_false. rewrite scoped_IdEq.
    intros [Hd Hi]. exact (Hnone r Hr Hd Hi).
  - intros lreq resp s2.
    unfold handler.ListUsers, h, userHandler, userService. run.
    cbn [handler.service handler.NewUserHandler].
    rewrite ListUsers_delegates. fold (userRepo db).
    destruct (repository.List (userRepo db) _ _ _ s1) as [[[us total]|e] s0] eqn:HL;
      [|intros [=]].
    intros [= <- <-] u Hu. cbn [pb.Users] in Hu.
    apply List.in_map_iff in Hu as (r & <- & Hr). cbn [handler.modelToProto pb.Id].
    apply List_returns in HL as (-> & _ & _).
    apply window_In in Hr. unfold matching, active_rows in Hr.
    apply List.filter_In in Hr as [Hr _]. apply List.filter_In in Hr as [Hr Hact].
    apply (Hnone r Hr). unfold gorm.active in Hact. by destruct (model.DeletedAt r).
Qed.

Lemma DeleteUser_then_witness :
  let h := userHandler sample.crypto sample.db in
  let deleted := handler.DeleteUser h (pb.mkDeleteUserRequest "u2") sample.store in
  fst (handler.DeleteUser h (pb.mkDeleteUserRequest "u2") (snd deleted))
  = inr (status.Error codes.NotFound "user not found") /\
  fst (handler.GetUser h (pb.mkGetUserRequest "u2") (snd deleted))
  = inr (status.Error codes.NotFound "user not found").
Proof.
  cbn zeta.
  pose proof (DeleteUser_then sample.crypto sample.db (pb.mkDeleteUserRequest "u2")
                sample.store
                (snd (handler.DeleteUser (userHandler sample.crypto sample.db)
                        (pb.mkDeleteUserRequest "u2") sample.store))
                pb.mkEmpty ltac:(vm_compute; reflexivity))
    as (_ & Hagain & Hget & _).
  split; [apply Hagain|apply Hget]; reflexivity.
Defined.

Lemma Delete_frees_email (db : gorm.DB) (id email : string) (s s1 : gorm.Store) :
  (forall r, In r (gorm.users s) -> model.DeletedAt r = None ->
             model.Email r = email -> model.ID r = id) ->
  repository.Delete (userRepo db) id s = (None, s1) ->
  forall r, In r (gorm.users s1) -> gorm.scoped db [gorm.EmailEq email] r = false.
Proof.
  intros Honly HD r Hr. apply not_true_iff_false. rewrite scoped_EmailEq.
  intros [Hact Hemail].
  pose proof (Delete_leaves_none db id s s1 HD r Hr Hact) as Hne.
  revert HD Hr. rewrite Delete_unfold. cbn zeta.
  destruct (gorm.fails db _ _); [intros [=]|].
  destruct (_ =? 0); intros [= <-]. cbn [gorm.users]. intros Hr.
  apply List.in_map_iff in Hr as (r0 & Hr0 & Hin).
  destruct (gorm.scoped db [gorm.IdEq id] r0); subst r; [discriminate Hact|].
  by apply Hne, Honly.
Qed.

(** X17: The email of a deleted user is free again as far as the code goes.
    If the user [id] was the only active holder of an email and [Delete]
    of that id has succeeded, a later [Create] with the email (its lookup
    being executed) does not answer that the user exists already; and if
    the engine executes the insert, the record is stored beside the
    soft-deleted row. *)
Theorem email_free_after_Delete (db : gorm.DB) (id : string) (u : model.User)
  (s s1 : gorm.Store) :
  let now := gorm.NowFunc db (S (gorm.tick s1)) in
  let row := stored (gorm.gen_random_uuid db (S (gorm.tick s1))) now u in
  (forall r, In r (gorm.users s) -> model.DeletedAt r = None ->
             model.Email r = model.Email u -> model.ID r = id) ->
  repository.Delete (userRepo db) id s = (None, s1) ->
  gorm.fails db (gorm.SelectFirst [gorm.EmailEq (model.Email u)]) (gorm.users s1)
  = None ->
  snd (fst (repository.Create (userRepo db) (Some u) s1))
  <> Some ErrUserAlreadyExists /\
  (gorm.fails db (gorm.InsertRow (prepared now u)) (gorm.users s1) = None ->
   fst (repository.Create (userRepo db) (Some u) s1) = (Some row, None) /\
   gorm.users (snd (repository.Create (userRepo db) (Some u) s1))
   = (gorm.users s1 ++ [row])%list).
Proof.
  intros now row Honly HD Hlook.
  pose proof (Delete_frees_email db id (model.Email u) s s1 Honly HD) as Hnone.
  cbn. unfold repository.userRepository_Create. run. cbn [repository.db].
  rewrite (First_none db _ s1 Hlook Hnone). cbn [fst snd].
  rewrite Create_prepares. cbn zeta. rewrite tick_record. fold now.
  cbn [gorm.record gorm.users].
  destruct (gorm.fails db (gorm.InsertRow _) _) as [msg|]; cbn [fst snd].
  - split; [discriminate|]. intros [=].
  - split; [discriminate|]. intros _. fold row. split; reflexivity.
Qed.

Lemma email_free_after_Delete_witness :
  let deleted := snd (repository.Delete (userRepo sample.db) "u2" sample.store) in
  exists row,
    fst (repository.Create (userRepo sample.db)
           (Some (model.mkUser "" "bob@x.com" "h" "Rob" "" "" "" 0 0 None)) deleted)
    = (Some row, None) /\
    model.Email row = model.Email sample.bob /\ model.ID row <> model.ID sample.bob.
Proof.
  cbn zeta. eexists. split.
  - apply (email_free_after_Delete sample.db "u2"
             (model.mkUser "" "bob@x.com" "h" "Rob" "" "" "" 0 0 None)
             sample.store
             (snd (repository.Delete (userRepo sample.db) "u2" sample.store))).
    + intros r [<-|[<-|[<-|[]]]]; cbn; intros; (reflexivity || discriminate).
    + reflexivity.
    + reflexivity.
    + reflexivity.
  - split; [reflexivity|]. vm_compute. discriminate.
Defined.

(** ** When the storage engine is down *)

(** X18: If the engine fails every statement on the table, each of the six
    operations of the handler is answered with the Internal status and
    the constant message of the operation (never the message of the
    engine), and the table is left as it is. *)
Theorem engine_down_is_internal (crypto : bcrypt.Package) (db : gorm.DB)
  (s : gorm.Store) :
  (forall q, gorm.fails db q (gorm.users s) <> None) ->
  let h := userHandler crypto db in
  let internal (A : Type) (msg : string) (r : handler.Reply A * gorm.Store) :=
    fst r = inr (status.Error codes.Internal msg) /\
    gorm.users (snd r) = gorm.users s in
  (forall req, internal _ "failed to create user" (handler.CreateUser h req s)) /\
  (forall req, internal _ "failed to get user" (handler.GetUser h req s)) /\
  (forall req, internal _ "failed to get user" (handler.GetUserByEmail h req s)) /\
  (forall req, internal _ "failed to update user" (handler.UpdateUser h req s)) /\
  (forall req, internal _ "failed to delete user" (handler.DeleteUser h req s)) /\
  (forall req, internal _ "failed to list users" (handler.ListUsers h req s)).
Proof.
  intros Hdown h internal. unfold internal, h, userHandler, userService.
  assert (Hfail : forall q, exists msg, gorm.fails db q (gorm.users s) = Some msg).
  { intros q. specialize (Hdown q). destruct (gorm.fails db q _); [eauto|done]. }
  repeat apply conj; intros req.
  - unfold handler.CreateUser. run.
    cbn [handler.service handler.NewUserHandler service.CreateUser
         service.NewUserService].
    unfold service.userService_CreateUser. cbn [service.repo].
    destruct (decide (_ = "")); [cbn; auto|].
    destruct (_ || _); [cbn; auto|].
    destruct (bcrypt.GenerateFromPassword _ _ _) as [hashed|m]; [|cbn; auto].
    run. cbn. unfold repository.userRepository_Create, gorm.First. run.
    cbn [repository.db model.Email].
    destruct (Hfail (gorm.SelectFirst [gorm.EmailEq (pb.CreateUserRequest_Email req)]))
      as [m1 ->].
    rewrite Create_prepares. cbn zeta. cbn [gorm.record gorm.users].
    match goal with |- context [gorm.fails db ?q (gorm.users s)] =>
      destruct (Hfail q) as [m2 ->] end.
    cbn. auto.
  - unfold handler.GetUser. run.
    cbn [handler.service handler.NewUserHandler service.GetUser
         service.NewUserService].
    unfold service.userService_GetUser. cbn [service.repo]. run.
    cbn. unfold repository.userRepository_GetByID, gorm.First. run.
    cbn [repository.db].
    destruct (Hfail (gorm.SelectFirst [gorm.IdEq (pb.GetUserRequest_Id req)]))
      as [m ->].
    cbn. auto.
  - unfold handler.GetUserByEmail. run.
    cbn [handler.service handler.NewUserHandler service.GetUserByEmail
         service.NewUserService].
    unfold service.userService_GetUserByEmail. cbn [service.repo]. run.
    cbn. unfold repository.userRepository_GetByEmail, gorm.First. run.
    cbn [repository.db].
    destruct (Hfail (gorm.SelectFirst
                       [gorm.EmailEq (pb.GetUserByEmailRequest_Email req)]))
      as [m ->].
    cbn. auto.
  - unfold handler.UpdateUser. run.
    cbn [handler.service handler.NewUserHandler service.UpdateUser
         service.NewUserService].
    unfold service.userService_UpdateUser. cbn [service.repo]. run.
    cbn. unfold repository.userRepository_GetByID, gorm.First. run.
    cbn [repository.db].
    destruct (Hfail (gorm.SelectFirst [gorm.IdEq (pb.UpdateUserRequest_Id req)]))
      as [m ->].
    cbn. auto.
  - unfold handler.DeleteUser. run. cbn [handler.service handler.NewUserHandler].
    rewrite DeleteUser_delegates. fold (userRepo db). rewrite Delete_unfold.
    cbn zeta.
    destruct (Hfail (gorm.SoftDelete [gorm.IdEq (pb.DeleteUserRequest_Id req)]))
      as [m ->].
    cbn. auto.
  - unfold handler.ListUsers. run. cbn [handler.service handler.NewUserHandler].
    rewrite ListUsers_delegates.
    cbn. unfold repository.userRepository_List, gorm.Count. run.
    cbn [repository.db].
    match goal with |- context [gorm.fails db ?q (gorm.users s)] =>
      destruct (Hfail q) as [m ->] end.
    cbn. auto.
Qed.

Lemma engine_down_is_internal_witness :
  fst (handler.GetUser (userHandler sample.crypto down_db)
         (pb.mkGetUserRequest "u1") sample.store)
  = inr (status.Error codes.Internal "failed to get user") /\
  gorm.users (snd (handler.GetUser (userHandler sample.crypto down_db)
                     (pb.mkGetUserRequest "u1") sample.store))
  = gorm.users sample.store.
Proof.
  apply (engine_down_is_internal sample.crypto down_db sample.store).
  intros q. discriminate.
Defined.

(** ** The connection string *)

Lemma split_at_space (s t u v : string) :
  spaceless s -> spaceless t ->
  s ++ String " " u = t ++ String " " v -> s = t /\ u = v.
Proof.
  revert t. induction s as [|c s IH]; intros [|d t]; cbn.
  - intros _ _ [= ->]. auto.
  - intros _ [Hd _] [= <-]. contradiction.
  - intros [Hc _] _ [= ->]. contradiction.
  - intros [_ Hs] [_ Ht] [= -> H]. destruct (IH t Hs Ht H) as [-> ->]. auto.
Qed.

(** X19: [GetDSN] tells configurations apart as long as no value before the
    last contains a space: two such configurations with the same
    connection string are the same configuration. *)
Theorem GetDSN_injective (d1 d2 : config.DatabaseConfig) :
  spaceless_values d1 -> spaceless_values d2 ->
  config.GetDSN d1 = config.GetDSN d2 -> d1 = d2.
Proof.
  destruct d1 as [h1 p1 u1 w1 n1 m1], d2 as [h2 p2 u2 w2 n2 m2].
  unfold spaceless_values, config.GetDSN. cbn.
  intros (Hh1 & Hp1 & Hu1 & Hw1 & Hn1) (Hh2 & Hp2 & Hu2 & Hw2 & Hn2) [= H].
  apply split_at_space in H as [-> [= H]]; [|assumption..].
  apply split_at_space in H as [-> [= H]]; [|assumption..].
  apply split_at_space in H as [-> [= H]]; [|assumption..].
  apply split_at_space in H as [-> [= H]]; [|assumption..].
  apply split_at_space in H as [-> [= ->]]; [|assumption..].
  reflexivity.
Qed.

Lemma GetDSN_injective_witness :
  config.GetDSN (config.mkDatabaseConfig "localhost" "5432" "postgres" "postgres"
                                         "users" "disable")
  <> config.GetDSN (config.mkDatabaseConfig "localhost" "5432" "postgres"
                                            "postgres" "orders" "disable").
Proof.
  intros H. apply GetDSN_injective in H; [discriminate| |];
    cbn; repeat split; discriminate.
Defined.

Lemma string_app_assoc (a b c : string) : (a ++ b) ++ c = a ++ (b ++ c).
Proof.
  induction a as [|x a IH]; [reflexivity|].
  change (String x ((a ++ b) ++ c) = String x (a ++ b ++ c)). by rewrite IH.
Qed.

(** X20: [GetDSN] neither quotes nor escapes: a value with a space runs into
    the keys that follow it, so the password [p ++ " dbname=" ++ n] with
    database [m] gives the connection string of the password [p] with
    database [n ++ " dbname=" ++ m]. *)
Theorem GetDSN_unescaped (host port user p n m sslmode : string) :
  config.GetDSN (config.mkDatabaseConfig host port user (p ++ " dbname=" ++ n)
                                         m sslmode)
  = config.GetDSN (config.mkDatabaseConfig host port user p
                                           (n ++ " dbname=" ++ m) sslmode).
Proof.
  unfold config.GetDSN. cbn [config.Host config.Port config.User config.Password
                             config.Database config.SSLMode].
  by rewrite !string_app_assoc.
Qed.
